(* ===== verification/_CoqProject ===== *)
-Q . S2P
Prelude.v
Config.v
PyValue.v
IsoFormat.v
Like.v
Backend.v
Store.v
Repository.v
Handlers.v
Server.v
Lifecycle.v
Service.v
Cost.v
