(* ===== verification/Prelude.v ===== *)
(** * A verification development of the TMS back end's Supabase data layer

    ** The program

    The repository's Python back end has two parts (both under
    [src/back/]):

    - [supabase_config.py]: the class [SupabaseHelper], a stateless facade
      over the Supabase (PostgREST) client [supabase].  Its static methods
      build one query with the client's builder ([table], [select], [eq],
      [ilike], [gte], [lte], [insert], [update], [delete]), execute it and
      post-process [response.data]: [get_all], [get_by_id], [create],
      [update], [delete], [search], [get_by_date_range], [sum_column],
      [get_related_records], [add_related_records],
      [remove_related_records], with the date helpers [format_date] and
      [parse_date], and six convenience wrappers ([get_workers], ...).
    - [route9_supabase.py]: three Flask handlers for the [workers] table,
      [get_workers] (GET), [add_worker] (POST) and [delete_worker]
      (DELETE), each calling [SupabaseHelper] inside a [try] whose
      [except Exception] turns every error into a 500 response.

    The only state is the remote store; the Python code keeps none.  The
    handlers call the helper, the helper calls the store.  Importing
    [supabase_config] runs its lines 8-12, which read [SUPABASE_URL] and
    [SUPABASE_KEY] from the environment and build the shared client with
    [create_client]; [route9_supabase.py] imports it (line 3) and serves
    with [app.run(debug=True)] (lines 88-89).

    ** The files

    - [Prelude] (this file): Python's exceptions as a Rocq type
      [py_exc], the error type [res] and the state-and-error monad [st]
      that threads the store through a handler (the store is returned also
      when an exception is raised: what was written before the raise stays
      written), their notations (scope [py_scope]), the tactics and the
      hint databases [pydb] / [py_simpl] shared by the development.
    - [Config]: the module-level code of [supabase_config.py]: [getenv]
      over the environment, [create_client] with supabase-py's checks,
      and [module_init], the client or the exception of the import.
    - [PyValue]: the Python values the code handles ([None], [bool],
      [int], [float], [str], [date], [datetime], [list], [dict]) as the
      inductive [pyval]; dicts as association lists in insertion order
      with [dict.get] and [items]; truthiness ([bool(x)]); the [+] of
      [sum] with its int, float and bool cases and its [TypeError].
    - [IsoFormat]: [date.isoformat], [datetime.isoformat],
      [datetime.fromisoformat] (the grammar of CPython 3.7 to 3.10),
      [str.replace], and [SupabaseHelper.format_date] / [parse_date].
    - [Like]: PostgreSQL's [ILIKE] pattern matching, used by [search].
    - [Backend]: the query builder of the Supabase client as a query
      record, and the class [Backend] that states what the helper relies on
      of the store ([execute] and its laws).
    - [Store]: an in-memory model of the PostgREST store (tables with a
      schema, rows in insertion order, serial ids, filters, embedding of
      a related table, bulk insert, JSON serialisation of the request
      body) and its [Backend] instance.
    - [Repository]: every method of [SupabaseHelper], over any [Backend].
    - [Handlers]: [request.get_json()] on a request body ([get_json]),
      the three Flask handlers and their HTTP responses.
    - [Server]: the server as a transition system: a [request] per route,
      Flask's dispatch [handle], the stores [reachable] from an empty
      database, and an abstract specification [worker_spec] of the routes.
    - [Lifecycle]: [run], the server answering a sequence of requests,
      [serve], the import of [supabase_config] composed with [app.run],
      and the ids of [workers] along a run.
    - [Service]: the shape of every answer ([response_ok]), shown with
      [returns], a postcondition on the results of a computation.
    - [Cost]: the round trips to the store, counted by instrumenting any
      store [S] as [S * nat] ([counted_backend]), and [costs k m], at most
      [k] of them.

    ** How the files correspond to the code

    - [Repository]: [Section Repository] holds one definition per method
      of [SupabaseHelper] (same names), each a computation in [st S] over
      any [S] with a [Backend] instance: the query is built with
      [Backend.Client], run with [execute], and [response.data] is
      post-processed as in the code ([data_or_empty], [first_or_none],
      [nonempty], [column_sum]).  [create] and [update] share the loop
      [format_data] / [format_item].
    - [Handlers]: [Module Routes] holds [get_workers], [add_worker] (its
      [for] loop is [add_worker_loop], whose [inl] result is the early
      [return] of a 400) and [delete_worker]; [st_try] with
      [server_error] is the [try]/[except Exception] of each handler.
    - [Store]: [store_execute] is the store's answer to one request;
      [store_laws] proves that it satisfies [BackendLaws].  The stores
      [sample_store] and [names_store] are the concrete inputs of the
      witnesses and examples.

    ** What the theorems show (PROJECT.json lists them as C1..C40)

    - Against the interface ([Section Contract], [Section Update] and
      [Section Effects] of [Repository], proved from [BackendLaws] only,
      so for every store that satisfies it): [create] then [get_by_id]
      gives back the record with the data in it, dates as ISO strings
      (C1), and deleting its id restores every table (C12); so does
      [update] (C11), which returns [None] and changes
      nothing on an absent id (C26); [get_all] returns exactly the rows
      matching every filter (C4), whatever their order; [delete] of
      an absent id is [False] and changes nothing (C5), of a present id
      [True] and removes exactly its rows (C13); [sum_column] of no row is
      the float [0.0] (C6), and of integer or NULL cells their int sum
      (C20); [search] is a case-insensitive substring search when the
      term has no [%], [_], [\] or [*] (C14), a search for [_] returns
      every non-empty text (C15), and a [*] in the term, which PostgREST
      reads as [%], is a wildcard: [a*b] finds [a], then [b] (C34);
      [Like.like_correct] shows the executable matcher equal to the
      declarative LIKE semantics [Like.lmatch] on patterns with complete
      escapes, which every pattern [search] sends has;
      [get_by_date_range] on ISO date cells is
      the chronological range (C16), via [date_isoformat_leb] of
      [IsoFormat], and raises [AttributeError] on a non-date bound (C30);
      [remove_related_records] with [{}] empties the junction table (C29).
    - On the store model: [add_related_records] of a row holding a date
      raises [json.dumps]'s [TypeError] for the first one and writes
      nothing (C27); [get_related_records] embeds, for each junction row
      with the given key, the row its foreign key refers to (C32);
      [Store.store_execute_wf]: every request keeps the ids of every
      table unique.
    - ISO dates ([IsoFormat]): [parse_date (format_date d) = d] for every
      valid date (C17), the date part for a datetime (C18), and
      [ValueError] for a well-formed string naming no day (C19).
    - Handlers ([Section Correct] of [Routes]): the batch POST is not
      atomic, earlier inserts persist on a 400 or 500 (C2); a valid batch
      answers 201 with the created records (C7); the 400 and 500 branches
      of POST (C21, C22, C23); DELETE answers 200 with the name and
      removes exactly the rows with that id (C8), 404 on an absent id
      (C9); GET answers 200 with every row (C25).
    - The server ([Server]): every handled request refines the abstract
      specification [worker_spec] (C3); the server always answers, never
      propagating an exception; and, by rule induction on
      [reachable], every worker has a truthy [name] and [number] (C33),
      shown of the abstract steps and carried to the stores through the
      refinement lemmas.  The other inductions on [reachable] rest on
      [preserves]: a handler keeps every property that each query it
      sends keeps ([Server.route_query]), shown once by the tactic
      [solve_preserves] and the hint database [preserve].
      A [POST] keeps the rows and appends at most one per item (C39).
      Bodies are given as Flask receives them ([req_body]): one that
      does not parse, or is not JSON, is answered [500], not [400] (C37).
    - [Service]: every answer has the shape of the HTTP surface of the
      specification: [200]/[201] with records or a message, [400]/[404]/
      [500] with [{'error': <str>}] (C38).
    - [Lifecycle] and [Config]: with [SUPABASE_URL] unset the import
      raises and the server never starts (C35); with an [https] URL and an
      accepted key the client is built on them (C36); every row of
      [workers] keeps an integer [id] that its sequence has given out,
      at least [0] and below the sequence's next value, along any run
      (C10, the invariant [workers_ids]: it holds because no route sends
      an [id], [Server.route_query]); so from every reachable store a
      [POST] of valid items answers [201] with every item created, no
      insert failing (C31), and the [DELETE]s of the ids the table holds
      empty it (C40, liveness).
    - [Cost]: termination with a bound on the work: every request is
      answered after at most 1 (GET), 2 (DELETE) or one per item (POST)
      round trips to the store, and every method of [SupabaseHelper]
      makes at most one (C24), as section 5 of the specification says.
    - The [bigint] [id] ([Backend.in_bigint]): Flask's [<int:id>] accepts
      any number of digits, and a [DELETE] of an id above [2^63 - 1] is
      answered [500] with [str] of the client's [APIError], the [repr] of
      PostgREST's error dict for PostgreSQL's error 22003, not [404]
      (C28); the
      theorems about [get_by_id], [delete] and [update] of an id assume
      it fits ([in_bigint i = true]), as the store rejects it otherwise.

    ** Modelling choices, bounds and what is not modelled

    - Python [int] is [Z] (unbounded, as in Python); [float] is Rocq's
      primitive binary64 [float]; [int] to [float] conversion rounds to
      nearest and raises [OverflowError] beyond the largest double.
    - No fuel is needed: every function is structurally recursive, so
      each one terminates and the theorems about results are total.
    - [str] of a float, list or dict (only the message of
      [delete_worker] can print one) is the section variable
      [str_other] of [Routes]: its [repr] is not modelled.
    - Library code is translated from its source: [datetime.fromisoformat]
      from CPython 3.7-3.10's C implementation, [LIKE] from PostgreSQL's
      [like_match.c]; neither is under src/, so only the matcher, which
      stands for the store's [ILIKE], is in the map (as spec_modelled).
    - The remote store is not code of this repository: [Backend] and
      [Store] model it from the spec and from PostgREST's documented
      behaviour (marked spec_modelled in the map).  Column types are not
      modelled: a cell holds the JSON value that was written.  The client
      sends a filter's value as the text [str(value)] ([Backend.sql_text]),
      which a text cell is compared with; PostgREST reads [*] in an
      [ilike] value as [%] ([Like.pgrst_like_pattern]).  A rejected
      request raises postgrest's [APIError] with PostgREST's [code],
      [details], [hint] and [message]; [str] of it, which the handlers
      answer with, is the [repr] of that dict ([exc_message]).
    - Texts are byte strings ([string]); [ILIKE] folds ASCII case only,
      and [_] matches one byte: the theorems about [search] speak of
      ASCII case, which is exact for ASCII texts.
    - Rows come back in insertion order, and updated rows stay in
      place; PostgreSQL promises no order without [ORDER BY], so the
      theorems that list rows in table order (C4, C7, C14, C25, C34)
      hold of a store that keeps that order.  A [DELETE] without filter
      removes every row, as the specification's empty filter narrows
      nothing (C29); a database with [pg-safeupdate] loaded refuses it.
    - A rejected insert writes no row, but keeps the [id] sequence
      values drawn for the rows formed before it failed, as [nextval]
      is never rolled back ([Store.insert_failed]).
    - Library behaviour fixed by version: [request.get_json] is Flask's
      and werkzeug's from 2.3 on (before 2.1 a body with another
      [Content-Type] gave [None], hence a 400); the JSON decoder's message
      is taken as given ([MalformedJson err]).  [create_client]'s key check
      changed between supabase-py releases, so it is the parameter
      [key_ok] of [Config], and every theorem holds for all of them.
    - Not modelled: the client's network setup; Flask's [<int:id>]
      converter, which only accepts non-negative ids ([request] allows any
      [Z]; the liveness theorem only sends non-negative ones); the JSON
      encoding of responses ([jsonify] is the identity on the model's JSON
      values); [back.app] (not under src/) and the unused [CORS] import;
      PostgreSQL's column types other than the [bigint] [id] (its range
      is checked on filters and on inserts, and its sequence stops at
      [2^63 - 1]; a text compared with [id] is decided per row, where
      PostgreSQL would reject it); and concurrency: the
      spec defines none, and the server is modelled as answering one
      request at a time.
*)

From stdpp Require Export base list gmap strings.
From Stdlib Require Export ZArith Lia.
From Stdlib Require Import Ascii.

Declare Scope py_scope.
Delimit Scope py_scope with py.
Open Scope py_scope.

(** ** Python exceptions *)

(** The exceptions the modelled code can raise.  [APIError] is
    [postgrest.exceptions.APIError], raised by [execute()] when the store
    rejects a request, with the four fields of PostgREST's JSON error
    object ([code], [details], [hint], [message]; [details] and [hint]
    may be [null]); [SupabaseException] is raised by [create_client];
    [HTTPException] is werkzeug's, raised by [request.get_json()], with
    its status code and its [str], ["<code> <name>: <description>"]. *)
Inductive py_exc :=
| TypeError (msg : string)
| ValueError (msg : string)
| KeyError (key : string)
| AttributeError (msg : string)
| OverflowError (msg : string)
| APIError (code : string) (details hint : option string) (msg : string)
| SupabaseException (msg : string)
| HTTPException (code : Z) (msg : string).

(** ** [repr] of a [str]

    CPython's [unicode_repr]: the text between single quotes, or between
    double quotes when it holds a single quote and no double quote; the
    quote and the backslash are escaped, tab, newline and carriage return
    are written [\t], [\n], [\r], and the other control characters
    [\xhh].  Texts are byte strings here: a byte of a multi-byte UTF-8
    character is kept as it is, as [repr] keeps a printable character. *)

Definition hex_digit (n : nat) : ascii :=
  ascii_of_nat (if (n <? 10)%nat then 48 + n else 87 + n)%nat.

Definition repr_char (q c : ascii) : list ascii :=
  let n := nat_of_ascii c in
  if Ascii.eqb c q || Ascii.eqb c "\" then ["\"%char; c]
  else if Ascii.eqb c "009" then ["\"%char; "t"%char]
  else if Ascii.eqb c "010" then ["\"%char; "n"%char]
  else if Ascii.eqb c "013" then ["\"%char; "r"%char]
  else if (n <? 32)%nat || (n =? 127)%nat then ["\"%char; "x"%char; hex_digit (n / 16); hex_digit (n mod 16)]
  else [c].

Definition py_repr_str (s : string) : string :=
  let l := String.list_ascii_of_string s in
  let q := if existsb (Ascii.eqb "'") l && negb (existsb (Ascii.eqb "034") l) then "034"%char else "'"%char in
  String.string_of_list_ascii (q :: flat_map (repr_char q) l ++ [q]).

(** [repr] of a [str] or [None]. *)
Definition py_repr_opt (o : option string) : string :=
  match o with Some s => py_repr_str s | None => "None" end.

(** [str(e)], the message a handler puts in its 500 response.  The
    message of a [KeyError] is the [repr] of the key.  postgrest-py's
    [APIError.__init__] passes [str(self)] to [Exception.__init__] while
    the exception's [args] are still the error dict, and defines no
    [__str__]: [str] of an [APIError] is the [repr] of the dict of the
    JSON error, its keys in the order PostgREST writes them. *)
Definition exc_message (e : py_exc) : string :=
  match e with
  | TypeError m | ValueError m | AttributeError m | OverflowError m
  | SupabaseException m | HTTPException _ m => m
  | KeyError k => py_repr_str k
  | APIError code details hint m =>
      "{'code': " ++ py_repr_str code ++ ", 'details': " ++ py_repr_opt details
      ++ ", 'hint': " ++ py_repr_opt hint ++ ", 'message': " ++ py_repr_str m ++ "}"
  end.

(** ** The error type *)

Inductive res (A : Type) :=
| Ok (a : A)
| Err (e : py_exc).
Arguments Ok {A} a.
Arguments Err {A} e.

Definition res_bind {A B} (r : res A) (f : A -> res B) : res B :=
  match r with Ok a => f a | Err e => Err e end.

Notation "'let?' x := r 'in' k" := (res_bind r (fun x => k))
  (at level 10, x name, r at level 100, k at level 200) : py_scope.
Notation "'let?' ' p := r 'in' k" := (res_bind r (fun x => match x with p => k end))
  (at level 10, p pattern, r at level 100, k at level 200) : py_scope.

(** [res_map f xs]: the list comprehension [[f x for x in xs]] whose
    element computation may raise. *)
Fixpoint res_map {A B} (f : A -> res B) (xs : list A) : res (list B) :=
  match xs with
  | [] => Ok []
  | x :: xs' => let? y := f x in let? ys := res_map f xs' in Ok (y :: ys)
  end.

(** ** The state-and-error monad

    A computation over a state [S] returns the new state together with a
    value or a raised exception.  The state is returned also on [Err]: a
    write that happened before the exception is not undone, as in Python. *)
Definition st (S A : Type) := S -> S * res A.

Definition st_ret {S A} (a : A) : st S A := fun s => (s, Ok a).
Definition st_raise {S A} (e : py_exc) : st S A := fun s => (s, Err e).
Definition st_bind {S A B} (m : st S A) (f : A -> st S B) : st S B :=
  fun s => match m s with
           | (s', Ok a) => f a s'
           | (s', Err e) => (s', Err e)
           end.
Definition st_lift {S A} (r : res A) : st S A := fun s => (s, r).

(** [try: m  except Exception as e: h e] *)
Definition st_try {S A} (m : st S A) (h : py_exc -> st S A) : st S A :=
  fun s => match m s with
           | (s', Ok a) => (s', Ok a)
           | (s', Err e) => h e s'
           end.

Notation "x <- m ;; k" := (st_bind m (fun x => k))
  (at level 100, m at next level, right associativity) : py_scope.

(** A [for] loop over a list whose body may raise: the effects of the
    iterations before a raise are kept. *)
Fixpoint st_for {S A B} (xs : list A) (body : B -> A -> st S B) (acc : B) : st S B :=
  match xs with
  | [] => st_ret acc
  | x :: xs' => acc' <- body acc x ;; st_for xs' body acc'
  end.

(** ** Hint databases and tactics *)

Create HintDb pydb discriminated.
Create Rewrite HintDb py_simpl.

(** Unfold the monad and split on its results. *)
Ltac st_unfold :=
  unfold st_bind, st_ret, st_raise, st_lift, st_try, res_bind in *.

Ltac case_res :=
  repeat match goal with
         | |- context [match ?m with Ok _ => _ | Err _ => _ end] =>
             let E := fresh "E" in destruct m eqn:E
         | H : context [match ?m with Ok _ => _ | Err _ => _ end] |- _ =>
             let E := fresh "E" in destruct m eqn:E
         | |- context [match ?m with (_, _) => _ end] =>
             let E := fresh "E" in destruct m eqn:E
         | H : context [match ?m with (_, _) => _ end] |- _ =>
             let E := fresh "E" in destruct m eqn:E
         end.

(** ** Generic lemmas on the monads *)

Lemma res_bind_ok {A B} (a : A) (f : A -> res B) : res_bind (Ok a) f = f a.
Proof. reflexivity. Qed.

Lemma res_bind_err {A B} (e : py_exc) (f : A -> res B) : res_bind (Err e) f = Err e.
Proof. reflexivity. Qed.

Lemma res_bind_Ok_inv {A B} (r : res A) (f : A -> res B) b :
  res_bind r f = Ok b -> exists a, r = Ok a /\ f a = Ok b.
Proof. destruct r; simpl; [eauto | discriminate]. Qed.

Lemma st_bind_ret_l {S A B} (a : A) (f : A -> st S B) s :
  st_bind (st_ret a) f s = f a s.
Proof. reflexivity. Qed.

Lemma st_bind_assoc {S A B C} (m : st S A) (f : A -> st S B) (g : B -> st S C) s :
  st_bind (st_bind m f) g s = st_bind m (fun a => st_bind (f a) g) s.
Proof. unfold st_bind. destruct (m s) as [s' [a|e]]; reflexivity. Qed.

Lemma st_bind_ok {S A B} (m : st S A) (f : A -> st S B) s s' a :
  m s = (s', Ok a) -> st_bind m f s = f a s'.
Proof. unfold st_bind. intros ->. reflexivity. Qed.

Lemma st_bind_err {S A B} (m : st S A) (f : A -> st S B) s s' e :
  m s = (s', Err e) -> st_bind m f s = (s', Err e).
Proof. unfold st_bind. intros ->. reflexivity. Qed.

Lemma res_map_length {A B} (f : A -> res B) xs ys :
  res_map f xs = Ok ys -> length ys = length xs.
Proof.
  revert ys; induction xs as [|x xs IH]; simpl; intros ys H.
  - by injection H as <-.
  - destruct (f x); [|discriminate]. simpl in H.
    destruct (res_map f xs) eqn:E; [|discriminate]. injection H as <-.
    simpl. by rewrite (IH _ eq_refl).
Qed.

Lemma res_map_Forall2 {A B} (f : A -> res B) xs ys :
  res_map f xs = Ok ys -> Forall2 (fun x y => f x = Ok y) xs ys.
Proof.
  revert ys; induction xs as [|x xs IH]; simpl; intros ys H.
  - injection H as <-. constructor.
  - destruct (f x) eqn:Ex; [|discriminate]. simpl in H.
    destruct (res_map f xs) eqn:E; [|discriminate]. injection H as <-.
    constructor; auto.
Qed.

(** The first [Some] of [f] along a list: the first element of a
    traversal that stops it. *)
Fixpoint first_some {A B} (f : A -> option B) (l : list A) : option B :=
  match l with
  | [] => None
  | x :: l' => match f x with Some b => Some b | None => first_some f l' end
  end.

Lemma first_some_Some {A B} (f : A -> option B) l b :
  first_some f l = Some b -> exists x, x ∈ l /\ f x = Some b.
Proof.
  induction l as [|x l IH]; simpl; [discriminate|].
  destruct (f x) eqn:E; [intros [= <-]; exists x; split; [left|done]|].
  intros H. destruct (IH H) as (y & Hy & Hb). exists y. split; [by right|done].
Qed.

Lemma first_some_Exists {A B} (f : A -> option B) l :
  Exists (fun x => is_Some (f x)) l -> is_Some (first_some f l).
Proof.
  induction 1 as [x l [b Hb]|x l _ IH]; simpl; [by rewrite Hb|]. by destruct (f x).
Qed.

(** Membership in [List.filter], in stdpp's [∈]. *)
Lemma elem_of_list_filter_bool {A} (p : A -> bool) (l : list A) x :
  x ∈ List.filter p l <-> x ∈ l /\ p x = true.
Proof. rewrite !list_elem_of_In. apply filter_In. Qed.

#[export] Hint Rewrite @res_bind_ok @res_bind_err @st_bind_ret_l : py_simpl.
#[export] Hint Resolve res_map_length res_map_Forall2 : pydb.

(** Turn boolean comparisons of [Z] and [nat] in the hypotheses into
    propositions. *)
(** Close a decidable goal about concrete data by evaluation. *)
(** [list_ascii_of_string] turns [++] of strings into [++] of lists. *)
Lemma list_ascii_of_string_append s1 s2 :
  String.list_ascii_of_string (s1 ++ s2)%string
  = String.list_ascii_of_string s1 ++ String.list_ascii_of_string s2.
Proof. induction s1 as [|c s1 IH]; simpl; [done|]. by rewrite IH. Qed.

Lemma string_append_assoc (s1 s2 s3 : string) :
  (s1 ++ (s2 ++ s3))%string = ((s1 ++ s2) ++ s3)%string.
Proof. induction s1 as [|c s1 IH]; [reflexivity|]. exact (f_equal (String.String c) IH). Qed.

(** A [filter] that keeps every element, or none. *)
Lemma list_filter_all {A} (P : A -> Prop) `{!forall x, Decision (P x)} (l : list A) :
  Forall P l -> filter P l = l.
Proof. induction 1; [done|]. rewrite filter_cons_True by done. by f_equal. Qed.

Lemma list_filter_none {A} (P : A -> Prop) `{!forall x, Decision (P x)} (l : list A) :
  Forall (fun x => ~ P x) l -> filter P l = [].
Proof. induction 1; [done|]. by rewrite filter_cons_False. Qed.

Ltac by_eval := apply (bool_decide_unpack _); vm_compute; exact I.

Ltac bool_hyps :=
  repeat match goal with
         | H : (_ && _) = true |- _ => apply andb_prop in H as [? ?]
         | H : Z.leb _ _ = true |- _ => apply Z.leb_le in H
         | H : Z.ltb _ _ = true |- _ => apply Z.ltb_lt in H
         | H : Z.eqb _ _ = true |- _ => apply Z.eqb_eq in H
         | H : Z.eqb _ _ = false |- _ => apply Z.eqb_neq in H
         | H : Nat.leb _ _ = true |- _ => apply Nat.leb_le in H
         | H : Nat.ltb _ _ = true |- _ => apply Nat.ltb_lt in H
         | H : Nat.eqb _ _ = true |- _ => apply Nat.eqb_eq in H
         | H : Nat.eqb _ _ = false |- _ => apply Nat.eqb_neq in H
         end.

(** Evaluate the boolean comparisons of the goal that [lia] decides. *)
Ltac bool_goal :=
  repeat match goal with
         | |- context [Z.leb ?a ?b] => rewrite (proj2 (Z.leb_le a b)) by lia
         | |- context [Z.leb ?a ?b] => rewrite (proj2 (Z.leb_gt a b)) by lia
         | |- context [Z.ltb ?a ?b] => rewrite (proj2 (Z.ltb_lt a b)) by lia
         | |- context [Z.ltb ?a ?b] => rewrite (proj2 (Z.ltb_ge a b)) by lia
         | |- context [Z.eqb ?a ?b] => rewrite (proj2 (Z.eqb_eq a b)) by lia
         | |- context [Z.eqb ?a ?b] => rewrite (proj2 (Z.eqb_neq a b)) by lia
         | |- context [Nat.leb ?a ?b] => rewrite (proj2 (Nat.leb_le a b)) by lia
         | |- context [Nat.leb ?a ?b] => rewrite (proj2 (Nat.leb_gt a b)) by lia
         | |- context [Nat.ltb ?a ?b] => rewrite (proj2 (Nat.ltb_lt a b)) by lia
         | |- context [Nat.ltb ?a ?b] => rewrite (proj2 (Nat.ltb_ge a b)) by lia
         | |- context [Nat.eqb ?a ?b] => rewrite (proj2 (Nat.eqb_eq a b)) by lia
         | |- context [Nat.eqb ?a ?b] => rewrite (proj2 (Nat.eqb_neq a b)) by lia
         end; cbn [andb orb negb].

(** ** [repr] of a plain text *)

(** A character [repr] writes as it is between single quotes. *)
Definition plain_char (c : ascii) : bool :=
  let n := nat_of_ascii c in
  (32 <=? n)%nat && (n <? 127)%nat && negb (Ascii.eqb c "'") && negb (Ascii.eqb c "\").

Lemma repr_char_plain c : plain_char c = true -> repr_char "'" c = [c].
Proof.
  unfold plain_char, repr_char. intros H.
  apply andb_prop in H as [H Hb]. apply andb_prop in H as [H Hq].
  apply andb_prop in H as [Hlo Hhi]. apply Nat.leb_le in Hlo. apply Nat.ltb_lt in Hhi.
  apply negb_true_iff in Hq, Hb. rewrite Hq, Hb. simpl.
  destruct (Ascii.eqb_spec c "009") as [->|]; [compute in Hlo; lia|].
  destruct (Ascii.eqb_spec c "010") as [->|]; [compute in Hlo; lia|].
  destruct (Ascii.eqb_spec c "013") as [->|]; [compute in Hlo; lia|].
  rewrite (proj2 (Nat.ltb_ge _ _)), (proj2 (Nat.eqb_neq _ _)) by lia. done.
Qed.

Lemma flat_map_repr_plain l : forallb plain_char l = true -> flat_map (repr_char "'") l = l.
Proof.
  induction l as [|c l IH]; [done|]. simpl. intros H. apply andb_prop in H as [Hc Hl].
  rewrite repr_char_plain by done. simpl. by rewrite IH.
Qed.

Lemma string_of_list_ascii_app s l :
  String.string_of_list_ascii (String.list_ascii_of_string s ++ l) = (s ++ String.string_of_list_ascii l)%string.
Proof. induction s as [|c s IH]; [done|]. simpl. by rewrite IH. Qed.

(** A text of plain characters is quoted as it is. *)
Lemma py_repr_plain s :
  forallb plain_char (String.list_ascii_of_string s) = true ->
  py_repr_str s = ("'" ++ s ++ "'")%string.
Proof.
  unfold py_repr_str. intros H.
  assert (Hq : existsb (Ascii.eqb "'") (String.list_ascii_of_string s) = false).
  { apply not_true_iff_false. intros Hx. apply existsb_exists in Hx as (c & Hc & Ec).
    apply Ascii.eqb_eq in Ec as <-. eapply forallb_forall in H; [|exact Hc]. done. }
  rewrite Hq, flat_map_repr_plain by done. simpl. f_equal. apply string_of_list_ascii_app.
Qed.


