(* ===== verification/Config.v ===== *)
(** * Client configuration: the top of [supabase_config.py]

    Lines 8-12 of [src/back/supabase_config.py] run when the module is
    imported: they read [SUPABASE_URL] and [SUPABASE_KEY] from the
    environment with placeholder defaults, and build the one shared
    client with [create_client].  The process environment is a finite
    map [environ]; [os.getenv] is [getenv].  [create_client] is
    supabase-py's ([SyncClient.__init__]): it raises [SupabaseException]
    on an empty URL or key and on a URL that does not match
    [^(https?)://.+], in that order, then checks the key.  The key check
    differs between supabase-py releases (a JWT regular expression in
    2.0 to 2.10, none later), so it is the section variable [key_ok].
    The client keeps the URL and key and the REST endpoint
    [url/rest/v1] that every query of [Backend] goes to. *)

From Stdlib Require Import Ascii.
From S2P Require Import Prelude.

Open Scope string_scope.
Open Scope list_scope.

(** [os.environ] *)
Definition environ := gmap string string.

(** [os.getenv(key, default)]: the value when the variable is set, even
    to the empty string; the default otherwise. *)
Definition getenv (env : environ) (key default : string) : string :=
  match env !! key with Some v => v | None => default end.

(** Line 8: [SUPABASE_URL = os.getenv('SUPABASE_URL', 'your-supabase-url')] *)
Definition SUPABASE_URL (env : environ) : string :=
  getenv env "SUPABASE_URL" "your-supabase-url".

(** Line 9: [SUPABASE_KEY = os.getenv('SUPABASE_KEY', 'your-supabase-anon-key')] *)
Definition SUPABASE_KEY (env : environ) : string :=
  getenv env "SUPABASE_KEY" "your-supabase-anon-key".

(** The rest of [s] after the prefix [p], if [s] starts with it. *)
Fixpoint strip_prefix (p s : list ascii) : option (list ascii) :=
  match p, s with
  | [], _ => Some s
  | c :: p', d :: s' => if Ascii.eqb c d then strip_prefix p' s' else None
  | _ :: _, [] => None
  end.

(** [re.match(r"^(https?)://.+", url)]: a scheme [http] or [https],
    then [://], then one character that is not a newline ([.]). *)
Definition url_ok (url : string) : bool :=
  let u := String.list_ascii_of_string url in
  let after p := match strip_prefix (String.list_ascii_of_string p) u with
                 | Some (c :: _) => negb (Ascii.eqb c "010"%char)
                 | _ => false
                 end in
  after "https://" || after "http://".

(** The shared client: what [create_client] keeps of its arguments. *)
Record client := mkClient { supabase_url : string; supabase_key : string; rest_url : string }.

Section Client.
(** The key check of the supabase-py release in use. *)
Context (key_ok : string -> bool).

(** [create_client(supabase_url, supabase_key)] *)
Definition create_client (url key : string) : res client :=
  if String.eqb url "" then Err (SupabaseException "supabase_url is required")
  else if String.eqb key "" then Err (SupabaseException "supabase_key is required")
  else if negb (url_ok url) then Err (SupabaseException "Invalid URL")
  else if negb (key_ok key) then Err (SupabaseException "Invalid API key")
  else Ok (mkClient url key (url ++ "/rest/v1")%string).

(** Lines 8-12, run on [import]: the module-level [supabase] client, or
    the exception that makes the import fail. *)
Definition module_init (env : environ) : res client :=
  create_client (SUPABASE_URL env) (SUPABASE_KEY env).

End Client.

(** ** Theorems *)

Lemma strip_prefix_app p s : strip_prefix p (p ++ s) = Some s.
Proof. induction p as [|c p IH]; simpl; [done|]. by rewrite Ascii.eqb_refl. Qed.

Lemma getenv_set env k v d : env !! k = Some v -> getenv env k d = v.
Proof. unfold getenv. by intros ->. Qed.

Lemma getenv_unset env k d : env !! k = None -> getenv env k d = d.
Proof. unfold getenv. by intros ->. Qed.

(** An [https] URL with a host passes the URL check. *)
Lemma url_ok_https host c :
  String.get 0 host = Some c -> c <> "010"%char -> url_ok ("https://" ++ host)%string = true.
Proof.
  intros Hc Hn. unfold url_ok. rewrite list_ascii_of_string_append.
  rewrite strip_prefix_app. destruct host as [|c' host]; [discriminate|].
  injection Hc as ->. simpl. by destruct (Ascii.eqb_spec c "010"%char).
Qed.

(** When [SUPABASE_URL] is not set, the import raises: the placeholder
    has no scheme, unless [SUPABASE_KEY] is set to the empty string. *)
Lemma module_init_unset_url key_ok env :
  env !! "SUPABASE_URL" = None ->
  module_init key_ok env
  = Err (SupabaseException (if String.eqb (SUPABASE_KEY env) "" then "supabase_key is required"
                            else "Invalid URL")).
Proof.
  intros Hu. unfold module_init, create_client, SUPABASE_URL.
  rewrite getenv_unset by done. simpl. by destruct (String.eqb (SUPABASE_KEY env) "").
Qed.

(** C36: with [SUPABASE_URL] set to an [https] URL with a host and
    [SUPABASE_KEY] set to a key the library accepts, importing the module
    builds the client on exactly those values, its REST endpoint at
    [/rest/v1]. *)
Theorem module_init_ok key_ok env host c key :
  env !! "SUPABASE_URL" = Some ("https://" ++ host)%string -> env !! "SUPABASE_KEY" = Some key ->
  String.get 0 host = Some c -> c <> "010"%char -> key <> "" -> key_ok key = true ->
  module_init key_ok env = Ok (mkClient ("https://" ++ host)%string key ("https://" ++ host ++ "/rest/v1")%string).
Proof.
  intros Hu Hk Hc Hn Hne Hok. unfold module_init, create_client, SUPABASE_URL, SUPABASE_KEY.
  rewrite (getenv_set _ _ _ _ Hu), (getenv_set _ _ _ _ Hk), (url_ok_https _ _ Hc Hn), Hok.
  rewrite (proj2 (String.eqb_neq key "") Hne). simpl. by rewrite string_append_assoc.
Qed.

(** ** Witnesses *)

(** An environment with neither variable set. *)
Definition env_empty : environ := ∅.

Definition env_configured : environ :=
  <["SUPABASE_URL" := "https://abc.supabase.co"]> (<["SUPABASE_KEY" := "eyJ.eyJ.sig"]> ∅).

Lemma module_init_ok_witness :
  module_init (fun _ => true) env_configured
  = Ok (mkClient "https://abc.supabase.co" "eyJ.eyJ.sig" "https://abc.supabase.co/rest/v1").
Proof.
  apply (module_init_ok (fun _ => true) env_configured "abc.supabase.co" "a"%char "eyJ.eyJ.sig");
    [reflexivity | reflexivity | reflexivity | discriminate | discriminate | reflexivity].
Defined.
