(* ===== verification/PyValue.v ===== *)
(** * Python values, dicts, truthiness and the [+] of [sum]

    The values [SupabaseHelper] and the handlers pass around: JSON values
    read from the store or from a request, plus the [date] and [datetime]
    objects [format_date] converts.  A [dict] is an association list in
    insertion order (Python 3.7+ dict order).  This file also holds
    Python's truthiness, [dict.get], and the [+] used by [sum] in
    [SupabaseHelper.sum_column]. *)

From Stdlib Require Import Floats.
From S2P Require Import Prelude.

Open Scope string_scope.
Open Scope list_scope.
Open Scope Z_scope.

(** ** Dates *)

(** [datetime.date]: the constructor checks [1 <= year <= 9999],
    [1 <= month <= 12] and the day against the month. *)
Record date := mkDate { year : Z; month : Z; day : Z }.

(** A naive [datetime.datetime] (no [tzinfo]). *)
Record datetime := mkDateTime {
  dt_date : date; hour : Z; minute : Z; second : Z; microsecond : Z }.

Definition is_leap (y : Z) : bool :=
  (Z.eqb (y mod 4) 0 && negb (Z.eqb (y mod 100) 0)) || Z.eqb (y mod 400) 0.

Definition days_in_month (y m : Z) : Z :=
  match m with
  | 2 => if is_leap y then 29 else 28
  | 4 | 6 | 9 | 11 => 30
  | _ => 31
  end.

Definition valid_date (d : date) : bool :=
  (1 <=? year d) && (year d <=? 9999) && (1 <=? month d) && (month d <=? 12)
  && (1 <=? day d) && (day d <=? days_in_month (year d) (month d)).

Definition valid_time (h mi s us : Z) : bool :=
  (0 <=? h) && (h <? 24) && (0 <=? mi) && (mi <? 60) && (0 <=? s) && (s <? 60)
  && (0 <=? us) && (us <? 1000000).

Definition valid_datetime (dt : datetime) : bool :=
  valid_date (dt_date dt)
  && valid_time (hour dt) (minute dt) (second dt) (microsecond dt).

(** [date.__lt__] and [date.__le__]: lexicographic on (year, month, day). *)
Definition date_lt (a b : date) : bool :=
  (year a <? year b)
  || ((year a =? year b) && ((month a <? month b)
                             || ((month a =? month b) && (day a <? day b)))).

#[export] Instance date_eq_dec : EqDecision date.
Proof. solve_decision. Defined.
#[export] Instance datetime_eq_dec : EqDecision datetime.
Proof. solve_decision. Defined.

Definition date_le (a b : date) : bool := date_lt a b || bool_decide (a = b).


(** ** Values *)

#[warnings="-register-all"]
Inductive pyval :=
| PNone
| PBool (b : bool)
| PInt (z : Z)
| PFloat (f : float)
| PStr (s : string)
| PDate (d : date)
| PDateTime (dt : datetime)
| PList (l : list pyval)
| PDict (d : list (string * pyval)).

(** Induction on values with a hypothesis for every element of a list
    and every value of a dict, which the generated principle lacks. *)
Lemma pyval_ind' (P : pyval -> Prop) :
  P PNone -> (forall b, P (PBool b)) -> (forall z, P (PInt z)) -> (forall f, P (PFloat f)) ->
  (forall s, P (PStr s)) -> (forall d, P (PDate d)) -> (forall dt, P (PDateTime dt)) ->
  (forall l, Forall P l -> P (PList l)) ->
  (forall d, Forall (fun kv => P (snd kv)) d -> P (PDict d)) ->
  forall v, P v.
Proof.
  intros H1 H2 H3 H4 H5 H6 H7 H8 H9. fix IH 1.
  intros [| | | | | | |l|d]; [exact H1|apply H2|apply H3|apply H4|apply H5|apply H6|apply H7| |].
  - apply H8. revert l. fix IHl 1. intros [|x l]; constructor; [apply IH|apply IHl].
  - apply H9. revert d. fix IHd 1. intros [|kv d]; constructor; [apply IH|apply IHd].
Qed.

(** A row of a table, a filter mapping, a request object. *)
Abbreviation dict := (list (string * pyval)).

(** [type(x).__name__], used in the messages of [TypeError]. *)
Definition type_name (v : pyval) : string :=
  match v with
  | PNone => "NoneType" | PBool _ => "bool" | PInt _ => "int"
  | PFloat _ => "float" | PStr _ => "str" | PDate _ => "date"
  | PDateTime _ => "datetime" | PList _ => "list" | PDict _ => "dict"
  end.

(** [isinstance(x, (date, datetime))] ([datetime] is a subclass of
    [date]). *)
Definition is_date_like (v : pyval) : bool :=
  match v with PDate _ | PDateTime _ => true | _ => false end.

(** [bool(x)]: [None], [False], zero numbers and empty containers are
    false; every other value, dates included, is true.  A float NaN is
    true ([0.0 == nan] is false). *)
Definition truthy (v : pyval) : bool :=
  match v with
  | PNone => false
  | PBool b => b
  | PInt z => negb (Z.eqb z 0)
  | PFloat f => negb (PrimFloat.eqb f 0%float)
  | PStr s => negb (String.eqb s "")
  | PDate _ | PDateTime _ => true
  | PList l => negb (Nat.eqb (length l) 0)
  | PDict d => negb (Nat.eqb (length d) 0)
  end.

(** [x is None] *)
Definition is_none (v : pyval) : bool := match v with PNone => true | _ => false end.

(** [a or b] *)
Definition py_or (a b : pyval) : pyval := if truthy a then a else b.

(** ** Dicts *)

Fixpoint dict_lookup (d : dict) (k : string) : option pyval :=
  match d with
  | [] => None
  | (k', v) :: d' => if String.eqb k' k then Some v else dict_lookup d' k
  end.

(** [d.get(k)] *)
Definition dict_get (d : dict) (k : string) : pyval :=
  match dict_lookup d k with Some v => v | None => PNone end.

(** [d.get(k, default)] *)
Definition dict_get_default (d : dict) (k : string) (dflt : pyval) : pyval :=
  match dict_lookup d k with Some v => v | None => dflt end.

(** [d[k]] *)
Definition dict_index (d : dict) (k : string) : res pyval :=
  match dict_lookup d k with Some v => Ok v | None => Err (KeyError k) end.

(** [d[k] = v]: replaces the value in place, or appends a new key. *)
Fixpoint dict_set (d : dict) (k : string) (v : pyval) : dict :=
  match d with
  | [] => [(k, v)]
  | (k', v') :: d' =>
      if String.eqb k' k then (k', v) :: d' else (k', v') :: dict_set d' k v
  end.

Definition dict_keys (d : dict) : list string := map fst d.

Lemma dict_lookup_keys d k v : dict_lookup d k = Some v -> k ∈ dict_keys d.
Proof.
  induction d as [|[k' v'] d IH]; simpl; [discriminate|].
  destruct (String.eqb_spec k' k) as [->|]; intros H; [left|right; auto].
Qed.

(** A dict has pairwise distinct keys. *)
Definition dict_wf (d : dict) : Prop := NoDup (dict_keys d).

(** ** Numbers and the [+] of [sum] *)

(** [float(n)] for an [int]: rounds to nearest, ties to even, and raises
    [OverflowError] when the result is out of the range of doubles. *)
Definition int_to_float (z : Z) : res float :=
  match SpecFloat.binary_normalize 53 1024 z 0 false with
  | SpecFloat.S754_infinity _ => Err (OverflowError "int too large to convert to float")
  | f => Ok (SF2Prim f)
  end.

Definition unsupported_add (a b : pyval) : py_exc :=
  TypeError ("unsupported operand type(s) for +: '" ++ type_name a ++ "' and '"
             ++ type_name b ++ "'")%string.

(** The integer value of an [int] or a [bool] ([bool] is a subclass of
    [int]). *)
Definition as_int (v : pyval) : option Z :=
  match v with
  | PInt z => Some z
  | PBool b => Some (if b then 1 else 0)
  | _ => None
  end.

(** [a + b] *)
Definition py_add (a b : pyval) : res pyval :=
  match a, b with
  | PFloat x, PFloat y => Ok (PFloat (PrimFloat.add x y))
  | PFloat x, _ =>
      match as_int b with
      | Some n => let? y := int_to_float n in Ok (PFloat (PrimFloat.add x y))
      | None => Err (unsupported_add a b)
      end
  | _, PFloat y =>
      match as_int a with
      | Some n => let? x := int_to_float n in Ok (PFloat (PrimFloat.add x y))
      | None => Err (unsupported_add a b)
      end
  | PStr x, PStr y => Ok (PStr (x ++ y)%string)
  | PList x, PList y => Ok (PList (x ++ y))
  | _, _ =>
      match as_int a, as_int b with
      | Some x, Some y => Ok (PInt (x + y))
      | _, _ => Err (unsupported_add a b)
      end
  end.

(** [sum(xs)]: starts from the [int] [0] and adds from the left. *)
Fixpoint py_sum_from (acc : pyval) (xs : list pyval) : res pyval :=
  match xs with
  | [] => Ok acc
  | x :: xs' => let? acc' := py_add acc x in py_sum_from acc' xs'
  end.

Definition py_sum (xs : list pyval) : res pyval := py_sum_from (PInt 0) xs.

(** The sum of a list of integer values, in [Z]. *)
Definition int_total (xs : list Z) : Z := fold_right Z.add 0 xs.

Lemma dict_lookup_set_eq d k v : dict_lookup (dict_set d k v) k = Some v.
Proof.
  induction d as [|[k' v'] d IH]; simpl; [by rewrite String.eqb_refl|].
  destruct (String.eqb_spec k' k) as [->|]; simpl; [by rewrite String.eqb_refl|].
  by destruct (String.eqb_spec k' k).
Qed.

Lemma dict_lookup_set_neq d k k' v : k <> k' -> dict_lookup (dict_set d k v) k' = dict_lookup d k'.
Proof.
  intros Hk. induction d as [|[k0 v0] d IH]; simpl.
  - by destruct (String.eqb_spec k k').
  - destruct (String.eqb_spec k0 k) as [->|]; simpl.
    + by destruct (String.eqb_spec k k').
    + by rewrite IH.
Qed.
