(* ===== verification/IsoFormat.v ===== *)
(** * ISO 8601 dates: [SupabaseHelper.format_date] and [parse_date]

    [format_date] (supabase_config.py, lines 17-22) calls
    [date.isoformat] / [datetime.isoformat]; [parse_date] (lines 24-29)
    calls [datetime.fromisoformat(s.replace('Z', '+00:00')).date()].

    [isoformat] is translated from CPython's [datetime.py]
    ([date.isoformat], [_format_time] with [timespec='auto']).
    [fromisoformat] is translated from the C implementation that CPython
    3.7 to 3.10 runs ([Modules/_datetimemodule.c]: [datetime_fromisoformat],
    [parse_isoformat_date], [parse_isoformat_time], [parse_hh_mm_ss_ff],
    [parse_digits], then [new_datetime]'s range checks), over the UTF-8
    bytes of the string as a [list ascii] with C's index arithmetic: a
    read at or past the end gives the terminating NUL. *)

From Stdlib Require Import Ascii DecimalString.
From S2P Require Import Prelude PyValue.

Open Scope string_scope.
Open Scope list_scope.
Open Scope Z_scope.

(** ** Printing *)

Definition digit_char (d : Z) : ascii := ascii_of_nat (Z.to_nat (48 + d)).

(** [%0wd] of [0 <= n < 10^w]: exactly [w] digits, most significant
    first. *)
Fixpoint fixed_digits (w : nat) (n : Z) : list ascii :=
  match w with
  | O => []
  | S w' => digit_char (n / 10 ^ Z.of_nat w') :: fixed_digits w' (n mod 10 ^ Z.of_nat w')
  end.

(** [date.isoformat()]: ["%04d-%02d-%02d" % (year, month, day)]. *)
Definition date_iso_chars (d : date) : list ascii :=
  fixed_digits 4 (year d) ++ ["-"%char] ++ fixed_digits 2 (month d) ++ ["-"%char]
  ++ fixed_digits 2 (day d).

Definition date_isoformat (d : date) : string := String.string_of_list_ascii (date_iso_chars d).

(** [_format_time(hh, mm, ss, us, 'auto')]: the fraction is printed
    only when [us] is not zero. *)
Definition time_iso_chars (h mi s us : Z) : list ascii :=
  fixed_digits 2 h ++ [":"%char] ++ fixed_digits 2 mi ++ [":"%char] ++ fixed_digits 2 s
  ++ (if us =? 0 then [] else "."%char :: fixed_digits 6 us).

(** [datetime.isoformat()] with the default separator ['T']. *)
Definition datetime_isoformat (dt : datetime) : string :=
  String.string_of_list_ascii (date_iso_chars (dt_date dt) ++ ["T"%char]
                        ++ time_iso_chars (hour dt) (minute dt) (second dt) (microsecond dt)).

(** [str(dt)] of a [datetime]: [isoformat(sep=' ')]. *)
Definition datetime_str (dt : datetime) : string :=
  String.string_of_list_ascii (date_iso_chars (dt_date dt) ++ [" "%char]
                        ++ time_iso_chars (hour dt) (minute dt) (second dt) (microsecond dt)).

(** [SupabaseHelper.format_date]: a date or datetime becomes its ISO
    string, every other value is returned unchanged. *)
Definition format_date (v : pyval) : pyval :=
  match v with
  | PDate d => PStr (date_isoformat d)
  | PDateTime dt => PStr (datetime_isoformat dt)
  | _ => v
  end.

(** ** [str.replace] with a one-character pattern *)

Fixpoint replace_char (c : ascii) (rep : string) (s : string) : string :=
  match s with
  | EmptyString => EmptyString
  | String c' s' =>
      if Ascii.eqb c' c then (rep ++ replace_char c rep s')%string else String c' (replace_char c rep s')
  end.

(** ** Parsing: [datetime.fromisoformat] *)

Definition NUL : ascii := Ascii.zero.

(** [*p] for a pointer [p] into the NUL-terminated buffer [b]. *)
Definition char_at (b : list ascii) (i : nat) : ascii := default NUL (b !! i).

Definition digit_value (c : ascii) : option Z :=
  let n := Z.of_nat (nat_of_ascii c) - 48 in
  if (0 <=? n) && (n <=? 9) then Some n else None.

(** [parse_digits(ptr, var, num_digits)]: reads [n] digits from [p] on,
    accumulating into [acc]; [None] is C's [NULL]. *)
Fixpoint parse_digits (b : list ascii) (p : nat) (n : nat) (acc : Z) : option (nat * Z) :=
  match n with
  | O => Some (p, acc)
  | S n' =>
      match digit_value (char_at b p) with
      | Some d => parse_digits b (S p) n' (acc * 10 + d)
      | None => None
      end
  end.

(** [parse_isoformat_date]: ["YYYY-MM-DD"] at the start of the buffer. *)
Definition parse_isoformat_date (b : list ascii) : option (Z * Z * Z) :=
  match parse_digits b 0 4 0 with
  | None => None
  | Some (p, y) =>
      if negb (Ascii.eqb (char_at b p) "-") then None else
      match parse_digits b (S p) 2 0 with
      | None => None
      | Some (p, m) =>
          if negb (Ascii.eqb (char_at b p) "-") then None else
          match parse_digits b (S p) 2 0 with
          | None => None
          | Some (_, d) => Some (y, m, d)
          end
      end
  end.

(** How the loop of [parse_hh_mm_ss_ff] over [HH[:MM[:SS]]] ends: by a
    [return] (its value is non-zero when the character at the end is not
    NUL), or by going on to the fraction at position [p]. *)
Inductive hms_exit :=
| HmsReturn (nonzero : bool) (vals : list Z)
| HmsFraction (p : nat) (vals : list Z).

Fixpoint hms_loop (k : nat) (b : list ascii) (p p_end : nat) (vals : list Z) : option hms_exit :=
  match k with
  | O => Some (HmsFraction p vals)
  | S k' =>
      match parse_digits b p 2 0 with
      | None => None
      | Some (p1, v) =>
          let c := char_at b p1 in
          let vals' := vals ++ [v] in
          if (p_end <=? S p1)%nat then Some (HmsReturn (negb (Ascii.eqb c NUL)) vals')
          else if Ascii.eqb c ":" then hms_loop k' b (S p1) p_end vals'
          else if Ascii.eqb c "." then Some (HmsFraction (S p1) vals')
          else None
      end
  end.

Definition time4 : Type := Z * Z * Z * Z.

Definition time_of_vals (vals : list Z) (us : Z) : time4 :=
  (default 0 (vals !! 0%nat), default 0 (vals !! 1%nat), default 0 (vals !! 2%nat), us).

(** [parse_hh_mm_ss_ff(tstr, tstr_end, ...)]: [None] for a negative
    result; otherwise whether the result is non-zero, and the fields. *)
Definition parse_hh_mm_ss_ff (b : list ascii) (p p_end : nat) : option (bool * time4) :=
  match hms_loop 3 b p p_end [] with
  | None => None
  | Some (HmsReturn nz vals) => Some (nz, time_of_vals vals 0)
  | Some (HmsFraction p vals) =>
      let len_remains := (p_end - p)%nat in
      if negb ((len_remains =? 6)%nat || (len_remains =? 3)%nat) then None else
      match parse_digits b p len_remains 0 with
      | None => None
      | Some (p', us) =>
          let us := if (len_remains =? 3)%nat then us * 1000 else us in
          Some (negb (Ascii.eqb (char_at b p') NUL), time_of_vals vals us)
      end
  end.

Definition is_sign (c : ascii) : bool := Ascii.eqb c "+" || Ascii.eqb c "-".

(** The [do { ... } while (++tzinfo_pos < p_end)] search for the first
    ['+'] or ['-']; [fuel] bounds the iterations. *)
Fixpoint find_tz (fuel : nat) (b : list ascii) (q p_end : nat) : nat :=
  match fuel with
  | O => q
  | S fuel' =>
      if is_sign (char_at b q) then q
      else if (S q <? p_end)%nat then find_tz fuel' b (S q) p_end else S q
  end.

(** [parse_isoformat_time(dtstr, dtlen, ...)]: [None] for a negative
    result; otherwise the time, and the UTC offset in microseconds when a
    time zone was given. *)
Definition parse_isoformat_time (b : list ascii) (p len : nat) : option (time4 * option Z) :=
  let p_end := (p + len)%nat in
  let tzpos := find_tz (length b) b p p_end in
  match parse_hh_mm_ss_ff b p tzpos with
  | None => None
  | Some (_, t) =>
      if (tzpos =? p_end)%nat then Some (t, None) else
      let sign := if Ascii.eqb (char_at b tzpos) "-" then -1 else 1 in
      match parse_hh_mm_ss_ff b (S tzpos) p_end with
      | Some (false, (th, tm, ts, tus)) =>
          Some (t, Some (sign * ((th * 3600 + tm * 60 + ts) * 1000000 + tus)))
      | _ => None
      end
  end.

(** The position of the time after the separator at index 10: one byte,
    or the length of the UTF-8 sequence a non-ASCII lead byte starts. *)
Definition time_start (b : list ascii) : nat :=
  let c := Z.of_nat (nat_of_ascii (char_at b 10)) in
  if c <? 128 then 11
  else if Z.land c 240 =? 224 then 13
  else if Z.land c 240 =? 240 then 14
  else 12.

Definition z_to_dec (z : Z) : string := NilZero.string_of_int (Z.to_int z).

(** [new_datetime]'s argument checks ([check_date_args],
    [check_time_args]), in their order. *)
Definition new_datetime (y m d h mi s us : Z) : res datetime :=
  if negb ((1 <=? y) && (y <=? 9999)) then Err (ValueError ("year " ++ z_to_dec y ++ " is out of range")%string)
  else if negb ((1 <=? m) && (m <=? 12)) then Err (ValueError "month must be in 1..12")
  else if negb ((1 <=? d) && (d <=? days_in_month y m)) then Err (ValueError "day is out of range for month")
  else if negb ((0 <=? h) && (h <=? 23)) then Err (ValueError "hour must be in 0..23")
  else if negb ((0 <=? mi) && (mi <=? 59)) then Err (ValueError "minute must be in 0..59")
  else if negb ((0 <=? s) && (s <=? 59)) then Err (ValueError "second must be in 0..59")
  else if negb ((0 <=? us) && (us <=? 999999)) then Err (ValueError "microsecond must be in 0..999999")
  else Ok (mkDateTime (mkDate y m d) h mi s us).

(** [new_timezone]: the offset must be strictly within a day. *)
Definition check_tz_offset (off : Z) : res unit :=
  if (- 86400000000 <? off) && (off <? 86400000000) then Ok tt
  else Err (ValueError "offset must be a timedelta strictly between -timedelta(hours=24) and timedelta(hours=24).").

Definition invalid_isoformat (s : string) : py_exc :=
  ValueError ("Invalid isoformat string: '" ++ s ++ "'")%string.

(** [datetime.fromisoformat(s)]: the datetime, and its UTC offset in
    microseconds when the string has one. *)
Definition datetime_fromisoformat (s : string) : res (datetime * option Z) :=
  let b := String.list_ascii_of_string s in
  let len := length b in
  match parse_isoformat_date b with
  | None => Err (invalid_isoformat s)
  | Some (y, m, d) =>
      let time :=
        if (10 <? len)%nat then
          let p := time_start b in parse_isoformat_time b p (len - p)
        else Some ((0, 0, 0, 0), None) in
      match time with
      | None => Err (invalid_isoformat s)
      | Some ((h, mi, se, us), tz) =>
          let? _ := match tz with Some off => check_tz_offset off | None => Ok tt end in
          let? dt := new_datetime y m d h mi se us in
          Ok (dt, tz)
      end
  end.

(** [SupabaseHelper.parse_date]: a string is parsed and its date part
    returned; every other value is returned unchanged. *)
Definition parse_date (v : pyval) : res pyval :=
  match v with
  | PStr s =>
      let? r := datetime_fromisoformat (replace_char "Z" "+00:00" s) in
      Ok (PDate (dt_date (fst r)))
  | _ => Ok v
  end.

(** ** Digits *)

Definition ascii_code (c : ascii) : Z := Z.of_nat (nat_of_ascii c).

Lemma digit_char_code k : 0 <= k <= 9 -> ascii_code (digit_char k) = 48 + k.
Proof.
  intros Hk. unfold ascii_code, digit_char.
  rewrite nat_ascii_embedding by lia. lia.
Qed.

Lemma digit_value_char k : 0 <= k <= 9 -> digit_value (digit_char k) = Some k.
Proof.
  intros Hk. unfold digit_value. fold (ascii_code (digit_char k)).
  rewrite digit_char_code by lia.
  replace (48 + k - 48) with k by lia.
  replace ((0 <=? k) && (k <=? 9)) with true; [done|].
  symmetry. apply andb_true_intro; split; apply Z.leb_le; lia.
Qed.

Lemma length_fixed_digits n v : length (fixed_digits n v) = n.
Proof. revert v; induction n; simpl; auto. Qed.

(** The leading digit of [v < 10^(n+1)] and its remainder. *)
Lemma leading_digit_bounds n v :
  0 <= v < 10 ^ Z.of_nat (S n) ->
  0 <= v / 10 ^ Z.of_nat n <= 9 /\ 0 <= v mod 10 ^ Z.of_nat n < 10 ^ Z.of_nat n.
Proof.
  intros Hv. assert (Hp : 0 < 10 ^ Z.of_nat n) by (apply Z.pow_pos_nonneg; lia).
  rewrite Nat2Z.inj_succ, Z.pow_succ_r in Hv by lia.
  split; [split|].
  - apply Z.div_pos; lia.
  - enough (v / 10 ^ Z.of_nat n < 10) by lia.
    apply Z.div_lt_upper_bound; lia.
  - apply Z.mod_pos_bound; lia.
Qed.

(** Every character [fixed_digits] prints is a decimal digit. *)
Lemma fixed_digits_codes n v :
  0 <= v < 10 ^ Z.of_nat n ->
  Forall (fun c => 48 <= ascii_code c <= 57) (fixed_digits n v).
Proof.
  revert v; induction n as [|n IH]; intros v Hv; simpl; constructor.
  - destruct (leading_digit_bounds n v Hv). rewrite digit_char_code; lia.
  - apply IH. apply (leading_digit_bounds n v Hv).
Qed.

(** Reading back [n] printed digits: [parse_digits] inverts
    [fixed_digits]. *)
Lemma parse_digits_fixed n : forall v pre post acc,
  0 <= v < 10 ^ Z.of_nat n ->
  parse_digits (pre ++ fixed_digits n v ++ post) (length pre) n acc
  = Some ((length pre + n)%nat, acc * 10 ^ Z.of_nat n + v).
Proof.
  induction n as [|n IH]; intros v pre post acc Hv; simpl.
  - simpl in Hv. f_equal. f_equal; lia.
  - destruct (leading_digit_bounds n v Hv) as [Hq Hr].
    unfold char_at. rewrite list_lookup_middle by done. simpl.
    rewrite digit_value_char by lia.
    replace (pre ++ digit_char (v / 10 ^ Z.of_nat n) :: fixed_digits n (v mod 10 ^ Z.of_nat n) ++ post)
      with ((pre ++ [digit_char (v / 10 ^ Z.of_nat n)]) ++ fixed_digits n (v mod 10 ^ Z.of_nat n) ++ post)
      by (rewrite <- app_assoc; reflexivity).
    replace (S (length pre)) with (length (pre ++ [digit_char (v / 10 ^ Z.of_nat n)]))
      by (rewrite length_app; simpl; lia).
    rewrite IH by done. rewrite length_app. simpl. f_equal. f_equal; [lia|].
    assert (Hp : 0 < 10 ^ Z.of_nat n) by (apply Z.pow_pos_nonneg; lia).
    rewrite Nat2Z.inj_succ, Z.pow_succ_r by lia.
    pose proof (Z.div_mod v (10 ^ Z.of_nat n)) as Hdm. lia.
Qed.

Lemma parse_digits_at b p n v :
  0 <= v < 10 ^ Z.of_nat n ->
  (exists pre post, b = pre ++ fixed_digits n v ++ post /\ length pre = p) ->
  parse_digits b p n 0 = Some ((p + n)%nat, v).
Proof.
  intros Hv (pre & post & -> & <-). by rewrite parse_digits_fixed.
Qed.

Lemma char_at_at b p c :
  (exists pre post, b = pre ++ c :: post /\ length pre = p) -> char_at b p = c.
Proof.
  intros (pre & post & -> & <-). unfold char_at. by rewrite list_lookup_middle.
Qed.

Lemma char_at_end b p : (length b <= p)%nat -> char_at b p = NUL.
Proof. intros H. unfold char_at. by rewrite lookup_ge_None_2. Qed.

(** ** The date part *)

Lemma days_in_month_le y m : days_in_month y m <= 31.
Proof. unfold days_in_month. repeat case_match; lia. Qed.

Lemma valid_date_bounds d :
  valid_date d = true ->
  1 <= year d <= 9999 /\ 1 <= month d <= 12 /\ 1 <= day d <= days_in_month (year d) (month d).
Proof.
  unfold valid_date. intros H. bool_hyps. lia.
Qed.

(** [exists pre post, b = pre ++ x ++ post /\ length pre = p] for a
    buffer [b] written as a concatenation. *)
Ltac at_position pre :=
  exists pre; eexists; split;
  [ rewrite <- ?app_assoc; reflexivity
  | rewrite ?length_app, ?length_fixed_digits; simpl; lia ].

(** The fields of a date fit the widths [isoformat] prints them in. *)
Definition date_printable (d : date) : Prop :=
  0 <= year d < 10000 /\ 0 <= month d < 100 /\ 0 <= day d < 100.

Lemma valid_date_printable d : valid_date d = true -> date_printable d.
Proof.
  intros Hd. pose proof (days_in_month_le (year d) (month d)).
  destruct (valid_date_bounds d Hd). unfold date_printable. lia.
Qed.

Lemma parse_isoformat_date_iso d post :
  date_printable d ->
  parse_isoformat_date (date_iso_chars d ++ post) = Some (year d, month d, day d).
Proof.
  intros (? & ? & ?).
  unfold parse_isoformat_date, date_iso_chars. rewrite <- !app_assoc.
  rewrite (parse_digits_at _ 0 4 (year d)) by (simpl; lia || at_position (@nil ascii)).
  rewrite (char_at_at _ 4 "-") by at_position (fixed_digits 4 (year d)).
  cbn [negb Ascii.eqb Bool.eqb andb].
  rewrite (parse_digits_at _ 5 2 (month d))
    by (simpl; lia || at_position (fixed_digits 4 (year d) ++ ["-"%char])).
  rewrite (char_at_at _ 7 "-")
    by at_position (fixed_digits 4 (year d) ++ ["-"%char] ++ fixed_digits 2 (month d)).
  cbn [negb Ascii.eqb Bool.eqb andb].
  rewrite (parse_digits_at _ 8 2 (day d)); [done | simpl; lia |].
  at_position (fixed_digits 4 (year d) ++ ["-"%char] ++ fixed_digits 2 (month d) ++ ["-"%char]).
Qed.

(** ** The time part *)

Lemma valid_datetime_bounds dt :
  valid_datetime dt = true ->
  valid_date (dt_date dt) = true /\ 0 <= hour dt <= 23 /\ 0 <= minute dt <= 59
  /\ 0 <= second dt <= 59 /\ 0 <= microsecond dt <= 999999.
Proof.
  unfold valid_datetime, valid_time. intros H. bool_hyps. repeat split; auto; lia.
Qed.

Lemma new_datetime_valid dt :
  valid_datetime dt = true ->
  new_datetime (year (dt_date dt)) (month (dt_date dt)) (day (dt_date dt))
    (hour dt) (minute dt) (second dt) (microsecond dt) = Ok dt.
Proof.
  intros Hdt. destruct (valid_datetime_bounds dt Hdt) as (Hd & ?).
  destruct (valid_date_bounds _ Hd). destruct dt as [[y m d] h mi s us]; simpl in *.
  unfold new_datetime. bool_goal. reflexivity.
Qed.

Lemma find_tz_none fuel b q p_end :
  (q < p_end)%nat -> (p_end - q <= fuel)%nat ->
  (forall i, (q <= i < p_end)%nat -> is_sign (char_at b i) = false) ->
  find_tz fuel b q p_end = p_end.
Proof.
  revert q; induction fuel as [|fuel IH]; intros q Hq Hf Hs; simpl; [lia|].
  rewrite Hs by lia. destruct (Nat.ltb_spec (S q) p_end).
  - apply IH; auto with lia.
  - lia.
Qed.

(** The characters of a printed time: digits, [':'] and ['.']. *)
Definition time_char (c : ascii) : Prop :=
  48 <= ascii_code c <= 58 \/ ascii_code c = 46.

Lemma fixed_digits_time_char n v :
  0 <= v < 10 ^ Z.of_nat n -> Forall time_char (fixed_digits n v).
Proof.
  intros Hv. eapply Forall_impl; [apply fixed_digits_codes, Hv|].
  unfold time_char. intros c Hc. lia.
Qed.

Lemma time_iso_chars_time_char h mi s us :
  0 <= h <= 23 -> 0 <= mi <= 59 -> 0 <= s <= 59 -> 0 <= us <= 999999 ->
  Forall time_char (time_iso_chars h mi s us).
Proof.
  intros. unfold time_iso_chars.
  assert (Hcolon : Forall time_char [":"%char]).
  { constructor; [|constructor]. unfold time_char. change (ascii_code ":") with 58. lia. }
  repeat apply Forall_app_2; try done; try (apply fixed_digits_time_char; simpl; lia).
  destruct (us =? 0); [constructor|].
  constructor; [unfold time_char; change (ascii_code ".") with 46; lia|].
  apply fixed_digits_time_char; simpl; lia.
Qed.

Lemma time_char_not_sign c : time_char c -> is_sign c = false.
Proof.
  unfold is_sign, time_char. intros Hc.
  destruct (Ascii.eqb_spec c "+") as [->|]; [change (ascii_code "+") with 43 in Hc; lia|].
  destruct (Ascii.eqb_spec c "-") as [->|]; [change (ascii_code "-") with 45 in Hc; lia|].
  reflexivity.
Qed.

Lemma length_time_iso_chars h mi s us :
  length (time_iso_chars h mi s us) = if us =? 0 then 8%nat else 15%nat.
Proof.
  unfold time_iso_chars. rewrite !length_app, !length_fixed_digits.
  destruct (us =? 0); simpl; rewrite ?length_fixed_digits; reflexivity.
Qed.

Lemma length_date_iso_chars d : length (date_iso_chars d) = 10%nat.
Proof. unfold date_iso_chars. by rewrite !length_app, !length_fixed_digits. Qed.

(** Characters after position [length pre] of [pre ++ suf] are those of
    [suf]. *)
Lemma char_at_suffix (P : ascii -> Prop) pre suf i :
  Forall P suf -> (length pre <= i < length (pre ++ suf))%nat -> P (char_at (pre ++ suf) i).
Proof.
  intros Hf Hi. rewrite length_app in Hi. unfold char_at.
  rewrite lookup_app_r by lia.
  destruct (lookup_lt_is_Some_2 suf (i - length pre)) as [c Hc]; [lia|].
  rewrite Hc. simpl. eapply Forall_lookup_1; eauto.
Qed.

Lemma hms_loop_step k b p p_end vals v :
  parse_digits b p 2 0 = Some ((p + 2)%nat, v) ->
  hms_loop (S k) b p p_end vals =
  let c := char_at b (p + 2) in
  if (p_end <=? S (p + 2))%nat then Some (HmsReturn (negb (Ascii.eqb c NUL)) (vals ++ [v]))
  else if Ascii.eqb c ":" then hms_loop k b (S (p + 2)) p_end (vals ++ [v])
  else if Ascii.eqb c "." then Some (HmsFraction (S (p + 2)) (vals ++ [v]))
  else None.
Proof. intros H. cbn [hms_loop]. rewrite H. reflexivity. Qed.

Lemma parse_isoformat_time_iso dt :
  valid_datetime dt = true ->
  parse_isoformat_time
    (date_iso_chars (dt_date dt) ++ ["T"%char]
     ++ time_iso_chars (hour dt) (minute dt) (second dt) (microsecond dt))
    11 (length (date_iso_chars (dt_date dt) ++ ["T"%char]
                ++ time_iso_chars (hour dt) (minute dt) (second dt) (microsecond dt)) - 11)
  = Some ((hour dt, minute dt, second dt, microsecond dt), None).
Proof.
  intros Hdt. destruct (valid_datetime_bounds dt Hdt) as (Hd & Hh & Hmi & Hs & Hus).
  pose proof (length_date_iso_chars (dt_date dt)) as HD.
  pose proof (length_time_iso_chars (hour dt) (minute dt) (second dt) (microsecond dt)) as HlT.
  assert (HT : Forall time_char (time_iso_chars (hour dt) (minute dt) (second dt) (microsecond dt)))
    by (apply time_iso_chars_time_char; lia).
  remember (date_iso_chars (dt_date dt)) as D eqn:ED.
  remember (time_iso_chars (hour dt) (minute dt) (second dt) (microsecond dt)) as T eqn:ET.
  remember (length (D ++ ["T"%char] ++ T)) as n eqn:En.
  assert (Hn : n = (11 + length T)%nat) by (subst n; rewrite !length_app, HD; reflexivity).
  unfold parse_isoformat_time.
  replace (11 + (n - 11))%nat with n by lia.
  rewrite (find_tz_none _ _ 11).
  2: { destruct (microsecond dt =? 0); lia. }
  2: { lia. }
  2: { intros i Hi. rewrite app_assoc.
       apply (char_at_suffix (fun c => is_sign c = false)).
       - eapply Forall_impl; [apply HT | apply time_char_not_sign].
       - rewrite !length_app, HD. simpl. lia. }
  rewrite Nat.eqb_refl. unfold parse_hh_mm_ss_ff.
  rewrite ET in *; unfold time_iso_chars in *; clear En.
  rewrite (hms_loop_step _ _ 11 _ _ (hour dt))
    by (apply parse_digits_at; [simpl; lia | at_position (D ++ ["T"%char])]).
  rewrite (char_at_at _ 13 ":") by at_position (D ++ ["T"%char] ++ fixed_digits 2 (hour dt)).
  assert (Hn19 : (19 <= n)%nat) by (destruct (microsecond dt =? 0); lia).
  cbn zeta. bool_goal. cbn [Ascii.eqb Bool.eqb andb].
  rewrite (hms_loop_step _ _ 14 _ _ (minute dt))
    by (apply parse_digits_at; [simpl; lia | at_position (D ++ ["T"%char] ++ fixed_digits 2 (hour dt) ++ [":"%char])]).
  rewrite (char_at_at _ 16 ":")
    by at_position (D ++ ["T"%char] ++ fixed_digits 2 (hour dt) ++ [":"%char] ++ fixed_digits 2 (minute dt)).
  cbn zeta. bool_goal. cbn [Ascii.eqb Bool.eqb andb].
  rewrite (hms_loop_step _ _ 17 _ _ (second dt))
    by (apply parse_digits_at; [simpl; lia | at_position (D ++ ["T"%char] ++ fixed_digits 2 (hour dt) ++ [":"%char]
                                                          ++ fixed_digits 2 (minute dt) ++ [":"%char])]).
  cbn zeta. destruct (Z.eqb_spec (microsecond dt) 0) as [H0|H0].
  - rewrite H0 in *. cbn [Z.eqb] in *. rewrite HlT in Hn. subst n.
    rewrite char_at_end by (rewrite !length_app, HD; simpl; rewrite ?length_fixed_digits; lia).
    reflexivity.
  - rewrite HlT in Hn. subst n.
    rewrite (char_at_at _ 19 ".")
      by at_position (D ++ ["T"%char] ++ fixed_digits 2 (hour dt) ++ [":"%char]
                      ++ fixed_digits 2 (minute dt) ++ [":"%char] ++ fixed_digits 2 (second dt)).
    cbn -[parse_digits char_at].
    rewrite (parse_digits_at _ 20 6 (microsecond dt))
      by (simpl; lia || at_position (D ++ ["T"%char] ++ fixed_digits 2 (hour dt) ++ [":"%char]
                      ++ fixed_digits 2 (minute dt) ++ [":"%char] ++ fixed_digits 2 (second dt) ++ ["."%char])).
    reflexivity.
Qed.

(** ** Round trips *)

Lemma replace_char_id c rep l :
  Forall (fun x => x <> c) l ->
  replace_char c rep (String.string_of_list_ascii l) = String.string_of_list_ascii l.
Proof.
  induction l as [|x l IH]; intros Hl; simpl; [done|].
  inversion Hl as [|? ? Hx Hl']; subst.
  destruct (Ascii.eqb_spec x c); [done|]. by rewrite IH.
Qed.

(** The characters a printed date or datetime can contain. *)
Definition iso_char (c : ascii) : Prop :=
  48 <= ascii_code c <= 58 \/ ascii_code c = 45 \/ ascii_code c = 46 \/ ascii_code c = 84.

Lemma iso_char_not_Z c : iso_char c -> c <> "Z"%char.
Proof. unfold iso_char. intros Hc ->. change (ascii_code "Z") with 90 in Hc. lia. Qed.

Lemma time_char_iso_char c : time_char c -> iso_char c.
Proof. unfold time_char, iso_char. lia. Qed.

Lemma date_iso_chars_iso_char d :
  date_printable d -> Forall iso_char (date_iso_chars d).
Proof.
  intros (? & ? & ?).
  assert (Hdash : Forall iso_char ["-"%char]).
  { constructor; [|constructor]. unfold iso_char. change (ascii_code "-") with 45. lia. }
  unfold date_iso_chars. repeat apply Forall_app_2; try done;
    (eapply Forall_impl; [apply fixed_digits_time_char; simpl; lia | apply time_char_iso_char]).
Qed.

Lemma datetime_iso_chars_iso_char dt :
  valid_datetime dt = true ->
  Forall iso_char (date_iso_chars (dt_date dt) ++ ["T"%char]
                   ++ time_iso_chars (hour dt) (minute dt) (second dt) (microsecond dt)).
Proof.
  intros Hdt. destruct (valid_datetime_bounds dt Hdt) as (Hd & ?).
  apply Forall_app_2; [by apply date_iso_chars_iso_char, valid_date_printable|].
  apply Forall_app_2.
  - constructor; [|constructor]. unfold iso_char. change (ascii_code "T") with 84. lia.
  - eapply Forall_impl; [apply time_iso_chars_time_char; lia | apply time_char_iso_char].
Qed.

Lemma replace_Z_iso l :
  Forall iso_char l ->
  replace_char "Z" "+00:00" (String.string_of_list_ascii l) = String.string_of_list_ascii l.
Proof.
  intros Hl. apply replace_char_id. eapply Forall_impl; [exact Hl | apply iso_char_not_Z].
Qed.

(** [datetime.fromisoformat] of a printed date: the date fields are
    read back and checked by [new_datetime] at midnight. *)
Lemma fromisoformat_date_iso d :
  date_printable d ->
  datetime_fromisoformat (date_isoformat d)
  = let? dt := new_datetime (year d) (month d) (day d) 0 0 0 0 in Ok (dt, None).
Proof.
  intros Hd. unfold datetime_fromisoformat, date_isoformat.
  rewrite String.list_ascii_of_string_of_list_ascii.
  rewrite <- (app_nil_r (date_iso_chars d)) at 1.
  rewrite parse_isoformat_date_iso by done.
  rewrite length_date_iso_chars. reflexivity.
Qed.

(** [datetime.fromisoformat(date.isoformat())] is that date at midnight. *)
Lemma fromisoformat_date_isoformat d :
  valid_date d = true ->
  datetime_fromisoformat (date_isoformat d) = Ok (mkDateTime d 0 0 0 0, None).
Proof.
  intros Hd. rewrite fromisoformat_date_iso by (by apply valid_date_printable).
  pose proof (new_datetime_valid (mkDateTime d 0 0 0 0)) as Hn. simpl in Hn.
  rewrite Hn; [done|]. unfold valid_datetime. simpl. by rewrite Hd.
Qed.

(** An impossible date is refused by [new_datetime] with a
    [ValueError], whatever the time. *)
Lemma new_datetime_invalid_date y m d h mi s us :
  valid_date (mkDate y m d) = false ->
  exists msg, new_datetime y m d h mi s us = Err (ValueError msg).
Proof.
  unfold valid_date, new_datetime. simpl. intros Hd.
  destruct ((1 <=? y) && (y <=? 9999)) eqn:Ey; simpl; [|eauto].
  destruct ((1 <=? m) && (m <=? 12)) eqn:Em; simpl; [|eauto].
  destruct ((1 <=? d) && (d <=? days_in_month y m)) eqn:Ed; simpl; [|eauto].
  exfalso. bool_hyps. revert Hd. bool_goal. discriminate.
Qed.

(** [datetime.fromisoformat(dt.isoformat())] is [dt], with no offset. *)
Lemma fromisoformat_datetime_isoformat dt :
  valid_datetime dt = true ->
  datetime_fromisoformat (datetime_isoformat dt) = Ok (dt, None).
Proof.
  intros Hdt. destruct (valid_datetime_bounds dt Hdt) as (Hd & ?).
  unfold datetime_fromisoformat, datetime_isoformat.
  rewrite String.list_ascii_of_string_of_list_ascii.
  rewrite parse_isoformat_date_iso by (by apply valid_date_printable).
  assert (Hlen : (10 < length (date_iso_chars (dt_date dt) ++ ["T"%char]
                 ++ time_iso_chars (hour dt) (minute dt) (second dt) (microsecond dt)))%nat)
    by (rewrite !length_app, length_date_iso_chars; simpl; lia).
  apply Nat.ltb_lt in Hlen. rewrite Hlen.
  replace (time_start _) with 11%nat.
  2: { unfold time_start. rewrite (char_at_at _ 10 "T") by at_position (date_iso_chars (dt_date dt)).
       reflexivity. }
  rewrite parse_isoformat_time_iso by done. cbn -[new_datetime].
  by rewrite new_datetime_valid.
Qed.

(** ** Order: ISO date strings compare as their dates *)

Abbreviation sola := String.string_of_list_ascii.

Lemma ascii_compare_digit x y :
  0 <= x <= 9 -> 0 <= y <= 9 -> Ascii.compare (digit_char x) (digit_char y) = Z.compare x y.
Proof.
  intros Hx Hy. unfold Ascii.compare. rewrite <- N2Z.inj_compare.
  assert (Hc : forall k, 0 <= k <= 9 -> Z.of_N (N_of_ascii (digit_char k)) = 48 + k).
  { intros k Hk. rewrite <- (digit_char_code k Hk). unfold ascii_code, nat_of_ascii.
    by rewrite N_nat_Z. }
  rewrite !Hc by done. apply Z.add_compare_mono_l.
Qed.

Lemma ascii_compare_refl a : Ascii.compare a a = Eq.
Proof. unfold Ascii.compare. apply N.compare_refl. Qed.

Lemma string_compare_app l r1 r2 :
  String.compare (sola (l ++ r1)) (sola (l ++ r2)) = String.compare (sola r1) (sola r2).
Proof. induction l as [|a l IH]; simpl; [done|]. by rewrite ascii_compare_refl. Qed.

(** Fixed-width digit strings compare as the numbers they print. *)
Lemma compare_fixed n : forall a b r1 r2,
  0 <= a < 10 ^ Z.of_nat n -> 0 <= b < 10 ^ Z.of_nat n ->
  String.compare (sola (fixed_digits n a ++ r1)) (sola (fixed_digits n b ++ r2))
  = match Z.compare a b with Eq => String.compare (sola r1) (sola r2) | c => c end.
Proof.
  induction n as [|n IH]; intros a b r1 r2 Ha Hb.
  - simpl in *. replace a with 0 by lia. replace b with 0 by lia. reflexivity.
  - destruct (leading_digit_bounds n a Ha) as [Hqa Hra].
    destruct (leading_digit_bounds n b Hb) as [Hqb Hrb].
    simpl fixed_digits. simpl app. cbn [String.string_of_list_ascii String.compare].
    rewrite ascii_compare_digit by done.
    assert (Hp : 0 < 10 ^ Z.of_nat n) by (apply Z.pow_pos_nonneg; lia).
    pose proof (Z.div_mod a (10 ^ Z.of_nat n)). pose proof (Z.div_mod b (10 ^ Z.of_nat n)).
    destruct (Z.compare_spec (a / 10 ^ Z.of_nat n) (b / 10 ^ Z.of_nat n)) as [Hq|Hq|Hq].
    + rewrite IH by done.
      destruct (Z.compare_spec (a mod 10 ^ Z.of_nat n) (b mod 10 ^ Z.of_nat n));
        destruct (Z.compare_spec a b); try reflexivity; exfalso; nia.
    + destruct (Z.compare_spec a b); try reflexivity; exfalso; nia.
    + destruct (Z.compare_spec a b); try reflexivity; exfalso; nia.
Qed.

Lemma compare_date_iso d1 d2 :
  date_printable d1 -> date_printable d2 ->
  String.compare (date_isoformat d1) (date_isoformat d2)
  = match Z.compare (year d1) (year d2) with
    | Eq => match Z.compare (month d1) (month d2) with
            | Eq => Z.compare (day d1) (day d2)
            | c => c
            end
    | c => c
    end.
Proof.
  intros (? & ? & ?) (? & ? & ?). unfold date_isoformat, date_iso_chars.
  rewrite compare_fixed by (simpl; lia).
  destruct (year d1 ?= year d2); try reflexivity.
  rewrite string_compare_app, compare_fixed by (simpl; lia).
  destruct (month d1 ?= month d2); try reflexivity.
  rewrite string_compare_app, <- (app_nil_r (fixed_digits 2 (day d1))),
    <- (app_nil_r (fixed_digits 2 (day d2))), compare_fixed by (simpl; lia).
  by destruct (day d1 ?= day d2).
Qed.

(** A string comparison of two printed dates ([<=] on [text], in byte
    order) is the comparison of the dates. *)
Lemma date_isoformat_leb d1 d2 :
  date_printable d1 -> date_printable d2 ->
  String.leb (date_isoformat d1) (date_isoformat d2) = date_le d1 d2.
Proof.
  intros H1 H2. unfold String.leb. rewrite compare_date_iso by done.
  destruct d1 as [y1 m1 a1], d2 as [y2 m2 a2]; unfold date_le, date_lt; simpl.
  destruct (Z.compare_spec y1 y2);
    [destruct (Z.compare_spec m1 m2); [destruct (Z.compare_spec a1 a2) | |] | |];
    subst; bool_goal; try reflexivity.
  all: first [ by rewrite bool_decide_true
             | rewrite bool_decide_false; [reflexivity | intros Heq; injection Heq; lia] ].
Qed.

(** ** Properties of [format_date] and [parse_date] *)

(** C17: [parse_date] inverts [format_date] on dates: for every valid
    date [d], [parse_date(format_date(d))] returns [d] itself. *)
Theorem parse_date_format_date_date d :
  valid_date d = true -> parse_date (format_date (PDate d)) = Ok (PDate d).
Proof.
  intros Hd. cbn [format_date parse_date]. unfold date_isoformat.
  rewrite replace_Z_iso by (by apply date_iso_chars_iso_char, valid_date_printable).
  fold (date_isoformat d). by rewrite fromisoformat_date_isoformat.
Qed.

Lemma parse_date_format_date_date_witness :
  valid_date (mkDate 2024 2 29) = true
  /\ parse_date (format_date (PDate (mkDate 2024 2 29))) = Ok (PDate (mkDate 2024 2 29)).
Proof.
  split; [reflexivity|]. apply (parse_date_format_date_date (mkDate 2024 2 29)). reflexivity.
Defined.

(** C18: on a datetime, [parse_date(format_date(dt))] returns the date
    part of [dt]: the time, with or without microseconds, is read and
    dropped. *)
Theorem parse_date_format_date_datetime dt :
  valid_datetime dt = true -> parse_date (format_date (PDateTime dt)) = Ok (PDate (dt_date dt)).
Proof.
  intros Hdt. cbn [format_date parse_date]. unfold datetime_isoformat.
  rewrite replace_Z_iso by (by apply datetime_iso_chars_iso_char).
  fold (datetime_isoformat dt). by rewrite fromisoformat_datetime_isoformat.
Qed.

Lemma parse_date_format_date_datetime_witness :
  let dt := mkDateTime (mkDate 2024 1 5) 9 3 7 120 in
  valid_datetime dt = true /\ parse_date (format_date (PDateTime dt)) = Ok (PDate (mkDate 2024 1 5)).
Proof.
  split; [reflexivity|].
  apply (parse_date_format_date_datetime (mkDateTime (mkDate 2024 1 5) 9 3 7 120)).
  reflexivity.
Defined.

(** C19: [parse_date] of a well-formed "YYYY-MM-DD" string naming a day
    that does not exist (such as February 29 of a common year) raises
    [ValueError]. *)
Theorem parse_date_invalid_date d :
  date_printable d -> valid_date d = false ->
  exists msg, parse_date (PStr (date_isoformat d)) = Err (ValueError msg).
Proof.
  intros Hp Hd. cbn [parse_date]. unfold date_isoformat.
  rewrite replace_Z_iso by (by apply date_iso_chars_iso_char).
  fold (date_isoformat d). rewrite fromisoformat_date_iso by done.
  destruct d as [y m dd]. destruct (new_datetime_invalid_date y m dd 0 0 0 0 Hd) as [msg Hm].
  exists msg. simpl. by rewrite Hm.
Qed.

Lemma parse_date_invalid_date_witness :
  date_printable (mkDate 2023 2 29) /\ valid_date (mkDate 2023 2 29) = false
  /\ exists msg, parse_date (PStr (date_isoformat (mkDate 2023 2 29))) = Err (ValueError msg).
Proof.
  assert (Hp : date_printable (mkDate 2023 2 29)) by (unfold date_printable; simpl; lia).
  split; [exact Hp|]. split; [reflexivity|].
  apply (parse_date_invalid_date (mkDate 2023 2 29) Hp). reflexivity.
Defined.
