(* ===== verification/Like.v ===== *)
(** * PostgreSQL [ILIKE] pattern matching

    [SupabaseHelper.search] (supabase_config.py, lines 84-88) sends the
    filter [column ILIKE '%term%'].  This file models PostgreSQL's
    [LIKE] matcher ([MatchText] in [src/backend/utils/adt/like_match.c]):
    ['%'] matches any sequence, ['_'] any one character, and the default
    escape character ['\'] makes the next pattern character literal; a
    pattern whose last character is a lone ['\'] raises an error when the
    matcher reaches it.  [ILIKE] lower-cases text and pattern first
    (ASCII case folding; the server's locale is not modelled), and texts
    are byte strings, so ['_'] matches one byte.  Before the pattern
    reaches PostgreSQL, PostgREST turns every ['*'] of it into ['%']
    ([pgrst_like_pattern]): a term [a*b] is searched as [%a%b%]
    ([ilike_search_star]).

    [lmatch] is the declarative semantics of a pattern, one rule per
    pattern construct; [like_correct] shows the matcher total and equal
    to it on every pattern whose escapes are complete ([escapes_ok]),
    which every pattern [search] builds is ([search_pattern_escapes]). *)

From Stdlib Require Import Ascii.
From S2P Require Import Prelude.

Open Scope string_scope.
Open Scope list_scope.

Definition lower (c : ascii) : ascii :=
  let n := nat_of_ascii c in
  if (65 <=? n)%nat && (n <=? 90)%nat then ascii_of_nat (n + 32) else c.

Definition like_escape_error : py_exc :=
  APIError "22025" None None "LIKE pattern must not end with escape character".

(** [text LIKE pattern] on character lists. *)
Fixpoint like (p s : list ascii) : res bool :=
  match p with
  | [] => Ok (bool_decide (s = []))
  | c :: p' =>
      if Ascii.eqb c "%" then
        (fix star (s : list ascii) : res bool :=
           let? r := like p' s in
           if r then Ok true else
           match s with [] => Ok false | _ :: s' => star s' end) s
      else if Ascii.eqb c "_" then
        match s with [] => Ok false | _ :: s' => like p' s' end
      else if Ascii.eqb c "\" then
        match p' with
        | [] => Err like_escape_error
        | e :: p'' =>
            match s with
            | x :: s' => if Ascii.eqb x e then like p'' s' else Ok false
            | [] => Ok false
            end
        end
      else
        match s with
        | x :: s' => if Ascii.eqb x c then like p' s' else Ok false
        | [] => Ok false
        end
  end.

(** [text ILIKE pattern] *)
Definition ilike (s pat : string) : res bool :=
  like (map lower (String.list_ascii_of_string pat)) (map lower (String.list_ascii_of_string s)).

(** The pattern [search] builds: [f'%{search_term}%']. *)
Definition search_pattern (term : string) : string := ("%" ++ term ++ "%")%string.

(** PostgREST reads every ['*'] in the value of a [like] or [ilike]
    filter as ['%'], an alias that spares URL-encoding the percent sign
    (PostgREST's documentation, Operators); the matcher sees the result. *)
Definition star_alias (c : ascii) : ascii := if Ascii.eqb c "*" then "%"%char else c.

Definition pgrst_like_pattern (pat : string) : string :=
  String.string_of_list_ascii (map star_alias (String.list_ascii_of_string pat)).

(** ** The reference: case-insensitive substring *)

Fixpoint prefixb (t s : list ascii) : bool :=
  match t, s with
  | [], _ => true
  | a :: t', b :: s' => Ascii.eqb a b && prefixb t' s'
  | _ :: _, [] => false
  end.

Fixpoint substringb (t s : list ascii) : bool :=
  prefixb t s || match s with [] => false | _ :: s' => substringb t s' end.

(** [term.lower() in text.lower()] *)
Definition contains_ci (s term : string) : bool :=
  substringb (map lower (String.list_ascii_of_string term))
             (map lower (String.list_ascii_of_string s)).

(** A character that [LIKE] treats specially. *)
Definition like_special (c : ascii) : bool :=
  Ascii.eqb c "%" || Ascii.eqb c "_" || Ascii.eqb c "\".

(** A search term that stands for itself in [search]'s pattern: none of
    [LIKE]'s special characters, and no ['*']. *)
Definition literal_term (term : string) : bool :=
  forallb (fun c => negb (like_special c || Ascii.eqb c "*")) (String.list_ascii_of_string term).

(** [t] occurs in [s], and [u] occurs after that occurrence. *)
Fixpoint substring_then (t u s : list ascii) : bool :=
  (prefixb t s && substringb u (drop (length t) s))
  || match s with [] => false | _ :: s' => substring_then t u s' end.

(** The texts [search] keeps for a term [a*b]: [a], then [b], ignoring
    case. *)
Definition contains_then_ci (s a b : string) : bool :=
  substring_then (map lower (String.list_ascii_of_string a)) (map lower (String.list_ascii_of_string b))
                 (map lower (String.list_ascii_of_string s)).

(** ** Lemmas *)

(** The [%] case unfolded: try the rest of the pattern here, then one
    character further. *)
Lemma like_percent p s :
  like ("%"%char :: p) s
  = let? r := like p s in
    if r then Ok true else match s with [] => Ok false | _ :: s' => like ("%"%char :: p) s' end.
Proof. destruct s; reflexivity. Qed.

(** A trailing [%] matches every text. *)
Lemma like_percent_nil s : like ["%"%char] s = Ok true.
Proof.
  induction s as [|x s IH]; [reflexivity|]. rewrite like_percent. simpl. exact IH.
Qed.

Lemma like_lit c p x s :
  like_special c = false -> like (c :: p) (x :: s) = if Ascii.eqb x c then like p s else Ok false.
Proof.
  unfold like_special. intros Hc. cbn [like].
  destruct (Ascii.eqb c "%"), (Ascii.eqb c "_"), (Ascii.eqb c "\"); done.
Qed.

Lemma like_lit_nil c p : like_special c = false -> like (c :: p) [] = Ok false.
Proof.
  unfold like_special. intros Hc. cbn [like].
  destruct (Ascii.eqb c "%"), (Ascii.eqb c "_"), (Ascii.eqb c "\"); done.
Qed.

(** A literal prefix of a pattern is a prefix test, then the rest of the
    pattern on the rest of the text. *)
Lemma like_literal_app t p s :
  forallb (fun c => negb (like_special c)) t = true ->
  like (t ++ p) s = if prefixb t s then like p (drop (length t) s) else Ok false.
Proof.
  revert s; induction t as [|c t IH]; intros s Ht; [done|].
  simpl in Ht. apply andb_prop in Ht as [Hc Ht]. apply negb_true_iff in Hc. simpl app.
  destruct s as [|x s]; [by apply like_lit_nil|]. rewrite like_lit by done. simpl prefixb.
  destruct (Ascii.eqb_spec x c) as [->|Hne].
  - rewrite Ascii.eqb_refl. simpl. by apply IH.
  - destruct (Ascii.eqb_spec c x); [congruence|]. reflexivity.
Qed.

(** A literal prefix followed by [%] is a prefix test. *)
Lemma like_literal_percent t s :
  forallb (fun c => negb (like_special c)) t = true ->
  like (t ++ ["%"%char]) s = Ok (prefixb t s).
Proof.
  intros Ht. rewrite like_literal_app, like_percent_nil by done. by destruct (prefixb t s).
Qed.

Lemma lower_not_special c : like_special c = false -> like_special (lower c) = false.
Proof.
  unfold lower. destruct ((65 <=? nat_of_ascii c)%nat && (nat_of_ascii c <=? 90)%nat) eqn:E;
    [|done].
  intros _. apply andb_prop in E as [E1 E2]. apply Nat.leb_le in E1, E2.
  unfold like_special.
  destruct (Ascii.eqb_spec (ascii_of_nat (nat_of_ascii c + 32)) "%") as [H|];
    [apply (f_equal nat_of_ascii) in H; rewrite nat_ascii_embedding in H by lia;
     change (nat_of_ascii "%") with 37%nat in H; lia|].
  destruct (Ascii.eqb_spec (ascii_of_nat (nat_of_ascii c + 32)) "_") as [H|];
    [apply (f_equal nat_of_ascii) in H; rewrite nat_ascii_embedding in H by lia;
     change (nat_of_ascii "_") with 95%nat in H; lia|].
  destruct (Ascii.eqb_spec (ascii_of_nat (nat_of_ascii c + 32)) "\") as [H|];
    [apply (f_equal nat_of_ascii) in H; rewrite nat_ascii_embedding in H by lia;
     change (nat_of_ascii "\") with 92%nat in H; lia|].
  reflexivity.
Qed.

(** [%t%] with a literal [t] is a substring test. *)
Lemma like_percent_literal_percent t s :
  forallb (fun c => negb (like_special c)) t = true ->
  like ("%"%char :: t ++ ["%"%char]) s = Ok (substringb t s).
Proof.
  intros Ht. induction s as [|x s IH]; rewrite like_percent, like_literal_percent by done.
  - simpl. destruct t; reflexivity.
  - simpl substringb. destruct (prefixb t (x :: s)); [reflexivity|]. exact IH.
Qed.

(** [%t%p] with a literal [t]: [t] occurs, and [p] matches from the end
    of that occurrence on. *)
Lemma like_percent_then t u s :
  forallb (fun c => negb (like_special c)) t = true -> forallb (fun c => negb (like_special c)) u = true ->
  like ("%"%char :: t ++ "%"%char :: u ++ ["%"%char]) s = Ok (substring_then t u s).
Proof.
  intros Ht Hu. induction s as [|x s IH]; rewrite like_percent, like_literal_app by done;
    cbn [substring_then]; destruct (prefixb t _); rewrite ?like_percent_literal_percent by done;
    cbn [res_bind andb orb]; try destruct (substringb _ _); try reflexivity; exact IH.
Qed.

(** The text the matcher receives for [search]'s pattern: PostgREST's
    alias, then [ILIKE]'s lower-casing. *)
Lemma search_pattern_chars term :
  map lower (String.list_ascii_of_string (pgrst_like_pattern (search_pattern term)))
  = "%"%char :: map lower (map star_alias (String.list_ascii_of_string term)) ++ ["%"%char].
Proof.
  unfold pgrst_like_pattern, search_pattern.
  rewrite String.list_ascii_of_string_of_list_ascii, !list_ascii_of_string_append, !map_app.
  reflexivity.
Qed.

(** A literal term passes PostgREST unchanged, and stays free of special
    characters once lower-cased. *)
Lemma literal_term_chars term :
  literal_term term = true ->
  map star_alias (String.list_ascii_of_string term) = String.list_ascii_of_string term
  /\ forallb (fun c => negb (like_special c)) (map lower (String.list_ascii_of_string term)) = true.
Proof.
  unfold literal_term. induction (String.list_ascii_of_string term) as [|c l IH]; [done|].
  simpl. intros H. apply andb_prop in H as [Hc Hl]. apply negb_true_iff, orb_false_iff in Hc as [Hc Hs].
  destruct (IH Hl) as [-> ->]. unfold star_alias. rewrite Hs. split; [done|].
  by rewrite lower_not_special.
Qed.

(** [search]'s pattern on a literal term: [ILIKE] is a case-insensitive
    substring test. *)
Lemma ilike_search_pattern s term :
  literal_term term = true ->
  ilike s (pgrst_like_pattern (search_pattern term)) = Ok (contains_ci s term).
Proof.
  intros Ht. destruct (literal_term_chars term Ht) as [Hs Hl].
  unfold ilike, contains_ci. rewrite search_pattern_chars, Hs. by apply like_percent_literal_percent.
Qed.

(** [search]'s pattern on [a*b] with literal [a] and [b]: PostgREST
    turns the star into [%], so the text must hold [a], then [b]. *)
Lemma ilike_search_star s a b :
  literal_term a = true -> literal_term b = true ->
  ilike s (pgrst_like_pattern (search_pattern (a ++ "*" ++ b))) = Ok (contains_then_ci s a b).
Proof.
  intros Ha Hb. destruct (literal_term_chars a Ha) as [Ha1 Ha2]. destruct (literal_term_chars b Hb) as [Hb1 Hb2].
  unfold ilike, contains_then_ci. rewrite search_pattern_chars, !list_ascii_of_string_append, !map_app, Ha1, Hb1.
  change (map lower (map star_alias (String.list_ascii_of_string "*"))) with ["%"%char].
  rewrite <- !app_assoc. simpl. by apply like_percent_then.
Qed.

(** The pattern of a search for ["_"] matches every non-empty text. *)
Lemma ilike_search_underscore s :
  ilike s (pgrst_like_pattern (search_pattern "_")) = Ok (negb (String.eqb s "")).
Proof.
  unfold ilike. destruct s as [|c s]; [reflexivity|].
  change (map lower (String.list_ascii_of_string (pgrst_like_pattern (search_pattern "_"))))
    with ["%"%char; "_"%char; "%"%char].
  rewrite like_percent. simpl. by rewrite like_percent_nil.
Qed.

(** ** The pattern language, declaratively

    [lmatch p s]: the text [s] matches the pattern [p] as the
    PostgreSQL documentation describes it: ['%'] stands for any sequence
    of characters, ['_'] for any one character, ['\'] makes the next
    character literal, and every other character stands for itself. *)
Inductive lmatch : list ascii -> list ascii -> Prop :=
| lm_nil : lmatch [] []
| lm_pct_here p s : lmatch p s -> lmatch ("%"%char :: p) s
| lm_pct_skip p x s : lmatch ("%"%char :: p) s -> lmatch ("%"%char :: p) (x :: s)
| lm_any p x s : lmatch p s -> lmatch ("_"%char :: p) (x :: s)
| lm_esc e p s : lmatch p s -> lmatch ("\"%char :: e :: p) (e :: s)
| lm_lit c p s : like_special c = false -> lmatch p s -> lmatch (c :: p) (c :: s).

(** A pattern whose escapes all have a character to escape: the
    matcher raises on no other pattern. *)
Fixpoint escapes_ok (p : list ascii) : bool :=
  match p with
  | [] => true
  | c :: p' =>
      if Ascii.eqb c "\" then match p' with [] => false | _ :: p'' => escapes_ok p'' end
      else escapes_ok p'
  end.

Lemma lmatch_nil_inv s : lmatch [] s <-> s = [].
Proof. split; [by inversion 1|intros ->; constructor]. Qed.

Lemma lmatch_pct_inv p s :
  lmatch ("%"%char :: p) s <-> lmatch p s \/ exists x s', s = x :: s' /\ lmatch ("%"%char :: p) s'.
Proof.
  split.
  - inversion 1; subst; eauto. discriminate.
  - intros [H|(x & s' & -> & H)]; by constructor.
Qed.

(** The matcher's [%] loop against the declarative [%]: both try the
    rest of the pattern here, then one character further. *)
Lemma like_percent_correct p :
  (forall s, exists b, like p s = Ok b /\ (b = true <-> lmatch p s)) ->
  forall s, exists b, like ("%"%char :: p) s = Ok b /\ (b = true <-> lmatch ("%"%char :: p) s).
Proof.
  intros IH s. induction s as [|x s IHs]; rewrite like_percent;
    [destruct (IH []) as (b0 & -> & Hb0) | destruct (IH (x :: s)) as (b0 & -> & Hb0)];
    cbn [res_bind].
  - destruct b0.
    + exists true. split; [done|]. split; [intros _; apply lm_pct_here; by apply Hb0|done].
    + exists false. split; [done|]. split; [done|]. rewrite lmatch_pct_inv.
      intros [H|(? & ? & ? & _)]; [by apply Hb0 in H|discriminate].
  - destruct b0.
    + exists true. split; [done|]. split; [intros _; apply lm_pct_here; by apply Hb0|done].
    + destruct IHs as (b1 & -> & Hb1). exists b1. split; [done|]. rewrite lmatch_pct_inv.
      split; [intros ->; right; exists x, s; split; [done|by apply Hb1]|].
      intros [H|(x' & s' & E & H)]; [apply Hb0 in H; discriminate|].
      injection E as <- <-. by apply Hb1.
Qed.

Lemma lmatch_any_inv p x s : lmatch ("_"%char :: p) (x :: s) <-> lmatch p s.
Proof. split; [inversion 1; subst; [done|discriminate]|apply lm_any]. Qed.

Lemma lmatch_esc_inv e p x s : lmatch ("\"%char :: e :: p) (x :: s) <-> x = e /\ lmatch p s.
Proof. split; [inversion 1; subst; [done|discriminate]|intros [-> H]; by apply lm_esc]. Qed.

Lemma lmatch_lit_inv c p x s :
  like_special c = false -> lmatch (c :: p) (x :: s) <-> x = c /\ lmatch p s.
Proof.
  intros Hc. split; [|intros [-> H]; by apply lm_lit].
  inversion 1; subst; try discriminate; done.
Qed.

Lemma lmatch_cons_nil c p : c <> "%"%char -> ~ lmatch (c :: p) [].
Proof. intros Hc H. inversion H; subst; congruence. Qed.

(** One step of the matcher on each kind of pattern character. *)
Lemma like_esc e p x s : like ("\"%char :: e :: p) (x :: s) = if Ascii.eqb x e then like p s else Ok false.
Proof. reflexivity. Qed.

Lemma like_correct_n n p :
  (length p <= n)%nat -> escapes_ok p = true ->
  forall s, exists b, like p s = Ok b /\ (b = true <-> lmatch p s).
Proof.
  revert p. induction n as [|n IH]; intros [|c p] Hl He s; simpl in Hl; try lia.
  1,2: exists (bool_decide (s = [])); split; [done|]; rewrite lmatch_nil_inv; apply bool_decide_eq_true.
  destruct (Ascii.eqb_spec c "%") as [->|H1].
  { apply like_percent_correct. apply IH; [lia|done]. }
  destruct (Ascii.eqb_spec c "_") as [->|H2].
  { destruct s as [|x s].
    - exists false. split; [done|]. split; [done|]. intros Hm. exfalso. by eapply lmatch_cons_nil; [|exact Hm].
    - destruct (IH p ltac:(lia) He s) as (b & Hb & Hbm). exists b. split; [done|].
      by rewrite lmatch_any_inv. }
  destruct (Ascii.eqb_spec c "\") as [->|H3].
  { destruct p as [|e p]; [discriminate|]. simpl in Hl, He.
    destruct s as [|x s].
    - exists false. split; [done|]. split; [done|]. intros Hm. exfalso. by eapply lmatch_cons_nil; [|exact Hm].
    - destruct (IH p ltac:(lia) He s) as (b & Hb & Hbm).
      destruct (Ascii.eqb_spec x e) as [->|Hx].
      + exists b. split; [by rewrite like_esc, Ascii.eqb_refl|]. rewrite lmatch_esc_inv.
        split; [intros Hb'; split; [done|by apply Hbm]|intros [_ H]; by apply Hbm].
      + exists false. split; [rewrite like_esc; by destruct (Ascii.eqb_spec x e)|].
        rewrite lmatch_esc_inv. split; [done|]. by intros [? _]. }
  assert (Hs : like_special c = false).
  { unfold like_special. by destruct (Ascii.eqb_spec c "%"), (Ascii.eqb_spec c "_"), (Ascii.eqb_spec c "\"). }
  assert (He' : escapes_ok p = true).
  { simpl in He. by destruct (Ascii.eqb_spec c "\"). }
  destruct s as [|x s].
  - exists false. split; [by apply like_lit_nil|]. split; [done|]. intros Hm. exfalso. by eapply lmatch_cons_nil; [|exact Hm].
  - destruct (IH p ltac:(lia) He' s) as (b & Hb & Hbm).
    destruct (Ascii.eqb_spec x c) as [->|Hx].
    + exists b. split; [by rewrite like_lit, Ascii.eqb_refl|]. rewrite lmatch_lit_inv by done.
      split; [intros Hb'; split; [done|by apply Hbm]|intros [_ H]; by apply Hbm].
    + exists false. split; [rewrite like_lit by done; by destruct (Ascii.eqb_spec x c)|].
      rewrite lmatch_lit_inv by done. split; [done|]. by intros [? _].
Qed.

(** The matcher is correct and total on every pattern whose escapes
    are complete: it answers, and it answers [true] exactly on the texts
    the pattern describes. *)
Lemma like_correct p s :
  escapes_ok p = true -> exists b, like p s = Ok b /\ (b = true <-> lmatch p s).
Proof. intros He. exact (like_correct_n (length p) p (le_n _) He s). Qed.

(** A pattern that ends with a character other than ['\'] has complete
    escapes: a lone ['\'] before it escapes it. *)
Lemma escapes_ok_snoc_n n l c :
  (length l <= n)%nat -> c <> "\"%char -> escapes_ok (l ++ [c]) = true.
Proof.
  revert l. induction n as [|n IH]; intros [|y l] Hl Hc; simpl in Hl; try lia;
    try (simpl; by destruct (Ascii.eqb_spec c "\")).
  cbn [app escapes_ok]. destruct (Ascii.eqb_spec y "\").
  - destruct l as [|z l]; [done|]. cbn [app]. apply IH; [simpl in Hl; lia|done].
  - apply IH; [lia|done].
Qed.

(** The pattern [search] sends, as the matcher receives it, never makes
    the matcher raise, whatever the term: it ends with ['%']. *)
Lemma search_pattern_escapes term :
  escapes_ok (map lower (String.list_ascii_of_string (pgrst_like_pattern (search_pattern term)))) = true.
Proof.
  rewrite search_pattern_chars. rewrite app_comm_cons.
  by apply (escapes_ok_snoc_n _ _ _ (le_n _)).
Qed.

(** [ILIKE] with [search]'s pattern always answers, and answers [true]
    exactly when the lower-cased text matches the pattern the matcher
    receives. *)
Lemma ilike_search_correct s term :
  exists b, ilike s (pgrst_like_pattern (search_pattern term)) = Ok b
    /\ (b = true <-> lmatch (map lower (String.list_ascii_of_string (pgrst_like_pattern (search_pattern term))))
                            (map lower (String.list_ascii_of_string s))).
Proof. apply like_correct, search_pattern_escapes. Qed.
