(* ===== verification/Backend.v ===== *)
(** * The store interface: queries, filters and the [Backend] class

    [SupabaseHelper] builds every request with the Supabase client's
    query builder, [supabase.table(name)] followed by one of [select],
    [insert], [update], [delete] and zero or more filters [eq], [ilike],
    [gte], [lte], and runs it with [execute()], whose [response.data] is
    the list of rows the store returns.  The builder is modelled as the
    record [query] built by the functions of [Module Client]; the store
    as any type with an instance of [Backend] (the operations) and
    [BackendLaws] (what [SupabaseHelper] may rely on).  The laws are an
    abstract specification of a table store: each table is a list of rows
    in insertion order, a select returns the rows that pass every filter,
    a delete removes exactly them, an insert appends one row with a fresh
    [id].  [Store] implements it.

    Filter values are compared with the JSON value the store holds as SQL
    compares them: strings with strings, numbers numerically, booleans
    with booleans, and a text cell with [str] of the argument, the text
    the client sends ([sql_text]); a NULL cell satisfies no comparison.  The one column type modelled is the [bigint] of [id]:
    a filter comparing [id] with an integer outside its range fails the
    request before any row is read ([filter_check], [law_id_range]).
    Other comparisons between values of unrelated types are decided per
    row (PostgreSQL rejects some of them when it parses the query). *)

From Stdlib Require Import Ascii DecimalString Floats Permutation Morphisms.
From S2P Require Import Prelude PyValue IsoFormat Like.

Open Scope string_scope.
Open Scope list_scope.
Open Scope Z_scope.

(** ** Queries *)

(** The argument of [select]: ['*'], one column, or a related table
    embedded with ["table(*)"]. *)
Inductive selector :=
| SelStar
| SelCol (c : string)
| SelEmbed (t : string).

Inductive filter :=
| FilterEq (c : string) (v : pyval)
| FilterILike (c : string) (pat : string)
| FilterGte (c : string) (v : pyval)
| FilterLte (c : string) (v : pyval).

Inductive action :=
| ASelect (sel : selector)
| AInsert (body : pyval)
| AUpdate (body : dict)
| ADelete.

Record query := mkQuery { q_table : string; q_action : action; q_filters : list filter }.

Definition filter_column (f : filter) : string :=
  match f with FilterEq c _ | FilterILike c _ | FilterGte c _ | FilterLte c _ => c end.

(** How PostgREST reads a [select] string. *)
Definition parse_select (s : string) : selector :=
  if String.eqb s "*" then SelStar
  else
    let n := String.length s in
    if (3 <=? n)%nat && String.eqb (String.substring (n - 3) 3 s) "(*)"
    then SelEmbed (String.substring 0 (n - 3) s)
    else SelCol s.

(** ** The client's query builder *)

Module Client.
(** [supabase.table(name)] *)
Definition table (name : string) : string := name.
(** [.select(columns)], [.insert(json)], [.update(json)], [.delete()] *)
Definition select (t : string) (cols : string) : query := mkQuery t (ASelect (parse_select cols)) [].
Definition insert (t : string) (body : pyval) : query := mkQuery t (AInsert body) [].
Definition update (t : string) (body : dict) : query := mkQuery t (AUpdate body) [].
Definition delete (t : string) : query := mkQuery t ADelete [].
(** [.eq(column, value)] and the other filters append to the query. *)
Definition add_filter (q : query) (f : filter) : query :=
  mkQuery (q_table q) (q_action q) (q_filters q ++ [f]).
Definition eq (q : query) (c : string) (v : pyval) : query := add_filter q (FilterEq c v).
Definition ilike (q : query) (c : string) (pat : string) : query := add_filter q (FilterILike c pat).
Definition gte (q : query) (c : string) (v : pyval) : query := add_filter q (FilterGte c v).
Definition lte (q : query) (c : string) (v : pyval) : query := add_filter q (FilterLte c v).
End Client.

(** ** Filter semantics *)

(** The text of a filter argument: postgrest-py writes the filter as
    [f"{operator}.{value}"], so the store receives [str(value)] ([None]
    as the text ["None"], a [datetime] with a space before the time), and
    a text cell is compared with that text.  [str] of a float, list or
    dict is not modelled ([None] here). *)
Definition sql_text (v : pyval) : option string :=
  match v with
  | PNone => Some "None"
  | PBool b => Some (if b then "True" else "False")
  | PInt z => Some (z_to_dec z)
  | PStr s => Some s
  | PDate d => Some (date_isoformat d)
  | PDateTime dt => Some (datetime_str dt)
  | _ => None
  end.

Definition float_of_Z (z : Z) : float :=
  match int_to_float z with Ok f => f | Err _ => PrimFloat.infinity end.

Definition float_cmp (c : float_comparison) : comparison :=
  match c with FEq => Eq | FLt => Lt | FGt => Gt | FNotComparable => Gt end.

(** SQL's comparison of a non-NULL cell with an argument: [None] when
    the two values are of unrelated types. *)
Definition sql_compare (cell v : pyval) : option comparison :=
  match cell, v with
  | PInt x, PInt y => Some (Z.compare x y)
  | PInt x, PFloat g => Some (float_cmp (PrimFloat.compare (float_of_Z x) g))
  | PFloat f, PInt y => Some (float_cmp (PrimFloat.compare f (float_of_Z y)))
  | PFloat f, PFloat g => Some (float_cmp (PrimFloat.compare f g))
  | PBool a, PBool b => Some (Bool.compare a b)
  | PStr s, _ => match sql_text v with Some t => Some (String.compare s t) | None => None end
  | _, _ => None
  end.

(** [cell = v]: NULL is equal to nothing. *)
Definition sql_eq (cell v : pyval) : bool :=
  match cell with
  | PNone => false
  | _ => match sql_compare cell v with Some Eq => true | _ => false end
  end.

Definition missing_column (c : string) : py_exc :=
  APIError "42703" None None ("column " ++ c ++ " does not exist").

Definition incomparable (cell v : pyval) : py_exc :=
  APIError "42883" None
    (Some "No operator matches the given name and argument types. You might need to add explicit type casts.")
    ("operator does not exist: " ++ type_name cell ++ " and " ++ type_name v).

Definition column_value (r : dict) (c : string) : res pyval :=
  match dict_lookup r c with Some v => Ok v | None => Err (missing_column c) end.

(** An ordering filter: NULL cells fail it, unrelated types raise. *)
Definition eval_order (cell v : pyval) (ok : comparison -> bool) : res bool :=
  match cell with
  | PNone => Ok false
  | _ => match sql_compare cell v with
         | Some c => Ok (ok c)
         | None => Err (incomparable cell v)
         end
  end.

(** Whether a row passes one filter. *)
Definition eval_filter (f : filter) (r : dict) : res bool :=
  match f with
  | FilterEq c v => let? cell := column_value r c in Ok (sql_eq cell v)
  | FilterILike c pat =>
      let? cell := column_value r c in
      match cell with
      | PNone => Ok false
      | PStr s => ilike s (pgrst_like_pattern pat)
      | _ => Err (incomparable cell (PStr pat))
      end
  | FilterGte c v =>
      let? cell := column_value r c in
      eval_order cell v (fun o => match o with Lt => false | _ => true end)
  | FilterLte c v =>
      let? cell := column_value r c in
      eval_order cell v (fun o => match o with Gt => false | _ => true end)
  end.

(** The conjunction of the filters ([WHERE f1 AND f2 AND ...]); every
    filter is evaluated, and the first error is raised. *)
Fixpoint all_filters (fs : list filter) (r : dict) : res bool :=
  match fs with
  | [] => Ok true
  | f :: fs' => let? b := eval_filter f r in let? b' := all_filters fs' r in Ok (b && b')
  end.

(** The rows of a table that pass the filters, in table order. *)
Fixpoint filter_rows (fs : list filter) (rows : list dict) : res (list dict) :=
  match rows with
  | [] => Ok []
  | r :: rs =>
      let? b := all_filters fs r in
      let? rs' := filter_rows fs rs in
      Ok (if b then r :: rs' else rs')
  end.

(** The rows that pass the filters and those that do not. *)
Fixpoint partition_rows (fs : list filter) (rows : list dict) : res (list dict * list dict) :=
  match rows with
  | [] => Ok ([], [])
  | r :: rs =>
      let? b := all_filters fs r in
      let? p := partition_rows fs rs in
      Ok (if b then (r :: fst p, snd p) else (fst p, r :: snd p))
  end.

(** [select(c)]: the row reduced to the one column. *)
Definition project_col (c : string) (r : dict) : dict := [(c, dict_get r c)].

(** [update(json)] on one row: each key of the body is set, in order. *)
Definition apply_update (d : dict) (r : dict) : dict :=
  fold_left (fun acc kv => dict_set acc (fst kv) (snd kv)) d r.

(** The rows of a table after [update(d)] with the filters. *)
Fixpoint updated_rows (fs : list filter) (d : dict) (rows : list dict) : res (list dict) :=
  match rows with
  | [] => Ok []
  | r :: rs =>
      let? b := all_filters fs r in
      let? rs' := updated_rows fs d rs in
      Ok ((if b then apply_update d r else r) :: rs')
  end.

(** The error for a request on a table that does not exist. *)
Definition no_table (t : string) : py_exc :=
  APIError "42P01" None None ("relation public." ++ t ++ " does not exist").

(** PostgreSQL's [bigint], the type of the [id] column (the primary key
    every table of the application has); the only column type modelled. *)
Definition bigint_max : Z := 2 ^ 63 - 1.
Definition in_bigint (z : Z) : bool := (- 2 ^ 63 <=? z) && (z <=? bigint_max).

(** A double quote, for the messages that quote a value. *)
Definition dquote : string := String.String "034"%char EmptyString.

Definition out_of_range (z : Z) : py_exc :=
  APIError "22003" None None ("value " ++ dquote ++ z_to_dec z ++ dquote ++ " is out of range for type bigint").

(** The integer a filter compares the [id] column with, if it is one. *)
Definition id_operand (f : filter) : option Z :=
  match f with
  | FilterEq c (PInt z) | FilterGte c (PInt z) | FilterLte c (PInt z) =>
      if String.eqb c "id" then Some z else None
  | _ => None
  end.

(** PostgreSQL resolves the column of a filter and reads its constant as
    the column's type when it plans the query: an unknown column, or an
    integer compared with [id] that no [bigint] holds, fails the request
    before any row is read. *)
Definition filter_check (cols : list string) (f : filter) : res unit :=
  if negb (bool_decide (filter_column f ∈ cols)) then Err (missing_column (filter_column f))
  else match id_operand f with
       | Some z => if in_bigint z then Ok tt else Err (out_of_range z)
       | None => Ok tt
       end.

(** An equality item [(column, value)] whose value the column can hold:
    an integer for [id] is a [bigint]. *)
Definition fits_column (kv : string * pyval) : bool :=
  match snd kv with PInt z => negb (String.eqb (fst kv) "id") || in_bigint z | _ => true end.

(** The filters name only columns of the table, with constants their
    types hold. *)
Definition filters_known (cols : list string) (fs : list filter) : bool :=
  forallb (fun f => match filter_check cols f with Ok _ => true | Err _ => false end) fs.

(** ** The interface *)

(** The operations of a store with state [S]: running a query, and the
    observations the laws are stated with (the rows of a table in order,
    and its columns; [None] for a table that does not exist). *)
Class Backend (S : Type) := {
  execute : query -> st S (list dict);
  contents : S -> string -> option (list dict);
  columns : S -> string -> option (list string);
}.

Definition id_filter (i : Z) : list filter := [FilterEq "id" (PInt i)].

(** What [SupabaseHelper] relies on. *)
Class BackendLaws (S : Type) `{Backend S} : Prop := {
  (** [select('*')] returns the rows passing the filters, in order,
      and changes nothing. *)
  law_select_star : forall s t fs rows cols,
    contents s t = Some rows -> columns s t = Some cols -> filters_known cols fs = true ->
    execute (mkQuery t (ASelect SelStar) fs) s = (s, filter_rows fs rows);
  (** [select(c)] returns the same rows reduced to [c]. *)
  law_select_col : forall s t c fs rows cols,
    contents s t = Some rows -> columns s t = Some cols -> c ∈ cols ->
    filters_known cols fs = true ->
    execute (mkQuery t (ASelect (SelCol c)) fs) s
    = (s, let? rs := filter_rows fs rows in Ok (map (project_col c) rs));
  (** [delete()] removes and returns exactly the rows passing the
      filters, and touches no other table. *)
  law_delete : forall s t fs rows cols hit keep,
    contents s t = Some rows -> columns s t = Some cols -> filters_known cols fs = true ->
    partition_rows fs rows = Ok (hit, keep) ->
    snd (execute (mkQuery t ADelete fs) s) = Ok hit
    /\ contents (fst (execute (mkQuery t ADelete fs) s)) t = Some keep
    /\ (forall t', t' <> t -> contents (fst (execute (mkQuery t ADelete fs) s)) t' = contents s t')
    /\ (forall t', columns (fst (execute (mkQuery t ADelete fs) s)) t' = columns s t');
  (** A successful [insert(dict)] appends one row that holds the data
      and an [id] no other row has. *)
  law_insert : forall s t d rows cols s' out,
    contents s t = Some rows -> columns s t = Some cols -> "id" ∈ cols ->
    execute (mkQuery t (AInsert (PDict d)) []) s = (s', Ok out) ->
    exists r i, out = [r]
      /\ contents s' t = Some (rows ++ [r])
      /\ dict_lookup r "id" = Some (PInt i) /\ in_bigint i = true
      /\ filter_rows (id_filter i) rows = Ok []
      /\ (forall k v, dict_lookup d k = Some v -> dict_lookup r k = Some v)
      /\ (forall t', columns s' t' = columns s t')
      /\ (forall t', t' <> t -> contents s' t' = contents s t');
  (** A successful [update(d)] returns the matching rows updated, and
      the table holds them in place of the old ones. *)
  law_update : forall s t fs d rows cols s' out,
    contents s t = Some rows -> columns s t = Some cols ->
    execute (mkQuery t (AUpdate d) fs) s = (s', Ok out) ->
    exists hit rows', filter_rows fs rows = Ok hit /\ out = map (apply_update d) hit
      /\ updated_rows fs d rows = Ok rows' /\ contents s' t = Some rows'
      /\ (forall t', columns s' t' = columns s t')
      /\ (forall t', t' <> t -> contents s' t' = contents s t');
  (** A rejected [update] writes nothing. *)
  law_update_err : forall s t fs d s' e,
    execute (mkQuery t (AUpdate d) fs) s = (s', Err e) -> s' = s;
  (** A filter comparing [id] with an integer outside [bigint] fails the
      request, whatever it does, and nothing changes. *)
  law_id_range : forall s t a i cols,
    columns s t = Some cols -> "id" ∈ cols -> in_bigint i = false ->
    execute (mkQuery t a (id_filter i)) s = (s, Err (out_of_range i));
  (** A rejected [insert] writes no row and changes no schema (the
      store may still have used values of an [id] sequence). *)
  law_insert_err : forall s t body s' e,
    execute (mkQuery t (AInsert body) []) s = (s', Err e) ->
    forall t', contents s' t' = contents s t' /\ columns s' t' = columns s t';
}.

(** ** The message of a range error *)

(** The decimal digits of an integer are plain characters for [repr]. *)
Lemma uint_plain u : forallb plain_char (String.list_ascii_of_string (NilEmpty.string_of_uint u)) = true.
Proof. induction u; [reflexivity|..]; cbn [NilEmpty.string_of_uint String.list_ascii_of_string forallb]; by rewrite IHu. Qed.

Lemma z_to_dec_plain z : forallb plain_char (String.list_ascii_of_string (z_to_dec z)) = true.
Proof.
  unfold z_to_dec, NilZero.string_of_int, NilZero.string_of_uint.
  destruct (Z.to_int z) as [u|u]; [|cbn [String.list_ascii_of_string forallb]];
    (destruct u; [reflexivity|..]; apply uint_plain).
Qed.

(** The text of the 500 a range error gives: [str] of the [APIError]. *)
Lemma exc_message_out_of_range z :
  exc_message (out_of_range z)
  = ("{'code': '22003', 'details': None, 'hint': None, 'message': 'value " ++ dquote ++ z_to_dec z ++ dquote
    ++ " is out of range for type bigint'}")%string.
Proof.
  unfold out_of_range. cbn [exc_message py_repr_opt].
  change (py_repr_str "22003") with "'22003'".
  rewrite py_repr_plain.
  2:{ rewrite !list_ascii_of_string_append, !forallb_app, z_to_dec_plain. reflexivity. }
  cbn [String.append].
  rewrite <- !string_append_assoc. reflexivity.
Qed.

(** ** Lemmas on filters *)

(** A row passes the filters. *)
Definition passes (fs : list filter) (r : dict) : Prop := all_filters fs r = Ok true.

(** The filters are a conjunction: a row passes them all exactly when
    it passes each one. *)
Lemma passes_Forall fs r : passes fs r <-> Forall (fun f => eval_filter f r = Ok true) fs.
Proof.
  unfold passes. induction fs as [|f fs IH]; simpl.
  - split; [constructor | done].
  - rewrite Forall_cons, <- IH.
    destruct (eval_filter f r) as [[]|e]; simpl;
      destruct (all_filters fs r) as [[]|e']; simpl; intuition congruence.
Qed.

#[export] Instance passes_perm : Proper (@Permutation filter ==> eq ==> iff) passes.
Proof.
  intros fs fs' Hp r r' <-. by rewrite !passes_Forall, Hp.
Qed.

Lemma filter_rows_app fs rows1 rows2 out1 out2 :
  filter_rows fs rows1 = Ok out1 -> filter_rows fs rows2 = Ok out2 ->
  filter_rows fs (rows1 ++ rows2) = Ok (out1 ++ out2).
Proof.
  revert out1. induction rows1 as [|r rows1 IH]; simpl; intros out1 H1 H2.
  - by injection H1 as <-.
  - destruct (all_filters fs r) as [b|]; [|discriminate]. simpl in *.
    destruct (filter_rows fs rows1) as [o|]; [|discriminate]. simpl in H1.
    injection H1 as <-. rewrite (IH o eq_refl H2). simpl. by destruct b.
Qed.

(** Soundness and completeness of [filter_rows]: its result holds
    exactly the rows of the table that pass the filters. *)
Lemma filter_rows_spec fs rows out :
  filter_rows fs rows = Ok out ->
  forall r, r ∈ out <-> r ∈ rows /\ passes fs r.
Proof.
  revert out; induction rows as [|x rows IH]; simpl; intros out H r.
  - injection H as <-. split; [intros Hr; inversion Hr | intros [Hr _]; inversion Hr].
  - unfold passes. destruct (all_filters fs x) as [b|] eqn:Ex; [|discriminate]. simpl in H.
    destruct (filter_rows fs rows) as [o|] eqn:Eo; [|discriminate]. simpl in H.
    injection H as <-. specialize (IH o eq_refl r).
    rewrite elem_of_cons. unfold passes in IH.
    destruct b; rewrite ?elem_of_cons, IH; split; intros; intuition (subst; congruence).
Qed.

Lemma filter_rows_Forall fs rows out :
  filter_rows fs rows = Ok out -> Forall (passes fs) out.
Proof.
  intros H. apply Forall_forall. intros r Hr.
  by apply (filter_rows_spec fs rows out H r) in Hr as [_ ?].
Qed.

(** No filter keeps every row. *)
Lemma filter_rows_nil rows : filter_rows [] rows = Ok rows.
Proof. induction rows as [|r rows IH]; simpl; [done|]. by rewrite IH. Qed.

(** Filtering by filters that decide every row as a boolean test does. *)
Lemma filter_rows_bool fs rows (p : dict -> bool) :
  (forall r, r ∈ rows -> all_filters fs r = Ok (p r)) ->
  filter_rows fs rows = Ok (List.filter p rows).
Proof.
  induction rows as [|r rows IH]; intros Hr; [done|]. simpl.
  rewrite (Hr r (list_elem_of_here _ _)). simpl.
  rewrite IH by (intros r' Hr'; apply Hr; by apply list_elem_of_further). simpl.
  by destruct (p r).
Qed.

Lemma partition_rows_filter fs rows hit keep :
  partition_rows fs rows = Ok (hit, keep) -> filter_rows fs rows = Ok hit.
Proof.
  revert hit keep; induction rows as [|r rows IH]; simpl; intros hit keep H.
  - by injection H as <- <-.
  - destruct (all_filters fs r) as [b|]; [|discriminate]. simpl in *.
    destruct (partition_rows fs rows) as [[h k]|]; [|discriminate]. simpl in H.
    rewrite (IH h k eq_refl). simpl. destruct b; injection H as <- <-; reflexivity.
Qed.

#[export] Hint Resolve filter_rows_Forall partition_rows_filter : pydb.

(** ** Lemmas on [update] *)

Lemma apply_update_lookup_other d r k :
  k ∉ dict_keys d -> dict_lookup (apply_update d r) k = dict_lookup r k.
Proof.
  unfold apply_update. revert r. induction d as [|[k' v] d IH]; intros r Hk; [done|].
  simpl. unfold dict_keys in Hk. simpl in Hk. apply not_elem_of_cons in Hk as [Hne Hk].
  rewrite IH by done. by apply dict_lookup_set_neq.
Qed.

Lemma apply_update_lookup d r k v :
  NoDup (dict_keys d) -> dict_lookup d k = Some v -> dict_lookup (apply_update d r) k = Some v.
Proof.
  unfold apply_update. revert r. induction d as [|[k' v'] d IH]; intros r Hnd Hk; [done|].
  simpl in *. unfold dict_keys in Hnd. simpl in Hnd. apply NoDup_cons in Hnd as [Hn Hnd].
  destruct (String.eqb_spec k' k) as [->|Hne].
  - injection Hk as <-. change (fold_left _ d ?r0) with (apply_update d r0).
    rewrite apply_update_lookup_other by done. apply dict_lookup_set_eq.
  - by apply IH.
Qed.

(** No row matches: the update leaves the rows as they are. *)
Lemma updated_rows_none fs d rows : filter_rows fs rows = Ok [] -> updated_rows fs d rows = Ok rows.
Proof.
  induction rows as [|r rows IH]; simpl; intros H; [done|].
  destruct (all_filters fs r) as [[]|]; simpl in *; [|destruct (filter_rows fs rows)|];
    simpl in H; try discriminate.
  - destruct (filter_rows fs rows); discriminate.
  - by rewrite IH.
Qed.

(** When the update does not change whether a row passes the filters,
    the rows that pass afterwards are the updated matching rows. *)
Lemma filter_rows_updated fs d rows rows' hit :
  (forall r, all_filters fs (apply_update d r) = all_filters fs r) ->
  updated_rows fs d rows = Ok rows' -> filter_rows fs rows = Ok hit ->
  filter_rows fs rows' = Ok (map (apply_update d) hit).
Proof.
  intros Hpres. revert rows' hit. induction rows as [|r rows IH]; simpl; intros rows' hit Hu Hf.
  - injection Hu as <-. by injection Hf as <-.
  - destruct (all_filters fs r) as [b|] eqn:Eb; [|discriminate]. simpl in Hu, Hf.
    destruct (updated_rows fs d rows) as [u|]; [|discriminate].
    destruct (filter_rows fs rows) as [h|]; [|discriminate]. simpl in Hu, Hf.
    injection Hu as <-. injection Hf as <-. simpl.
    rewrite (IH u h) by done. destruct b; simpl.
    + by rewrite Hpres, Eb.
    + by rewrite Eb.
Qed.

Lemma partition_rows_app fs rows1 rows2 h1 k1 h2 k2 :
  partition_rows fs rows1 = Ok (h1, k1) -> partition_rows fs rows2 = Ok (h2, k2) ->
  partition_rows fs (rows1 ++ rows2) = Ok (h1 ++ h2, k1 ++ k2).
Proof.
  revert h1 k1. induction rows1 as [|r rows1 IH]; simpl; intros h1 k1 H1 H2.
  - by injection H1 as <- <-.
  - destruct (all_filters fs r) as [b|]; [|discriminate]. simpl in *.
    destruct (partition_rows fs rows1) as [[h k]|]; [|discriminate]. simpl in H1.
    rewrite (IH h k eq_refl H2). simpl. destruct b; injection H1 as <- <-; reflexivity.
Qed.
