(* ===== verification/Store.v ===== *)
(** * An in-memory model of the PostgREST store, and its [Backend] instance

    The store is not code of this repository: it is modelled from the
    spec (section 3: rows identified by an integer [id] assigned by the
    store on creation; any table and column set) and from PostgREST's
    documented behaviour.  A table has a schema (columns, with a NOT NULL
    flag, and foreign keys to other tables), its rows in insertion order,
    and the next value of its [id] sequence.

    - [select]: ['*'], one column, or the row of a related table embedded
      through a foreign key of this table.
    - [insert]: the request body is first serialised to JSON by the
      client ([json.dumps] raises [TypeError] on a [date] or [datetime]); a dict or a
      list of dicts with the same keys; an absent [id] takes the next
      sequence value, which fails past [2^63 - 1] ([seq_exhausted]);
      unknown columns, NULL in a NOT NULL column, an [id] outside [bigint]
      and a duplicate [id] reject the whole request, which then writes
      no row; the sequence values drawn before the failure stay used
      ([insert_failed]).
    - filters: an unknown column, or an integer outside [bigint] compared
      with [id], fails any request before a row is read ([check_filters]).
    - [update]: sets the given columns of the rows passing the filters.
    - [delete]: removes the rows passing the filters (no filter: all).
    Every write returns the written rows (PostgREST's
    [return=representation], the client's default). *)

From S2P Require Import Prelude PyValue IsoFormat Like Backend.

Open Scope string_scope.
Open Scope list_scope.
Open Scope Z_scope.

Record column_def := mkColumn { col_name : string; col_not_null : bool }.

Record table := mkTable {
  tbl_columns : list column_def;
  tbl_fks : list (string * string);
  tbl_rows : list dict;
  tbl_next_id : Z }.

Record store := mkStore { tables : gmap string table }.

Definition table_columns (tb : table) : list string := map col_name (tbl_columns tb).

(** ** Serialising the request body *)

(** The first value [json.dumps] cannot encode, in the order it
    writes the value (list items in order, dict values in insertion
    order). *)
Fixpoint json_unserializable (v : pyval) : option pyval :=
  match v with
  | PDate _ | PDateTime _ => Some v
  | PList l => first_some json_unserializable l
  | PDict d => first_some (fun kv => json_unserializable (snd kv)) d
  | _ => None
  end.

(** The [TypeError] of [json.dumps]'s default encoder. *)
Definition not_serializable (u : pyval) : py_exc :=
  TypeError ("Object of type " ++ type_name u ++ " is not JSON serializable").

(** ** Errors *)

Definition unknown_column (t c : string) : py_exc :=
  APIError "PGRST204" None None ("Could not find the '" ++ c ++ "' column of '" ++ t ++ "' in the schema cache").

Definition not_null_violation (c : string) : py_exc :=
  APIError "23502" None None ("null value in column " ++ c ++ " violates not-null constraint").

Definition duplicate_id : py_exc :=
  APIError "23505" None None "duplicate key value violates unique constraint".

(** [nextval] of the [id] sequence past the largest [bigint]. *)
Definition seq_exhausted (t : string) : py_exc :=
  APIError "2200H" None None ("nextval: reached maximum value of sequence " ++ dquote ++ t ++ "_id_seq" ++ dquote
            ++ " (9223372036854775807)").

Definition keys_mismatch : py_exc := APIError "PGRST102" None None "All object keys must match".

Definition bad_body : py_exc := APIError "PGRST102" None None "Invalid request body".

Definition no_relationship (t t' : string) : py_exc :=
  APIError "PGRST200" None None ("Could not find a relationship between " ++ t ++ " and " ++ t').

(** The first filter PostgreSQL rejects when it plans the query, if
    any ([Backend.filter_check]). *)
Fixpoint check_filters (cols : list string) (fs : list filter) : res unit :=
  match fs with
  | [] => Ok tt
  | f :: fs' => let? _ := filter_check cols f in check_filters cols fs'
  end.

(** The first element of [xs] that is not in [allowed]. *)
Definition first_unknown (allowed xs : list string) : option string :=
  List.find (fun x => negb (bool_decide (x ∈ allowed))) xs.

(** ** Insert *)

(** The value of column [c] in the row inserted from [d]: the given one,
    else the next [id] for the [id] column, else NULL. *)
Definition insert_cell (d : dict) (next : Z) (c : string) : pyval :=
  match dict_lookup d c with
  | Some v => v
  | None => if String.eqb c "id" then PInt next else PNone
  end.

Definition first_null (cols : list column_def) (r : dict) : option string :=
  option_map col_name
    (List.find (fun cd => col_not_null cd && is_none (dict_get r (col_name cd))) cols).

(** The [id] of a new row (the primary key) must be an integer that no
    row has. *)
Definition check_id (existing : list dict) (r : dict) : res unit :=
  match dict_lookup r "id" with
  | None => Ok tt
  | Some PNone => Err (not_null_violation "id")
  | Some (PInt i) =>
      if negb (in_bigint i) then Err (out_of_range i) else
      let? hits := filter_rows (id_filter i) existing in
      match hits with [] => Ok tt | _ => Err duplicate_id end
  | Some _ => Err (APIError "22P02" None None "invalid input syntax for type bigint")
  end.

(** One object of an insert: the new row and the next sequence value. *)
Definition build_row (t : string) (tb : table) (existing : list dict) (next : Z) (d : dict)
  : res (dict * Z) :=
  let cols := table_columns tb in
  match first_unknown cols (dict_keys d) with
  | Some k => Err (unknown_column t k)
  | None =>
      let uses_seq := bool_decide ("id" ∈ cols) && negb (bool_decide ("id" ∈ dict_keys d)) in
      if uses_seq && negb (next <=? bigint_max) then Err (seq_exhausted t) else
      let r := map (fun c => (c, insert_cell d next c)) cols in
      let next' := if uses_seq then next + 1 else next in
      match first_null (tbl_columns tb) r with
      | Some c => Err (not_null_violation c)
      | None => let? _ := check_id existing r in Ok (r, next')
      end
  end.

(** The objects of one request, in order; each sees the rows before it. *)
Fixpoint insert_all (t : string) (tb : table) (existing : list dict) (next : Z) (ds : list dict)
  : res (list dict * Z) :=
  match ds with
  | [] => Ok ([], next)
  | d :: ds' =>
      let? p := build_row t tb existing next d in
      let? q := insert_all t tb (existing ++ [fst p]) (snd p) ds' in
      Ok (fst p :: fst q, snd q)
  end.

Definition same_keys (d0 d : dict) : bool :=
  forallb (fun k => bool_decide (k ∈ dict_keys d0)) (dict_keys d)
  && forallb (fun k => bool_decide (k ∈ dict_keys d)) (dict_keys d0).

(** The objects of a request body: one dict, or a list of dicts with the
    same keys. *)
Definition body_objects (body : pyval) : res (list dict) :=
  match body with
  | PDict d => Ok [d]
  | PList l =>
      let? ds := res_map (fun v => match v with PDict d => Ok d | _ => Err bad_body end) l in
      match ds with
      | [] => Ok []
      | d0 :: _ => if forallb (same_keys d0) ds then Ok ds else Err keys_mismatch
      end
  | _ => Err bad_body
  end.

Definition insert_table (t : string) (tb : table) (body : pyval) : res (list dict * table) :=
  match json_unserializable body with Some u => Err (not_serializable u) | None =>
  let? ds := body_objects body in
  let? p := insert_all t tb (tbl_rows tb) (tbl_next_id tb) ds in
  Ok (fst p, mkTable (tbl_columns tb) (tbl_fks tb) (tbl_rows tb ++ fst p) (snd p))
  end.

(** ** The sequence after a rejected insert

    PostgreSQL calls [nextval] when it forms a row whose [id] comes from
    the sequence, before it checks the row's constraints, and a failed
    statement does not give the values back.  The rows of a rejected
    insert that were formed before the failing one, and that one, keep
    the values they drew.  A request rejected before any row is formed
    (by the client's serialisation, or by PostgREST for its body or an
    unknown column) draws none. *)

(** The sequence once the row for [d] has been formed: [nextval] has
    been called for it when its columns are known, the table has an [id]
    column that [d] does not give, and the sequence was not exhausted. *)
Definition row_next (tb : table) (next : Z) (d : dict) : Z :=
  match first_unknown (table_columns tb) (dict_keys d) with
  | Some _ => next
  | None =>
      if bool_decide ("id" ∈ table_columns tb) && negb (bool_decide ("id" ∈ dict_keys d))
         && (next <=? bigint_max)
      then next + 1 else next
  end.

(** The sequence when the objects [ds] have been inserted in turn, up to
    the first one that fails. *)
Fixpoint seq_reached (t : string) (tb : table) (existing : list dict) (next : Z) (ds : list dict) : Z :=
  match ds with
  | [] => next
  | d :: ds' =>
      match build_row t tb existing next d with
      | Ok (r, next') => seq_reached t tb (existing ++ [r]) next' ds'
      | Err _ => row_next tb next d
      end
  end.

(** The store after a rejected insert of [body] into [t]: its rows are
    unchanged, its sequence has moved past the values drawn. *)
Definition insert_failed (s : store) (t : string) (tb : table) (body : pyval) : store :=
  let n := match json_unserializable body with
           | Some _ => tbl_next_id tb
           | None => match body_objects body with
                     | Ok ds => seq_reached t tb (tbl_rows tb) (tbl_next_id tb) ds
                     | Err _ => tbl_next_id tb
                     end
           end in
  if Z.eqb n (tbl_next_id tb) then s
  else mkStore (<[t := mkTable (tbl_columns tb) (tbl_fks tb) (tbl_rows tb) n]> (tables s)).

(** ** Update *)

(** The new rows of the table, and the updated ones. *)
Fixpoint update_rows (fs : list filter) (d : dict) (rows : list dict) : res (list dict * list dict) :=
  match rows with
  | [] => Ok ([], [])
  | r :: rs =>
      let? b := all_filters fs r in
      let? p := update_rows fs d rs in
      Ok (if b then (apply_update d r :: fst p, apply_update d r :: snd p)
          else (r :: fst p, snd p))
  end.

Definition update_table (t : string) (tb : table) (fs : list filter) (d : dict)
  : res (list dict * table) :=
  match json_unserializable (PDict d) with Some u => Err (not_serializable u) | None =>
  match first_unknown (table_columns tb) (dict_keys d) with
  | Some k => Err (unknown_column t k)
  | None =>
      let? p := update_rows fs d (tbl_rows tb) in
      let '(rows', hit) := p in
      match List.find (fun r => bool_decide (first_null (tbl_columns tb) r <> None)) hit with
      | Some r => Err (not_null_violation (default "" (first_null (tbl_columns tb) r)))
      | None =>
          let? _ := (if bool_decide ("id" ∈ dict_keys d) then
                       match hit with
                       | [] => Ok tt
                       | [r] => let? p' := partition_rows fs (tbl_rows tb) in check_id (snd p') r
                       | _ => Err duplicate_id
                       end
                     else Ok tt) in
          Ok (hit, mkTable (tbl_columns tb) (tbl_fks tb) rows' (tbl_next_id tb))
      end
  end
  end.

(** ** Select *)

(** The row of [target] a foreign-key value refers to. *)
Definition referenced (target : list dict) (v : pyval) : pyval :=
  match v with
  | PNone => PNone
  | _ => match List.find (fun r => sql_eq (dict_get r "id") v) target with
         | Some r => PDict r
         | None => PNone
         end
  end.

Definition select_table (s : store) (t : string) (tb : table) (sel : selector) (fs : list filter)
  : res (list dict) :=
  let? rows := filter_rows fs (tbl_rows tb) in
  match sel with
  | SelStar => Ok rows
  | SelCol c =>
      if bool_decide (c ∈ table_columns tb) then Ok (map (project_col c) rows)
      else Err (missing_column c)
  | SelEmbed t' =>
      match List.find (fun fk => String.eqb (snd fk) t') (tbl_fks tb) with
      | None => Err (no_relationship t t')
      | Some (c, _) =>
          match tables s !! t' with
          | None => Err (no_table t')
          | Some tb' => Ok (map (fun r => [(t', referenced (tbl_rows tb') (dict_get r c))]) rows)
          end
      end
  end.

(** ** [execute()] *)

Definition set_table (s : store) (t : string) (tb : table) : store :=
  mkStore (<[t := tb]> (tables s)).

Definition with_rows (tb : table) (rows : list dict) : table :=
  mkTable (tbl_columns tb) (tbl_fks tb) rows (tbl_next_id tb).

Definition store_execute (q : query) : st store (list dict) := fun s =>
  let t := q_table q in
  match tables s !! t with
  | None => (s, Err (no_table t))
  | Some tb =>
      match check_filters (table_columns tb) (q_filters q) with
      | Err e => (s, Err e)
      | Ok _ =>
          match q_action q with
          | ASelect sel => (s, select_table s t tb sel (q_filters q))
          | AInsert body =>
              match insert_table t tb body with
              | Ok (out, tb') => (set_table s t tb', Ok out)
              | Err e => (insert_failed s t tb body, Err e)
              end
          | AUpdate d =>
              match update_table t tb (q_filters q) d with
              | Ok (out, tb') => (set_table s t tb', Ok out)
              | Err e => (s, Err e)
              end
          | ADelete =>
              match partition_rows (q_filters q) (tbl_rows tb) with
              | Ok (hit, keep) => (set_table s t (with_rows tb keep), Ok hit)
              | Err e => (s, Err e)
              end
          end
      end
  end.

#[export] Instance store_backend : Backend store := {
  execute := store_execute;
  contents := fun s t => tbl_rows <$> tables s !! t;
  columns := fun s t => table_columns <$> tables s !! t;
}.

(** ** An example store *)

Definition nullable (c : string) : column_def := mkColumn c false.

(** The [workers] table the handlers use (route9_supabase.py), with the
    columns [add_worker] writes. *)
Definition workers_table : table :=
  mkTable (mkColumn "id" true :: map nullable ["name"; "number"; "Rate"; "Suit"; "Jacket"; "Sadri"; "Others"])
    [] [] 1.

Definition orders_table : table :=
  mkTable [mkColumn "id" true; nullable "customer"; nullable "order_date"; nullable "total"] [] [] 1.

(** A junction table between [orders] and [workers]. *)
Definition order_workers_table : table :=
  mkTable [mkColumn "id" true; nullable "order_id"; nullable "worker_id"]
    [("order_id", "orders"); ("worker_id", "workers")] [] 1.

Definition empty_store : store :=
  mkStore (<["workers" := workers_table]> (<["orders" := orders_table]>
           (<["order_workers" := order_workers_table]> ∅))).

(** A store with two workers and three orders, one of them with no
    date and no total. *)
Definition worker_row (i : Z) (name number : string) : dict :=
  [("id", PInt i); ("name", PStr name); ("number", PStr number); ("Rate", PNone);
   ("Suit", PNone); ("Jacket", PNone); ("Sadri", PNone); ("Others", PNone)].

Definition order_row (i : Z) (customer : string) (order_date total : pyval) : dict :=
  [("id", PInt i); ("customer", PStr customer); ("order_date", order_date); ("total", total)].

Definition sample_workers : list dict :=
  [worker_row 1 "Ana" "555"; worker_row 2 "Bob" "777"].

Definition sample_orders : list dict :=
  [order_row 1 "Ana" (PStr "2024-01-05") (PInt 100);
   order_row 2 "Bob" (PStr "2024-02-10") (PInt 250);
   order_row 3 "Cid" PNone PNone].

Definition sample_store : store :=
  mkStore (<["workers" := mkTable (tbl_columns workers_table) [] sample_workers 3]>
           (<["orders" := mkTable (tbl_columns orders_table) [] sample_orders 4]>
           (<["order_workers" := order_workers_table]> ∅))).

(** The workers of the specification's search example. *)
Definition names_store : store :=
  mkStore {[ "workers" := mkTable (tbl_columns workers_table) []
               [worker_row 1 "Ana" "1"; worker_row 2 "Anand" "2";
                worker_row 3 "Banana" "3"; worker_row 4 "Bob" "4"] 5 ]}.

(** ** The store satisfies the interface's laws *)

Lemma store_table s t rows cols :
  contents s t = Some rows -> columns s t = Some cols ->
  exists tb, tables s !! t = Some tb /\ tbl_rows tb = rows /\ table_columns tb = cols.
Proof.
  simpl. intros H1 H2. apply fmap_Some in H1 as (tb & Htb & ->).
  rewrite Htb in H2. simpl in H2. injection H2 as <-. eauto.
Qed.

Lemma check_filters_known cols fs :
  filters_known cols fs = true -> check_filters cols fs = Ok tt.
Proof.
  induction fs as [|f fs IH]; [done|]. simpl. intros H.
  destruct (filter_check cols f); [|discriminate]. simpl. by apply IH.
Qed.

Lemma res_bind_Ok_r {A} (r : res A) : res_bind r Ok = r.
Proof. by destruct r. Qed.

Lemma dict_lookup_map (f : string -> pyval) cols k :
  k ∈ cols -> dict_lookup (map (fun c => (c, f c)) cols) k = Some (f k).
Proof.
  induction cols as [|c cols IH]; intros Hk; [by apply not_elem_of_nil in Hk|].
  simpl. destruct (String.eqb_spec c k) as [->|Hne]; [done|].
  apply IH. apply elem_of_cons in Hk as [->|]; [congruence|done].
Qed.

Lemma first_unknown_None allowed xs x :
  first_unknown allowed xs = None -> x ∈ xs -> x ∈ allowed.
Proof.
  unfold first_unknown. intros H Hx. rewrite list_elem_of_In in Hx.
  pose proof (List.find_none _ _ H x Hx) as Hn. simpl in Hn.
  apply negb_false_iff in Hn. by apply bool_decide_eq_true in Hn.
Qed.

Lemma store_select_star s t fs rows cols :
  contents s t = Some rows -> columns s t = Some cols -> filters_known cols fs = true ->
  store_execute (mkQuery t (ASelect SelStar) fs) s = (s, filter_rows fs rows).
Proof.
  intros H1 H2 H3. destruct (store_table s t rows cols H1 H2) as (tb & Htb & <- & <-).
  unfold store_execute. simpl. rewrite Htb, check_filters_known by done.
  unfold select_table. by rewrite res_bind_Ok_r.
Qed.

Lemma store_select_col s t c fs rows cols :
  contents s t = Some rows -> columns s t = Some cols -> c ∈ cols -> filters_known cols fs = true ->
  store_execute (mkQuery t (ASelect (SelCol c)) fs) s
  = (s, let? rs := filter_rows fs rows in Ok (map (project_col c) rs)).
Proof.
  intros H1 H2 Hc H3. destruct (store_table s t rows cols H1 H2) as (tb & Htb & <- & <-).
  unfold store_execute. simpl. rewrite Htb, check_filters_known by done.
  unfold select_table. by rewrite bool_decide_eq_true_2.
Qed.

Lemma set_table_contents s t tb t' :
  contents (set_table s t tb) t' = if decide (t = t') then Some (tbl_rows tb) else contents s t'.
Proof. simpl. rewrite lookup_insert. by case_decide. Qed.

Lemma set_table_columns s t tb tb' t' :
  tables s !! t = Some tb' -> table_columns tb = table_columns tb' ->
  columns (set_table s t tb) t' = columns s t'.
Proof.
  intros Htb Hc. simpl. rewrite lookup_insert. case_decide; subst; [|done].
  by rewrite Htb; simpl; rewrite Hc.
Qed.

Lemma store_delete s t fs rows cols hit keep :
  contents s t = Some rows -> columns s t = Some cols -> filters_known cols fs = true ->
  partition_rows fs rows = Ok (hit, keep) ->
  snd (store_execute (mkQuery t ADelete fs) s) = Ok hit
  /\ contents (fst (store_execute (mkQuery t ADelete fs) s)) t = Some keep
  /\ (forall t', t' <> t -> contents (fst (store_execute (mkQuery t ADelete fs) s)) t' = contents s t')
  /\ (forall t', columns (fst (store_execute (mkQuery t ADelete fs) s)) t' = columns s t').
Proof.
  intros H1 H2 H3 Hp. destruct (store_table s t rows cols H1 H2) as (tb & Htb & <- & <-).
  unfold store_execute. cbn [q_table q_action q_filters].
  rewrite Htb, check_filters_known, Hp by done. cbn [fst snd].
  split; [done|]. split; [by rewrite set_table_contents, decide_True|].
  split; [intros t' Ht'; rewrite set_table_contents, decide_False; congruence|].
  intros t'. by apply (set_table_columns _ _ _ tb).
Qed.

(** What a successful [build_row] has checked, and the row it builds. *)
Lemma build_row_inv t tb existing next d r next' :
  build_row t tb existing next d = Ok (r, next') ->
  let uses_seq := bool_decide ("id" ∈ table_columns tb) && negb (bool_decide ("id" ∈ dict_keys d)) in
  first_unknown (table_columns tb) (dict_keys d) = None
  /\ r = map (fun c => (c, insert_cell d next c)) (table_columns tb)
  /\ check_id existing r = Ok tt
  /\ next' = (if uses_seq then next + 1 else next)
  /\ (uses_seq = true -> next <= bigint_max).
Proof.
  unfold build_row. destruct (first_unknown _ _) eqn:Eu; [discriminate|]. intros H.
  destruct (_ && negb (next <=? bigint_max)) eqn:Es; [discriminate|].
  destruct (first_null _ _); [discriminate|].
  destruct (check_id existing _) as [[]|] eqn:Ec; [|discriminate]. simpl in H.
  injection H as <- <-. repeat split; try done.
  intros Hu. rewrite Hu in Es. simpl in Es. apply negb_false_iff, Z.leb_le in Es. done.
Qed.

(** A row built for an insert holds the given values and, when the
    table has an [id] column, a [bigint] [id] no existing row has. *)
Lemma build_row_ok t tb existing next d r next' :
  build_row t tb existing next d = Ok (r, next') ->
  (forall k v, dict_lookup d k = Some v -> dict_lookup r k = Some v)
  /\ ("id" ∈ table_columns tb ->
      exists i, dict_lookup r "id" = Some (PInt i) /\ in_bigint i = true
        /\ filter_rows (id_filter i) existing = Ok []).
Proof.
  intros Hb. destruct (build_row_inv _ _ _ _ _ _ _ Hb) as (Eu & -> & Ec & _ & _). split.
  - intros k v Hk. rewrite dict_lookup_map.
    + unfold insert_cell. by rewrite Hk.
    + eapply first_unknown_None; [exact Eu|]. by eapply dict_lookup_keys.
  - intros Hid. unfold check_id in Ec. rewrite dict_lookup_map in Ec |- * by done.
    destruct (insert_cell d next "id") as [| | i | | | | | |]; try discriminate.
    exists i. split; [done|]. destruct (in_bigint i); [|discriminate]. split; [done|].
    destruct (filter_rows (id_filter i) existing) as [[|? ?]|]; simpl in Ec; congruence.
Qed.

Lemma insert_table_dict t tb d out tb' :
  insert_table t tb (PDict d) = Ok (out, tb') ->
  exists r next', build_row t tb (tbl_rows tb) (tbl_next_id tb) d = Ok (r, next')
    /\ out = [r] /\ tb' = mkTable (tbl_columns tb) (tbl_fks tb) (tbl_rows tb ++ [r]) next'.
Proof.
  unfold insert_table. destruct (json_unserializable (PDict d)); [discriminate|]. simpl.
  destruct (build_row t tb (tbl_rows tb) (tbl_next_id tb) d) as [[r next']|]; [|discriminate].
  simpl. intros H. injection H as <- <-. eauto.
Qed.

Lemma store_insert s t d rows cols s' out :
  contents s t = Some rows -> columns s t = Some cols -> "id" ∈ cols ->
  store_execute (mkQuery t (AInsert (PDict d)) []) s = (s', Ok out) ->
  exists r i, out = [r]
    /\ contents s' t = Some (rows ++ [r])
    /\ dict_lookup r "id" = Some (PInt i) /\ in_bigint i = true
    /\ filter_rows (id_filter i) rows = Ok []
    /\ (forall k v, dict_lookup d k = Some v -> dict_lookup r k = Some v)
    /\ (forall t', columns s' t' = columns s t')
    /\ (forall t', t' <> t -> contents s' t' = contents s t').
Proof.
  intros H1 H2 Hid. destruct (store_table s t rows cols H1 H2) as (tb & Htb & <- & <-).
  unfold store_execute. cbn [q_table q_action q_filters].
  rewrite Htb, (check_filters_known _ []) by reflexivity.
  destruct (insert_table t tb (PDict d)) as [[o tb']|] eqn:Ei; [|intros; congruence].
  intros H. injection H as <- <-.
  destruct (insert_table_dict _ _ _ _ _ Ei) as (r & next' & Hb & -> & ->).
  destruct (build_row_ok _ _ _ _ _ _ _ Hb) as [Hd Hi].
  destruct (Hi Hid) as (i & Hri & Hr & Hfresh).
  exists r, i. repeat split; auto.
  - by rewrite set_table_contents, decide_True.
  - intros t'. by apply (set_table_columns _ _ _ tb).
  - intros t' Ht'. rewrite set_table_contents, decide_False; congruence.
Qed.

(** The sequence only moves forward. *)
Lemma seq_reached_ge t tb existing next ds : next <= seq_reached t tb existing next ds.
Proof.
  revert existing next. induction ds as [|d ds IH]; intros existing next; simpl; [lia|].
  destruct (build_row t tb existing next d) as [[r next']|] eqn:Eb.
  - destruct (build_row_inv _ _ _ _ _ _ _ Eb) as (_ & _ & _ & -> & _).
    specialize (IH (existing ++ [r]) (if bool_decide ("id" ∈ table_columns tb)
                                        && negb (bool_decide ("id" ∈ dict_keys d)) then next + 1 else next)).
    destruct (_ && _); lia.
  - unfold row_next. destruct (first_unknown _ _); [lia|]. destruct (_ && _ && _); lia.
Qed.

(** A rejected insert leaves the table's schema and rows, and moves its
    sequence forward. *)
Lemma insert_failed_tables s t tb body :
  tables s !! t = Some tb ->
  exists n, tbl_next_id tb <= n
    /\ tables (insert_failed s t tb body) = <[t := mkTable (tbl_columns tb) (tbl_fks tb) (tbl_rows tb) n]> (tables s).
Proof.
  intros Htb. unfold insert_failed.
  set (n := match json_unserializable body with Some _ => _ | None => _ end).
  assert (Hn : tbl_next_id tb <= n).
  { unfold n. destruct (json_unserializable body); [lia|].
    destruct (body_objects body); [apply seq_reached_ge|lia]. }
  exists n. split; [done|]. destruct (Z.eqb_spec n (tbl_next_id tb)) as [E|]; [|done].
  rewrite E. destruct tb. simpl. by rewrite insert_id.
Qed.

(** A rejected insert writes no row and changes no schema. *)
Lemma store_insert_err s t body s' e :
  store_execute (mkQuery t (AInsert body) []) s = (s', Err e) ->
  forall t', contents s' t' = contents s t' /\ columns s' t' = columns s t'.
Proof.
  unfold store_execute. cbn [q_table q_action q_filters].
  destruct (tables s !! t) as [tb|] eqn:Etb; [|intros [= <- _]; done].
  rewrite (check_filters_known _ []) by reflexivity.
  destruct (insert_table t tb body) as [[? ?]|]; [congruence|]. intros [= <- _] t'.
  destruct (insert_failed_tables s t tb body Etb) as (n & _ & Ht). simpl. rewrite Ht, !lookup_insert.
  case_decide; subst; [rewrite Etb|]; done.
Qed.

(** The store's update loop computes the rows of [updated_rows] and the
    updated matching rows. *)
Lemma update_rows_spec fs d rows rows' hit' :
  update_rows fs d rows = Ok (rows', hit') ->
  exists hit, filter_rows fs rows = Ok hit /\ hit' = map (apply_update d) hit
    /\ updated_rows fs d rows = Ok rows'.
Proof.
  revert rows' hit'. induction rows as [|r rows IH]; simpl; intros rows' hit' H.
  - injection H as <- <-. eauto.
  - destruct (all_filters fs r) as [b|]; [|discriminate]. simpl in *.
    destruct (update_rows fs d rows) as [[u h]|]; [|discriminate]. simpl in H.
    destruct (IH u h eq_refl) as (hit & -> & -> & ->). simpl.
    destruct b; injection H as <- <-; eexists; eauto.
Qed.

Lemma update_table_ok t tb fs d out tb' :
  update_table t tb fs d = Ok (out, tb') ->
  exists rows', update_rows fs d (tbl_rows tb) = Ok (rows', out)
    /\ tb' = mkTable (tbl_columns tb) (tbl_fks tb) rows' (tbl_next_id tb).
Proof.
  unfold update_table. destruct (json_unserializable (PDict d)); [discriminate|]. simpl.
  destruct (first_unknown _ _); [discriminate|].
  destruct (update_rows fs d (tbl_rows tb)) as [[rows' hit]|]; [|discriminate]. simpl.
  destruct (List.find _ hit); [discriminate|].
  intros H. destruct (if bool_decide _ then _ else _) as [[]|]; [|discriminate].
  simpl in H. injection H as <- <-. eauto.
Qed.

Lemma store_update s t fs d rows cols s' out :
  contents s t = Some rows -> columns s t = Some cols ->
  store_execute (mkQuery t (AUpdate d) fs) s = (s', Ok out) ->
  exists hit rows', filter_rows fs rows = Ok hit /\ out = map (apply_update d) hit
    /\ updated_rows fs d rows = Ok rows' /\ contents s' t = Some rows'
    /\ (forall t', columns s' t' = columns s t')
    /\ (forall t', t' <> t -> contents s' t' = contents s t').
Proof.
  intros H1 H2. destruct (store_table s t rows cols H1 H2) as (tb & Htb & <- & <-).
  unfold store_execute. cbn [q_table q_action q_filters]. rewrite Htb.
  destruct (check_filters _ fs); [|congruence].
  destruct (update_table t tb fs d) as [[o tb']|] eqn:Eu; [|congruence].
  intros H. injection H as <- <-.
  destruct (update_table_ok _ _ _ _ _ _ Eu) as (rows' & Hur & ->).
  destruct (update_rows_spec _ _ _ _ _ Hur) as (hit & Hf & -> & Hup).
  exists hit, rows'. split; [done|]. split; [done|]. split; [done|].
  split; [by rewrite set_table_contents, decide_True|].
  split; [intros t'; by apply (set_table_columns _ _ _ tb)|].
  intros t' Ht'. rewrite set_table_contents, decide_False; congruence.
Qed.

Lemma store_update_err s t fs d s' e :
  store_execute (mkQuery t (AUpdate d) fs) s = (s', Err e) -> s' = s.
Proof.
  unfold store_execute. cbn [q_table q_action q_filters].
  destruct (tables s !! t) as [tb|]; [|congruence].
  destruct (check_filters _ fs); [|congruence].
  destruct (update_table t tb fs d) as [[? ?]|]; congruence.
Qed.

Lemma store_id_range s t a i cols :
  columns s t = Some cols -> "id" ∈ cols -> in_bigint i = false ->
  store_execute (mkQuery t a (id_filter i)) s = (s, Err (out_of_range i)).
Proof.
  simpl. intros Hc Hid Hi. apply fmap_Some in Hc as (tb & Htb & ->).
  unfold store_execute. cbn [q_table q_filters]. rewrite Htb. simpl.
  unfold filter_check. simpl. rewrite bool_decide_eq_true_2 by done. simpl. by rewrite Hi.
Qed.

#[export] Instance store_laws : BackendLaws store.
Proof.
  constructor.
  - exact store_select_star.
  - exact store_select_col.
  - exact store_delete.
  - exact store_insert.
  - exact store_update.
  - exact store_update_err.
  - exact store_id_range.
  - exact store_insert_err.
Qed.

(** ** The store's invariant: primary keys are unique

    In every table, no two rows have the same integer [id].  Every
    request preserves it: an insert checks each new [id] against the rows
    before it, a delete keeps a sub-list, and an update that sets [id]
    checks it against the rows it does not update. *)

Definition row_id (r : dict) : option Z :=
  match dict_lookup r "id" with Some (PInt i) => Some i | _ => None end.

Definition rows_wf (rows : list dict) : Prop := NoDup (omap row_id rows).

Definition store_wf (s : store) : Prop :=
  map_Forall (fun _ tb => rows_wf (tbl_rows tb)) (tables s).

(** A row that fails [id = i] does not have [id] [i]. *)
Lemma id_filter_false r i : all_filters (id_filter i) r = Ok false -> row_id r <> Some i.
Proof.
  unfold row_id. simpl. unfold column_value.
  destruct (dict_lookup r "id") as [[| |z| | | | | |]|]; simpl; try congruence.
  intros H E. injection E as ->. by rewrite Z.compare_refl in H.
Qed.

Lemma row_id_omap_cons r rows x :
  x ∈ omap row_id (r :: rows) <-> row_id r = Some x \/ x ∈ omap row_id rows.
Proof.
  simpl. destruct (row_id r) as [y|].
  - rewrite elem_of_cons. split; intros [Hx|Hx]; [left; by subst|by right|left; congruence|by right].
  - split; [by right|]. intros [Hx|Hx]; [discriminate|done].
Qed.

(** No row passes [id = i]: [i] is a fresh [id]. *)
Lemma filter_rows_id_fresh rows i : filter_rows (id_filter i) rows = Ok [] -> i ∉ omap row_id rows.
Proof.
  induction rows as [|r rows IH]; intros H; [apply not_elem_of_nil|]. cbn [filter_rows] in H.
  destruct (all_filters (id_filter i) r) as [[]|] eqn:Eb; simpl in H;
    destruct (filter_rows (id_filter i) rows); simpl in H; try discriminate.
  rewrite row_id_omap_cons. intros [Hr|Hin]; [by apply (id_filter_false r i)|by apply IH].
Qed.

Lemma check_id_fresh existing r u :
  check_id existing r = Ok u -> forall i, row_id r = Some i -> i ∉ omap row_id existing.
Proof.
  unfold check_id, row_id. intros Hc i Hi.
  destruct (dict_lookup r "id") as [[| |z| | | | | |]|]; try discriminate.
  injection Hi as ->. destruct (in_bigint i); [|discriminate]. simpl in Hc.
  destruct (filter_rows (id_filter i) existing) as [[|? ?]|] eqn:E;
    simpl in Hc; try discriminate. by apply filter_rows_id_fresh.
Qed.

Lemma rows_wf_snoc rows r :
  rows_wf rows -> (forall i, row_id r = Some i -> i ∉ omap row_id rows) -> rows_wf (rows ++ [r]).
Proof.
  unfold rows_wf. intros Hw Hr. rewrite omap_app. simpl.
  destruct (row_id r) as [i|] eqn:Ei; [|by rewrite app_nil_r].
  apply NoDup_app. split; [done|]. split; [|apply NoDup_singleton].
  intros x Hx ->%list_elem_of_singleton. by apply (Hr i eq_refl).
Qed.

Lemma build_row_check t tb existing next d r next' :
  build_row t tb existing next d = Ok (r, next') -> check_id existing r = Ok tt.
Proof. intros Hb. by destruct (build_row_inv _ _ _ _ _ _ _ Hb) as (_ & _ & Ec & _). Qed.

Lemma insert_all_wf t tb existing next ds new next' :
  insert_all t tb existing next ds = Ok (new, next') -> rows_wf existing -> rows_wf (existing ++ new).
Proof.
  revert existing next new next'. induction ds as [|d ds IH]; simpl; intros existing next new next' H Hw.
  - injection H as <- _. by rewrite app_nil_r.
  - destruct (build_row t tb existing next d) as [[r n]|] eqn:Eb; [|discriminate]. simpl in H.
    destruct (insert_all t tb (existing ++ [r]) n ds) as [[q n']|] eqn:Ei; [|discriminate].
    simpl in H. injection H as <- _.
    replace (existing ++ r :: q) with ((existing ++ [r]) ++ q) by (by rewrite <- app_assoc).
    apply (IH _ n _ _ Ei). apply rows_wf_snoc; [done|].
    exact (check_id_fresh _ _ _ (build_row_check _ _ _ _ _ _ _ Eb)).
Qed.

Lemma insert_table_wf t tb body out tb' :
  insert_table t tb body = Ok (out, tb') -> rows_wf (tbl_rows tb) -> rows_wf (tbl_rows tb').
Proof.
  unfold insert_table. destruct (json_unserializable body); [discriminate|]. simpl.
  destruct (body_objects body) as [ds|]; [|discriminate]. simpl.
  destruct (insert_all t tb (tbl_rows tb) (tbl_next_id tb) ds) as [[new n]|] eqn:Ei; [|discriminate].
  simpl. intros H. injection H as _ <-. simpl. by apply (insert_all_wf _ _ _ _ _ _ _ Ei).
Qed.

Lemma partition_rows_keep_in fs rows hit keep r :
  partition_rows fs rows = Ok (hit, keep) -> r ∈ keep -> r ∈ rows.
Proof.
  revert hit keep. induction rows as [|r' rows IH]; simpl; intros hit keep H Hr.
  - injection H as _ <-. done.
  - destruct (all_filters fs r') as [b|]; [|discriminate]. simpl in H.
    destruct (partition_rows fs rows) as [[h k]|] eqn:Ep; [|discriminate]. simpl in H.
    destruct b; injection H as _ <-; [right; by eapply IH|].
    apply elem_of_cons in Hr as [->|Hr]; [left|right; by eapply IH].
Qed.

Lemma partition_rows_wf fs rows hit keep :
  partition_rows fs rows = Ok (hit, keep) -> rows_wf rows -> rows_wf keep.
Proof.
  unfold rows_wf. revert hit keep. induction rows as [|r rows IH]; simpl; intros hit keep H Hw.
  - by injection H as _ <-.
  - destruct (all_filters fs r) as [b|]; [|discriminate]. simpl in H.
    destruct (partition_rows fs rows) as [[h k]|] eqn:Ep; [|discriminate]. simpl in H.
    assert (Hw' : NoDup (omap row_id rows)) by (destruct (row_id r); [by apply NoDup_cons in Hw as []|done]).
    destruct b; injection H as _ <-; [by apply (IH h)|].
    simpl. destruct (row_id r) as [y|] eqn:Ey; [|by apply (IH h)].
    apply NoDup_cons in Hw as [Hy _]. apply NoDup_cons. split; [|by apply (IH h)].
    intros Hin. apply Hy. apply list_elem_of_omap in Hin as (r' & Hr' & E).
    apply list_elem_of_omap. exists r'. split; [by eapply partition_rows_keep_in|done].
Qed.

Lemma omap_Permutation {A B} (f : A -> option B) l1 l2 :
  Permutation l1 l2 -> Permutation (omap f l1) (omap f l2).
Proof.
  induction 1 as [|x l1 l2 _ IH|x y l|l1 l2 l3 _ IH1 _ IH2]; simpl.
  - done.
  - destruct (f x); [by constructor|done].
  - destruct (f x), (f y); try constructor; done.
  - by rewrite IH1.
Qed.

Lemma omap_row_id_cons x l : omap row_id (x :: l) = omap row_id [x] ++ omap row_id l.
Proof. by rewrite <- omap_app. Qed.

(** An update that does not set [id] keeps every row's [id]. *)
Lemma update_rows_ids fs d rows rows' hit :
  "id" ∉ dict_keys d -> update_rows fs d rows = Ok (rows', hit) ->
  omap row_id rows' = omap row_id rows.
Proof.
  intros Hid. revert rows' hit. induction rows as [|r rows IH]; intros rows' hit H;
    cbn [update_rows] in H.
  - by injection H as <- _.
  - destruct (all_filters fs r) as [b|]; [|discriminate]. simpl in H.
    destruct (update_rows fs d rows) as [[u h]|] eqn:Eu; [|discriminate]. simpl in H.
    assert (Hr : row_id (apply_update d r) = row_id r)
      by (unfold row_id; by rewrite apply_update_lookup_other).
    pose proof (IH u h eq_refl) as Hu.
    destruct b; injection H as <- _;
      rewrite (omap_row_id_cons _ u), (omap_row_id_cons _ rows), Hu; simpl; by rewrite ?Hr.
Qed.

(** After an update the table holds the rows it did not update and the
    updated ones. *)
Lemma update_rows_perm fs d rows rows' hit :
  update_rows fs d rows = Ok (rows', hit) ->
  exists h0 keep, partition_rows fs rows = Ok (h0, keep) /\ Permutation rows' (keep ++ hit).
Proof.
  revert rows' hit. induction rows as [|r rows IH]; simpl; intros rows' hit H.
  - injection H as <- <-. by exists [], [].
  - destruct (all_filters fs r) as [b|]; [|discriminate]. simpl in H.
    destruct (update_rows fs d rows) as [[u h]|] eqn:Eu; [|discriminate]. simpl in H.
    destruct (IH u h eq_refl) as (h0 & keep & -> & Hp). simpl.
    destruct b; injection H as <- <-; eexists _, _; split; try reflexivity; simpl.
    + rewrite Hp. apply Permutation_middle.
    + by constructor.
Qed.

Lemma update_table_wf t tb fs d out tb' :
  update_table t tb fs d = Ok (out, tb') -> rows_wf (tbl_rows tb) -> rows_wf (tbl_rows tb').
Proof.
  unfold update_table. destruct (json_unserializable (PDict d)); [discriminate|]. simpl.
  destruct (first_unknown _ _); [discriminate|].
  destruct (update_rows fs d (tbl_rows tb)) as [[rows' hit]|] eqn:Eu; [|discriminate]. simpl.
  destruct (List.find _ hit); [discriminate|].
  destruct (update_rows_perm _ _ _ _ _ Eu) as (h0 & keep & Hp & Hperm).
  intros H Hw. pose proof (partition_rows_wf _ _ _ _ Hp Hw) as Hk.
  destruct (bool_decide ("id" ∈ dict_keys d)) eqn:Eid.
  - destruct hit as [|r [|r' hit]]; simpl in H.
    + injection H as _ <-. unfold rows_wf. simpl.
      rewrite (omap_Permutation _ _ _ Hperm), app_nil_r. exact Hk.
    + rewrite Hp in H. simpl in H.
      destruct (check_id keep r) as [[]|] eqn:Ec; [|discriminate].
      injection H as _ <-. unfold rows_wf. simpl. rewrite (omap_Permutation _ _ _ Hperm).
      apply rows_wf_snoc; [done|]. exact (check_id_fresh _ _ _ Ec).
    + discriminate.
  - injection H as _ <-. unfold rows_wf. simpl.
    by rewrite (update_rows_ids _ _ _ _ _ (bool_decide_eq_false_1 _ Eid) Eu).
Qed.

(** Every request keeps the invariant, whether it succeeds or not. *)
Theorem store_execute_wf q s : store_wf s -> store_wf (fst (store_execute q s)).
Proof.
  intros Hs. unfold store_execute.
  destruct (tables s !! q_table q) as [tb|] eqn:Etb; [|done].
  destruct (check_filters _ _); [|done].
  assert (Hset : forall tb', rows_wf (tbl_rows tb') -> store_wf (set_table s (q_table q) tb'))
    by (intros tb' Hw; by apply map_Forall_insert_2).
  pose proof (Hs _ _ Etb) as Hw. simpl in Hw.
  destruct (q_action q) as [sel|body|d|].
  - done.
  - destruct (insert_table _ tb body) as [[o tb']|] eqn:Ei; [by apply Hset; eapply insert_table_wf|].
    destruct (insert_failed_tables s _ tb body Etb) as (n & _ & Ht).
    cbn [fst]. unfold store_wf. rewrite Ht. by apply map_Forall_insert_2.
  - destruct (update_table _ tb _ d) as [[o tb']|] eqn:Eu; [|done].
    apply Hset. by eapply update_table_wf.
  - destruct (partition_rows _ _) as [[hit keep]|] eqn:Ep; [|done].
    apply Hset. by eapply partition_rows_wf.
Qed.
