(* ===== verification/Repository.v ===== *)
(** * [SupabaseHelper]: the generic repository

    Every static method of [SupabaseHelper] (supabase_config.py, lines
    14-130) and the convenience functions (lines 133-155), over any store
    with a [Backend] instance.  A method builds its query with the
    [Client] functions in the order of the source, runs it with
    [execute], and post-processes [response.data] as the source does;
    an exception from [execute] propagates (the methods catch nothing).

    The theorems of [Section Contract] are proved from [BackendLaws]
    alone, so they hold of every store that meets the interface; those
    of [Section OnStore] use the concrete [Store]. *)

From Stdlib Require Import Floats Permutation.
From S2P Require Import Prelude PyValue IsoFormat Like Backend Store.

Open Scope string_scope.
Open Scope list_scope.
Open Scope Z_scope.

Section Repository.
Context {S : Type} `{Backend S}.

(** [response.data if response.data else []] *)
Definition data_or_empty (data : list dict) : list dict :=
  match data with [] => [] | _ => data end.

(** [response.data[0] if response.data else None] *)
Definition first_or_none (data : list dict) : option dict :=
  match data with [] => None | r :: _ => Some r end.

(** [len(response.data) > 0 if response.data else False] *)
Definition nonempty (data : list dict) : bool :=
  match data with [] => false | _ => Nat.ltb 0 (length data) end.

(** [for key, value in filters.items(): query = query.eq(key, value)] *)
Definition add_eqs (q : query) (filters : dict) : query :=
  fold_left (fun q kv => Client.eq q (fst kv) (snd kv)) filters q.

(** [get_all(table_name, filters=None)] *)
Definition get_all (table_name : string) (filters : option dict) : st S (list dict) :=
  let q := Client.select (Client.table table_name) "*" in
  let q := match filters with
           | Some f => if truthy (PDict f) then add_eqs q f else q
           | None => q
           end in
  data <- execute q ;;
  st_ret (data_or_empty data).

(** [get_by_id(table_name, record_id)] *)
Definition get_by_id (table_name : string) (record_id : Z) : st S (option dict) :=
  data <- execute (Client.eq (Client.select (Client.table table_name) "*") "id" (PInt record_id)) ;;
  st_ret (first_or_none data).

(** One iteration of the loop of [create] and [update]:
    [formatted_data[key] = format_date(value)] for a date, else
    [formatted_data[key] = value]. *)
Definition format_item (acc : dict) (kv : string * pyval) : dict :=
  if is_date_like (snd kv) then dict_set acc (fst kv) (format_date (snd kv))
  else dict_set acc (fst kv) (snd kv).

(** The loop, from [formatted_data = {}], in the order of [data]. *)
Definition format_data (data : dict) : dict := fold_left format_item data [].

(** [create(table_name, data)] *)
Definition create (table_name : string) (data : dict) : st S (option dict) :=
  let formatted_data := format_data data in
  resp <- execute (Client.insert (Client.table table_name) (PDict formatted_data)) ;;
  st_ret (first_or_none resp).

(** [update(table_name, record_id, data)] *)
Definition update (table_name : string) (record_id : Z) (data : dict) : st S (option dict) :=
  let formatted_data := format_data data in
  resp <- execute (Client.eq (Client.update (Client.table table_name) formatted_data) "id" (PInt record_id)) ;;
  st_ret (first_or_none resp).

(** [delete(table_name, record_id)] *)
Definition delete (table_name : string) (record_id : Z) : st S bool :=
  resp <- execute (Client.eq (Client.delete (Client.table table_name)) "id" (PInt record_id)) ;;
  st_ret (nonempty resp).

(** [search(table_name, column, search_term)] *)
Definition search (table_name column search_term : string) : st S (list dict) :=
  resp <- execute (Client.ilike (Client.select (Client.table table_name) "*") column
                                (search_pattern search_term)) ;;
  st_ret (data_or_empty resp).

(** [x.isoformat()]: defined on dates and datetimes only. *)
Definition isoformat_of (v : pyval) : res string :=
  match v with
  | PDate d => Ok (date_isoformat d)
  | PDateTime dt => Ok (datetime_isoformat dt)
  | _ => Err (AttributeError ("'" ++ type_name v ++ "' object has no attribute 'isoformat'"))
  end.

(** [get_by_date_range(table_name, date_column, start_date, end_date)] *)
Definition get_by_date_range (table_name date_column : string) (start_date end_date : pyval)
  : st S (list dict) :=
  s_iso <- st_lift (isoformat_of start_date) ;;
  e_iso <- st_lift (isoformat_of end_date) ;;
  resp <- execute (Client.lte (Client.gte (Client.select (Client.table table_name) "*")
                                          date_column (PStr s_iso))
                              date_column (PStr e_iso)) ;;
  st_ret (data_or_empty resp).

(** [sum(item.get(column, 0) or 0 for item in response.data)] *)
Definition column_sum (column : string) (data : list dict) : res pyval :=
  py_sum (map (fun item => py_or (dict_get_default item column (PInt 0)) (PInt 0)) data).

(** [sum_column(table_name, column, filters=None)] *)
Definition sum_column (table_name column : string) (filters : option dict) : st S pyval :=
  let q := Client.select (Client.table table_name) column in
  let q := match filters with
           | Some f => if truthy (PDict f) then add_eqs q f else q
           | None => q
           end in
  resp <- execute q ;;
  match resp with
  | [] => st_ret (PFloat 0%float)
  | _ => st_lift (column_sum column resp)
  end.

(** [get_related_records(table_name, junction_table, foreign_key, record_id)] *)
Definition get_related_records (table_name junction_table foreign_key : string) (record_id : Z)
  : st S (list dict) :=
  resp <- execute (Client.eq (Client.select (Client.table junction_table) (table_name ++ "(*)"))
                             foreign_key (PInt record_id)) ;;
  st_ret (data_or_empty resp).

(** [add_related_records(junction_table, data)] *)
Definition add_related_records (junction_table : string) (data : list dict) : st S bool :=
  resp <- execute (Client.insert (Client.table junction_table) (PList (map PDict data))) ;;
  st_ret (nonempty resp).

(** [remove_related_records(junction_table, filters)]: no [if filters]
    guard, unlike [get_all]. *)
Definition remove_related_records (junction_table : string) (filters : dict) : st S bool :=
  resp <- execute (add_eqs (Client.delete (Client.table junction_table)) filters) ;;
  st_ret (nonempty resp).

(** The convenience functions of lines 133-155. *)
Definition get_workers : st S (list dict) := get_all "workers" None.
Definition get_orders : st S (list dict) := get_all "orders" None.
Definition get_bills : st S (list dict) := get_all "bills" None.
Definition get_worker_expenses : st S (list dict) := get_all "Worker_Expense" None.
Definition get_daily_expenses : st S (list dict) := get_all "Daily_Expenses" None.
Definition get_measurements : st S (list dict) := get_all "measurements" None.

End Repository.

(** ** Lemmas on the queries the methods build *)

Definition eq_filters (f : dict) : list filter := map (fun kv => FilterEq (fst kv) (snd kv)) f.

Lemma add_eqs_query q f :
  add_eqs q f = mkQuery (q_table q) (q_action q) (q_filters q ++ eq_filters f).
Proof.
  revert q. induction f as [|kv f IH]; intros q; simpl.
  - destruct q; simpl. by rewrite app_nil_r.
  - rewrite IH. simpl. by rewrite <- app_assoc.
Qed.

(** The filters of [get_all] and [sum_column]: the items of the dict,
    or none. *)
Definition opt_filters (filters : option dict) : list filter :=
  match filters with Some f => eq_filters f | None => [] end.

Lemma filters_query q filters :
  q_filters q = [] ->
  match filters with
  | Some f => if truthy (PDict f) then add_eqs q f else q
  | None => q
  end = mkQuery (q_table q) (q_action q) (opt_filters filters).
Proof.
  intros Hq. destruct q as [t a fs]; simpl in Hq; subst fs.
  destruct filters as [f|]; [|reflexivity]. destruct f as [|kv f]; [reflexivity|].
  replace (truthy (PDict (kv :: f))) with true by reflexivity.
  by rewrite add_eqs_query.
Qed.

Lemma data_or_empty_id data : data_or_empty data = data.
Proof. by destruct data. Qed.

Lemma nonempty_spec data : nonempty data = negb (bool_decide (data = [])).
Proof. destruct data; reflexivity. Qed.

Lemma filters_known_eqs cols f :
  Forall (fun kv => fst kv ∈ cols /\ fits_column kv = true) f -> filters_known cols (eq_filters f) = true.
Proof.
  intros Hf. unfold filters_known, eq_filters. apply forallb_forall.
  intros x Hx. apply in_map_iff in Hx as (kv & <- & Hkv). rewrite Forall_forall in Hf.
  destruct (Hf kv) as [Hc Hfit]; [by apply list_elem_of_In|].
  unfold filter_check. simpl. rewrite bool_decide_eq_true_2 by done. simpl.
  unfold fits_column in Hfit. destruct kv as [k [| | z | | | | | |]]; try done. simpl in *.
  destruct (String.eqb k "id"); [|done]. simpl in Hfit. by rewrite Hfit.
Qed.

Lemma filters_known_id cols i :
  "id" ∈ cols -> in_bigint i = true -> filters_known cols (id_filter i) = true.
Proof. intros Hf Hi. simpl. unfold filter_check. rewrite bool_decide_eq_true_2 by done. simpl. by rewrite Hi. Qed.

(** A row with [id] [i] passes the [id = i] filter. *)
Lemma id_filter_self r i :
  dict_lookup r "id" = Some (PInt i) -> filter_rows (id_filter i) [r] = Ok [r].
Proof. intros Hr. simpl. unfold column_value. rewrite Hr. simpl. by rewrite Z.compare_refl. Qed.

Lemma partition_rows_none fs rows :
  filter_rows fs rows = Ok [] -> partition_rows fs rows = Ok ([], rows).
Proof.
  induction rows as [|r rows IH]; simpl; [done|].
  destruct (all_filters fs r) as [[]|]; simpl; [|destruct (filter_rows fs rows); simpl;
    [intros H; injection H as ->; by rewrite IH|discriminate]|discriminate].
  destruct (filter_rows fs rows); simpl; discriminate.
Qed.

Lemma partition_rows_of_filter fs rows hit :
  filter_rows fs rows = Ok hit -> exists keep, partition_rows fs rows = Ok (hit, keep).
Proof.
  revert hit. induction rows as [|r rows IH]; simpl; intros hit H.
  - injection H as <-. eauto.
  - destruct (all_filters fs r) as [b|]; [|discriminate]. simpl in *.
    destruct (filter_rows fs rows) as [o|]; [|discriminate]. simpl in H. injection H as <-.
    destruct (IH o eq_refl) as [keep ->]. simpl. destruct b; eauto.
Qed.

(** Two filter lists that accept the same rows select the same rows. *)
Lemma filter_rows_ext fs fs' rows o o' :
  (forall r, r ∈ rows -> passes fs r <-> passes fs' r) ->
  filter_rows fs rows = Ok o -> filter_rows fs' rows = Ok o' -> o = o'.
Proof.
  revert o o'. induction rows as [|r rows IH]; simpl; intros o o' Hr H1 H2.
  - by injection H1 as <-; injection H2 as <-.
  - unfold passes in Hr.
    destruct (all_filters fs r) as [b|] eqn:Eb; [|discriminate].
    destruct (all_filters fs' r) as [b'|] eqn:Eb'; [|discriminate]. simpl in *.
    destruct (filter_rows fs rows) as [p|]; [|discriminate].
    destruct (filter_rows fs' rows) as [p'|]; [|discriminate]. simpl in *.
    injection H1 as <-. injection H2 as <-.
    rewrite (IH p p'); [| intros x Hx; apply Hr; by right | done | done].
    assert (b = b') as ->; [|done].
    specialize (Hr r (list_elem_of_here _ _)). rewrite Eb, Eb' in Hr.
    destruct b, b'; intuition congruence.
Qed.

Lemma st_bind_pure {S A B} (r : res A) (f : A -> B) (s : S) :
  st_bind (fun s => (s, r)) (fun x => st_ret (f x)) s = (s, let? x := r in Ok (f x)).
Proof. by destruct r. Qed.

Lemma res_bind_ok_inv {A B} (r : res A) (f : A -> B) b :
  (let? x := r in Ok (f x)) = Ok b -> exists a, r = Ok a /\ b = f a.
Proof. destruct r; simpl; [intros H; injection H as <-; eauto | discriminate]. Qed.

Section Contract.
Context {S : Type} `{BackendLaws S}.

(** [get_all] runs one [select('*')] with one equality filter per item. *)
Lemma get_all_exec s t filters rows cols :
  contents s t = Some rows -> columns s t = Some cols ->
  filters_known cols (opt_filters filters) = true ->
  get_all t filters s = (s, filter_rows (opt_filters filters) rows).
Proof.
  intros H1 H2 H3. unfold get_all. rewrite filters_query by reflexivity.
  unfold st_bind. simpl. rewrite (law_select_star s t _ rows cols) by done.
  destruct (filter_rows _ rows); simpl; [by rewrite data_or_empty_id | done].
Qed.

(** C4: [get_all(table, filters)] returns exactly the rows of the table
    that match every item of [filters] (logical AND of the equalities),
    in table order, and changes nothing. *)
Theorem get_all_filters s t f rows cols s' out :
  contents s t = Some rows -> columns s t = Some cols ->
  Forall (fun kv => fst kv ∈ cols /\ fits_column kv = true) f ->
  get_all t (Some f) s = (s', Ok out) ->
  s' = s /\ (forall r, r ∈ out <-> r ∈ rows /\ Forall (fun kv => eval_filter (FilterEq (fst kv) (snd kv)) r = Ok true) f).
Proof.
  intros H1 H2 Hf Hg. rewrite (get_all_exec s t (Some f) rows cols) in Hg
    by (done || by apply filters_known_eqs).
  injection Hg as <- Hout. split; [done|]. intros r.
  rewrite (filter_rows_spec _ _ _ Hout r), passes_Forall. unfold eq_filters.
  by rewrite Forall_map.
Qed.

(** The order of the items of the filter dict does not matter:
    two orders that both succeed return the same rows. *)
Theorem get_all_filter_order s t f f' rows cols s1 s2 o o' :
  contents s t = Some rows -> columns s t = Some cols ->
  Forall (fun kv => fst kv ∈ cols /\ fits_column kv = true) f -> Permutation f f' ->
  get_all t (Some f) s = (s1, Ok o) -> get_all t (Some f') s = (s2, Ok o') -> o = o'.
Proof.
  intros H1 H2 Hf Hp Hg Hg'.
  assert (Hf' : Forall (fun kv => fst kv ∈ cols /\ fits_column kv = true) f') by (by rewrite <- Hp).
  rewrite (get_all_exec s t (Some f) rows cols) in Hg by (done || by apply filters_known_eqs).
  rewrite (get_all_exec s t (Some f') rows cols) in Hg' by (done || by apply filters_known_eqs).
  injection Hg as _ Hg. injection Hg' as _ Hg'.
  apply (filter_rows_ext (eq_filters f) (eq_filters f') rows o o'); [|done|done].
  intros r _. simpl. apply passes_perm; [|done]. unfold eq_filters. by apply Permutation_map.
Qed.

(** [get_by_id] selects with the single filter [id = record_id] and
    returns the first row. *)
Lemma get_by_id_exec s t i rows cols :
  contents s t = Some rows -> columns s t = Some cols -> "id" ∈ cols -> in_bigint i = true ->
  get_by_id t i s = (s, let? o := filter_rows (id_filter i) rows in Ok (first_or_none o)).
Proof.
  intros H1 H2 Hid Hi. unfold get_by_id, st_bind. simpl.
  rewrite (law_select_star s t (id_filter i) rows cols) by (done || by apply filters_known_id).
  by destruct (filter_rows _ rows).
Qed.

Lemma format_date_id v : is_date_like v = false -> format_date v = v.
Proof. by destruct v. Qed.

Lemma dict_set_fresh acc k v : k ∉ dict_keys acc -> dict_set acc k v = acc ++ [(k, v)].
Proof.
  induction acc as [|[k' v'] acc IH]; simpl; [done|]. intros Hk.
  destruct (String.eqb_spec k' k) as [->|]; [by destruct Hk; left|].
  rewrite IH; [done|]. intros Hin; apply Hk; by right.
Qed.

Lemma format_item_fresh acc k v :
  k ∉ dict_keys acc -> format_item acc (k, v) = acc ++ [(k, format_date v)].
Proof.
  intros Hk. unfold format_item. simpl. rewrite dict_set_fresh by done.
  destruct (is_date_like v) eqn:E; [done|]. by rewrite dict_set_fresh, (format_date_id v E).
Qed.

Lemma format_fold acc data :
  NoDup (dict_keys acc ++ dict_keys data) ->
  fold_left format_item data acc = acc ++ map (fun kv => (fst kv, format_date (snd kv))) data.
Proof.
  revert acc. induction data as [|[k v] data IH]; intros acc Hnd; simpl.
  - by rewrite app_nil_r.
  - unfold dict_keys in Hnd. simpl in Hnd.
    rewrite format_item_fresh.
    + rewrite IH, <- app_assoc; [done|]. unfold dict_keys. rewrite map_app, <- app_assoc. done.
    + intros Hk. apply NoDup_app in Hnd as (_ & Hdis & _). apply (Hdis k Hk). left.
Qed.

(** With distinct keys, [create]'s loop formats each value in place. *)
Lemma format_data_map data :
  dict_wf data -> format_data data = map (fun kv => (fst kv, format_date (snd kv))) data.
Proof. intros Hd. unfold format_data. by rewrite format_fold. Qed.

Lemma dict_lookup_format data k :
  dict_lookup (map (fun kv => (fst kv, format_date (snd kv))) data) k
  = option_map format_date (dict_lookup data k).
Proof.
  induction data as [|[k' v] data IH]; simpl; [done|].
  by destruct (String.eqb k' k).
Qed.

(** C1: round trip.  When [create(table, data)] returns a record [r],
    [r] carries an integer [id], [get_by_id(table, id)] afterwards returns
    [r] itself, and every field of [data] is in [r] as given, dates and
    datetimes as their ISO strings. *)
Theorem create_get_by_id s t data rows cols s' r :
  contents s t = Some rows -> columns s t = Some cols -> "id" ∈ cols -> dict_wf data ->
  create t data s = (s', Ok (Some r)) ->
  (exists i, dict_lookup r "id" = Some (PInt i) /\ get_by_id t i s' = (s', Ok (Some r)))
  /\ (forall k v, dict_lookup data k = Some v -> dict_lookup r k = Some (format_date v)).
Proof.
  intros H1 H2 Hid Hwf Hc. unfold create, st_bind in Hc.
  destruct (execute _ s) as [s1 [out|e]] eqn:E; [|discriminate]. simpl in Hc.
  injection Hc as <- Hr.
  destruct (law_insert s t _ rows cols s1 out H1 H2 Hid E)
    as (r' & i & -> & Hc1 & Hri & Hib & Hfresh & Hdata & Hcols & _).
  injection Hr as <-. split.
  - exists i. split; [done|].
    rewrite (get_by_id_exec s1 t i (rows ++ [r']) cols); [|done|by rewrite Hcols|done|done].
    by rewrite (filter_rows_app _ _ _ [] [r'] Hfresh (id_filter_self r' i Hri)).
  - intros k v Hk. apply Hdata. rewrite format_data_map, dict_lookup_format by done.
    by rewrite Hk.
Qed.

(** The rows a delete keeps fail the filters. *)
Lemma partition_rows_keep fs rows hit keep :
  partition_rows fs rows = Ok (hit, keep) -> Forall (fun r => all_filters fs r = Ok false) keep.
Proof.
  revert hit keep; induction rows as [|r rows IH]; simpl; intros hit keep Hp.
  - by injection Hp as <- <-.
  - destruct (all_filters fs r) as [b|] eqn:Eb; [|discriminate]. simpl in Hp.
    destruct (partition_rows fs rows) as [[h k]|]; [|discriminate]. simpl in Hp.
    destruct b; injection Hp as <- <-; [|constructor; [done|]]; eapply IH; reflexivity.
Qed.

(** [delete] runs [delete().eq('id', record_id)]. *)
Lemma delete_exec s t i rows cols hit keep :
  contents s t = Some rows -> columns s t = Some cols -> "id" ∈ cols -> in_bigint i = true ->
  partition_rows (id_filter i) rows = Ok (hit, keep) ->
  exists s', delete t i s = (s', Ok (nonempty hit)) /\ contents s' t = Some keep
    /\ (forall t', t' <> t -> contents s' t' = contents s t').
Proof.
  intros H1 H2 Hid Hi Hp.
  destruct (law_delete s t (id_filter i) rows cols hit keep H1 H2 (filters_known_id cols i Hid Hi) Hp)
    as (Hr & Hc & Ho & _).
  unfold delete, st_bind.
  change (Client.eq (Client.delete (Client.table t)) "id" (PInt i)) with (mkQuery t ADelete (id_filter i)).
  destruct (execute (mkQuery t ADelete (id_filter i)) s) as [s1 r1]. simpl in Hr, Hc, Ho. subst r1.
  exists s1. split; [reflexivity|auto].
Qed.

(** C5: [delete(table, id)] of an [id] no row has returns [False],
    raises nothing, and leaves the table as it was. *)
Theorem delete_absent s t i rows cols :
  contents s t = Some rows -> columns s t = Some cols -> "id" ∈ cols -> in_bigint i = true ->
  filter_rows (id_filter i) rows = Ok [] ->
  exists s', delete t i s = (s', Ok false) /\ contents s' t = Some rows.
Proof.
  intros H1 H2 Hid Hi Hn.
  destruct (delete_exec s t i rows cols [] rows H1 H2 Hid Hi (partition_rows_none _ _ Hn))
    as (s' & Hd & Hc & _).
  eauto.
Qed.

(** C13: [delete(table, id)] of an existing [id] returns [True] and
    removes exactly the rows with that [id]: the table keeps its other
    rows, and no row with that [id] is left. *)
Theorem delete_present s t i rows cols r :
  contents s t = Some rows -> columns s t = Some cols -> "id" ∈ cols -> in_bigint i = true ->
  r ∈ rows -> dict_lookup r "id" = Some (PInt i) ->
  forall hit keep, partition_rows (id_filter i) rows = Ok (hit, keep) ->
  exists s', delete t i s = (s', Ok true) /\ contents s' t = Some keep
    /\ Forall (fun r' => all_filters (id_filter i) r' = Ok false) keep
    /\ (forall t', t' <> t -> contents s' t' = contents s t').
Proof.
  intros H1 H2 Hid Hi Hr Hri hit keep Hp.
  destruct (delete_exec s t i rows cols hit keep H1 H2 Hid Hi Hp) as (s' & Hd & Hc & Ho).
  assert (Hin : r ∈ hit).
  { apply (filter_rows_spec _ _ _ (partition_rows_filter _ _ _ _ Hp)). split; [done|].
    unfold passes. simpl. unfold column_value. rewrite Hri. simpl. by rewrite Z.compare_refl. }
  exists s'. split; [|split; [done|split; [by eapply partition_rows_keep|done]]].
  rewrite Hd. destruct hit; [by apply not_elem_of_nil in Hin|done].
Qed.

(** [sum_column] runs [select(column)] with the filters, then sums. *)
Lemma sum_column_exec s t c filters rows cols :
  contents s t = Some rows -> columns s t = Some cols -> c ∈ cols -> parse_select c = SelCol c ->
  filters_known cols (opt_filters filters) = true ->
  sum_column t c filters s
  = (s, let? hit := filter_rows (opt_filters filters) rows in
        match map (project_col c) hit with [] => Ok (PFloat 0%float) | resp => column_sum c resp end).
Proof.
  intros H1 H2 Hc Hp H3. unfold sum_column. rewrite filters_query by reflexivity.
  unfold st_bind. simpl. rewrite Hp.
  rewrite (law_select_col s t c _ rows cols) by done.
  destruct (filter_rows _ rows) as [hit|]; [|done]. simpl. by destruct hit.
Qed.

(** C6: [sum_column] over filters that no row matches returns exactly
    the float [0.0]. *)
Theorem sum_column_empty s t c filters rows cols :
  contents s t = Some rows -> columns s t = Some cols -> c ∈ cols -> parse_select c = SelCol c ->
  filters_known cols (opt_filters filters) = true ->
  filter_rows (opt_filters filters) rows = Ok [] ->
  sum_column t c filters s = (s, Ok (PFloat 0%float)).
Proof.
  intros H1 H2 Hc Hp H3 Hn. by rewrite (sum_column_exec s t c filters rows cols), Hn.
Qed.

(** The integer a cell contributes: [item.get(column, 0) or 0]. *)
Definition int_cell (c : string) (r : dict) : Z :=
  match dict_get r c with PInt z => z | _ => 0 end.

Lemma py_sum_from_ints a zs :
  py_sum_from (PInt a) (map PInt zs) = Ok (PInt (a + int_total zs)).
Proof.
  revert a. induction zs as [|z zs IH]; intros a; simpl.
  - by rewrite Z.add_0_r.
  - rewrite IH. do 2 f_equal. unfold int_total. simpl. lia.
Qed.

Lemma column_sum_ints c hit :
  Forall (fun r => (exists z, dict_get r c = PInt z) \/ dict_get r c = PNone) hit ->
  column_sum c (map (project_col c) hit) = Ok (PInt (int_total (map (int_cell c) hit))).
Proof.
  intros Hh. unfold column_sum, py_sum. rewrite map_map.
  rewrite (map_ext_in _ (fun r => PInt (int_cell c r))).
  - rewrite <- (map_map (int_cell c) PInt). by rewrite py_sum_from_ints.
  - intros r Hr. rewrite Forall_forall in Hh. apply list_elem_of_In in Hr.
    unfold dict_get_default, project_col, int_cell. simpl. rewrite String.eqb_refl.
    destruct (Hh r Hr) as [[z ->] | ->]; [|done].
    unfold py_or. simpl. by destruct (Z.eqb_spec z 0) as [->|].
Qed.

(** C20: when the matching rows hold integers or NULL in the column,
    [sum_column] returns their integer sum (NULL counting as 0). *)
Theorem sum_column_ints s t c filters rows cols hit :
  contents s t = Some rows -> columns s t = Some cols -> c ∈ cols -> parse_select c = SelCol c ->
  filters_known cols (opt_filters filters) = true ->
  filter_rows (opt_filters filters) rows = Ok hit -> hit <> [] ->
  Forall (fun r => (exists z, dict_get r c = PInt z) \/ dict_get r c = PNone) hit ->
  sum_column t c filters s = (s, Ok (PInt (int_total (map (int_cell c) hit)))).
Proof.
  intros H1 H2 Hc Hp H3 Hf Hne Hh.
  rewrite (sum_column_exec s t c filters rows cols), Hf by done. simpl.
  destruct hit as [|r hit']; [done|]. by rewrite <- (column_sum_ints c (r :: hit') Hh).
Qed.

(** A row whose cell in [c] is a text [x] with [p x]. *)
Definition text_cell_test (c : string) (p : string -> bool) (r : dict) : bool :=
  match dict_get r c with PStr x => p x | _ => false end.

(** The rows [search] keeps: a text cell that contains the term,
    ignoring case. *)
Definition search_hit (c term : string) : dict -> bool :=
  text_cell_test c (fun x => contains_ci x term).

Lemma filters_known_one cols f :
  filter_column f ∈ cols -> id_operand f = None -> filters_known cols [f] = true.
Proof. intros Hf Ho. simpl. unfold filter_check. rewrite bool_decide_eq_true_2 by done. by rewrite Ho. Qed.

(** A column of texts and NULLs. *)
Definition text_column (c : string) (rows : list dict) : Prop :=
  Forall (fun r => dict_lookup r c = Some PNone \/ exists x, dict_lookup r c = Some (PStr x)) rows.

(** [search] runs [select('*').ilike(column, '%term%')]; on a text
    column, an [ILIKE] of the pattern PostgREST reads that answers [p]
    on each text keeps the rows of [text_cell_test c p]. *)
Lemma search_exec s t c term rows cols (p : string -> bool) :
  contents s t = Some rows -> columns s t = Some cols -> c ∈ cols -> text_column c rows ->
  (forall x, ilike x (pgrst_like_pattern (search_pattern term)) = Ok (p x)) ->
  search t c term s = (s, Ok (List.filter (text_cell_test c p) rows)).
Proof.
  intros H1 H2 Hc Hrows Hp. unfold search, st_bind.
  change (Client.ilike _ c (search_pattern term))
    with (mkQuery t (ASelect SelStar) [FilterILike c (search_pattern term)]).
  rewrite (law_select_star s t _ rows cols) by (done || by apply filters_known_one).
  rewrite (filter_rows_bool _ _ (text_cell_test c p)); [by rewrite data_or_empty_id|].
  intros r Hr. unfold text_column in Hrows. rewrite Forall_forall in Hrows.
  unfold text_cell_test, dict_get. simpl. unfold column_value.
  destruct (Hrows r Hr) as [-> | [x ->]]; simpl; [done|].
  rewrite Hp. simpl. by rewrite andb_true_r.
Qed.

(** C14: [search(table, column, term)] on a text column, with a term free
    of [LIKE]'s [%], [_] and [\] and of ['*'] (which PostgREST reads as
    [%]), returns exactly the rows whose cell contains the term ignoring
    ASCII case, in table order, and leaves the store as it is. *)
Theorem search_contains s t c term rows cols :
  contents s t = Some rows -> columns s t = Some cols -> c ∈ cols -> text_column c rows ->
  literal_term term = true ->
  search t c term s = (s, Ok (List.filter (search_hit c term) rows)).
Proof.
  intros H1 H2 Hc Hrows Ht. apply (search_exec s t c term rows cols); try done.
  intros x. by apply ilike_search_pattern.
Qed.

(** C15: the search term is not escaped: a search for ["_"] is the
    pattern ['%_%'], which every non-empty text matches, so it returns
    every row with a non-empty text in the column instead of the rows
    containing an underscore. *)
Theorem search_underscore s t c rows cols :
  contents s t = Some rows -> columns s t = Some cols -> c ∈ cols -> text_column c rows ->
  search t c "_" s = (s, Ok (List.filter (text_cell_test c (fun x => negb (String.eqb x ""))) rows)).
Proof.
  intros H1 H2 Hc Hrows. apply (search_exec s t c "_" rows cols); try done.
  exact ilike_search_underscore.
Qed.

(** C34: a ['*'] in the search term is a wildcard: [search] puts the
    term into [f'%{search_term}%'] unescaped, and PostgREST reads every
    ['*'] of an [ilike] value as [%].  For literal [a] and [b], a search
    for [a*b] returns, in table order, the rows whose text holds [a] and,
    after it, [b] (ignoring ASCII case), not the rows containing the text
    [a*b]; the store is left as it is. *)
Theorem search_star s t c a b rows cols :
  contents s t = Some rows -> columns s t = Some cols -> c ∈ cols -> text_column c rows ->
  literal_term a = true -> literal_term b = true ->
  search t c (a ++ "*" ++ b) s = (s, Ok (List.filter (text_cell_test c (fun x => contains_then_ci x a b)) rows)).
Proof.
  intros H1 H2 Hc Hrows Ha Hb. apply (search_exec s t c _ rows cols); try done.
  intros x. by apply ilike_search_star.
Qed.

(** The rows [get_by_date_range] keeps, as a boolean test on the text
    of the cell. *)
Definition in_text_range (c lo hi : string) (r : dict) : bool :=
  match dict_get r c with PStr x => String.leb lo x && String.leb x hi | _ => false end.

Lemma leb_compare_ge a x :
  String.leb a x = match String.compare x a with Lt => false | _ => true end.
Proof. unfold String.leb. rewrite String.compare_antisym. by destruct (String.compare x a). Qed.

(** [get_by_date_range] on dates sends [c >= start AND c <= end] with
    the ISO texts of the dates; on a text column this keeps the rows whose
    text lies between them. *)
Lemma get_by_date_range_exec s t c d1 d2 rows cols :
  contents s t = Some rows -> columns s t = Some cols -> c ∈ cols ->
  Forall (fun r => dict_lookup r c = Some PNone \/ exists x, dict_lookup r c = Some (PStr x)) rows ->
  get_by_date_range t c (PDate d1) (PDate d2) s
  = (s, Ok (List.filter (in_text_range c (date_isoformat d1) (date_isoformat d2)) rows)).
Proof.
  intros H1 H2 Hc Hrows. unfold get_by_date_range, st_bind. simpl.
  change (Client.lte _ c _)
    with (mkQuery t (ASelect SelStar)
            [FilterGte c (PStr (date_isoformat d1)); FilterLte c (PStr (date_isoformat d2))]).
  rewrite (law_select_star s t _ rows cols)
    by (done || (simpl; unfold filter_check; rewrite !bool_decide_eq_true_2 by done; done)).
  rewrite (filter_rows_bool _ _ (in_text_range c (date_isoformat d1) (date_isoformat d2)));
    [by rewrite data_or_empty_id|].
  intros r Hr. rewrite Forall_forall in Hrows.
  unfold in_text_range, dict_get. simpl. unfold column_value.
  destruct (Hrows r Hr) as [-> | [x ->]]; simpl; [done|].
  rewrite !leb_compare_ge, (String.compare_antisym (date_isoformat d2) x).
  by destruct (String.compare x (date_isoformat d1)), (String.compare x (date_isoformat d2)).
Qed.

(** C16: [get_by_date_range(table, column, start, end)] on a column of
    ISO dates returns the rows whose date lies between [start] and [end]
    inclusive, by the calendar order of [date], and the store is unchanged. *)
Theorem get_by_date_range_dates s t c d1 d2 rows cols out s' :
  contents s t = Some rows -> columns s t = Some cols -> c ∈ cols ->
  date_printable d1 -> date_printable d2 ->
  Forall (fun r => dict_lookup r c = Some PNone
                   \/ exists d, date_printable d /\ dict_lookup r c = Some (PStr (date_isoformat d))) rows ->
  get_by_date_range t c (PDate d1) (PDate d2) s = (s', Ok out) ->
  s' = s /\ (forall r, r ∈ out <-> r ∈ rows /\ exists d, date_printable d
                 /\ dict_get r c = PStr (date_isoformat d) /\ date_le d1 d = true /\ date_le d d2 = true).
Proof.
  intros H1 H2 Hc Hp1 Hp2 Hrows Hg.
  rewrite (get_by_date_range_exec s t c d1 d2 rows cols) in Hg by
    (done || (eapply Forall_impl; [exact Hrows|]; intros r [?|(d & _ & ?)]; eauto)).
  injection Hg as <- <-. split; [done|]. intros r.
  rewrite elem_of_list_filter_bool. split.
  - intros [Hr Hin]. split; [done|]. rewrite Forall_forall in Hrows.
    destruct (Hrows r Hr) as [Hn | (d & Hd & Hl)]; unfold in_text_range, dict_get in Hin.
    + by rewrite Hn in Hin.
    + rewrite Hl, !date_isoformat_leb in Hin by done. apply andb_prop in Hin.
      exists d. unfold dict_get. rewrite Hl. tauto.
  - intros [Hr (d & Hp & Hd & Hle1 & Hle2)]. rewrite Forall_forall in Hrows.
    destruct (Hrows r Hr) as [Hn | (d' & Hp' & Hl)]; unfold dict_get in Hd;
      rewrite ?Hn, ?Hl in Hd; [discriminate|].
    assert (E : date_isoformat d' = date_isoformat d) by congruence.
    unfold in_text_range, dict_get. rewrite Hl, E, !date_isoformat_leb by done.
    split; [done|]. by rewrite Hle1, Hle2.
Qed.

(** C30: [get_by_date_range] with a start that is not a [date] (a
    string, say) raises [AttributeError] on [start_date.isoformat()]
    before any query is sent. *)
Theorem get_by_date_range_not_date s t c start end_ :
  is_date_like start = false ->
  get_by_date_range t c start end_ s
  = (s, Err (AttributeError ("'" ++ type_name start ++ "' object has no attribute 'isoformat'"))).
Proof. intros Hd. unfold get_by_date_range, st_bind. simpl. by destruct start. Qed.

Lemma partition_rows_nil rows : partition_rows [] rows = Ok (rows, []).
Proof. induction rows as [|r rows IH]; simpl; [done|]. by rewrite IH. Qed.

(** C29: [remove_related_records(junction, {})] has no guard on empty
    filters: it sends an unfiltered [delete()] that empties the whole
    junction table, and returns [True] when the table had rows.  This is
    the store of the specification, where an empty filter narrows
    nothing; a database with the [pg-safeupdate] extension loaded would
    refuse the [DELETE] without [WHERE] instead. *)
Theorem remove_related_records_empty s t rows cols :
  contents s t = Some rows -> columns s t = Some cols ->
  exists s', remove_related_records t [] s = (s', Ok (nonempty rows))
    /\ contents s' t = Some [] /\ (forall t', t' <> t -> contents s' t' = contents s t').
Proof.
  intros H1 H2.
  destruct (law_delete s t [] rows cols rows [] H1 H2 eq_refl (partition_rows_nil rows))
    as (Hr & Hc & Ho & _).
  unfold remove_related_records, st_bind. simpl.
  change (Client.delete (Client.table t)) with (mkQuery t ADelete []).
  destruct (execute (mkQuery t ADelete []) s) as [s1 r1]. simpl in Hr, Hc, Ho. subst r1.
  exists s1. split; [reflexivity|auto].
Qed.

End Contract.

Section Effects.
Context {S : Type} `{BackendLaws S}.

(** What one [create] does to the store: on success it appends one row
    holding the formatted data and touches no other table; on an error
    no table gains or loses a row. *)
Lemma create_step s t d rows cols s' r :
  contents s t = Some rows -> columns s t = Some cols -> "id" ∈ cols ->
  create t d s = (s', r) ->
  match r with
  | Ok o => exists row, o = Some row /\ contents s' t = Some (rows ++ [row])
      /\ (forall k v, dict_lookup (format_data d) k = Some v -> dict_lookup row k = Some v)
      /\ (forall t', columns s' t' = columns s t')
      /\ (forall t', t' <> t -> contents s' t' = contents s t')
  | Err _ => forall t', contents s' t' = contents s t' /\ columns s' t' = columns s t'
  end.
Proof.
  intros H1 H2 Hid Hc. unfold create, st_bind in Hc.
  destruct (execute _ s) as [s1 [out|e]] eqn:E; injection Hc as <- <-.
  - destruct (law_insert s t _ rows cols s1 out H1 H2 Hid E)
      as (r' & i & -> & Hc1 & _ & _ & _ & Hdata & Hcols & Ho).
    exists r'. eauto 6.
  - exact (law_insert_err _ _ _ _ _ E).
Qed.

(** The row [create] appended passes [id = i] and the rows before it
    do not: deleting [i] removes exactly that row. *)
Lemma partition_rows_created rows r i :
  dict_lookup r "id" = Some (PInt i) -> filter_rows (id_filter i) rows = Ok [] ->
  partition_rows (id_filter i) (rows ++ [r]) = Ok ([r], rows).
Proof.
  intros Hri Hn. rewrite <- (app_nil_l [r]) at 2. rewrite <- (app_nil_r rows) at 2.
  apply partition_rows_app; [by apply partition_rows_none|].
  simpl. unfold column_value. rewrite Hri. simpl. by rewrite Z.compare_refl.
Qed.

(** C12: [create] and [delete] are inverse.  Deleting the [id] of the
    record [create] returned succeeds and leaves the table, and every
    other table, exactly as it was before the [create]. *)
Theorem create_delete s t d rows cols s1 r :
  contents s t = Some rows -> columns s t = Some cols -> "id" ∈ cols ->
  create t d s = (s1, Ok (Some r)) ->
  exists i s2, dict_lookup r "id" = Some (PInt i) /\ delete t i s1 = (s2, Ok true)
    /\ contents s2 t = Some rows /\ (forall t', t' <> t -> contents s2 t' = contents s t').
Proof.
  intros H1 H2 Hid Hc. unfold create, st_bind in Hc.
  destruct (execute _ s) as [s1' [out|e]] eqn:E; [|discriminate]. simpl in Hc.
  injection Hc as <- Hr.
  destruct (law_insert s t _ rows cols s1' out H1 H2 Hid E)
    as (r' & i & -> & Hc1 & Hri & Hib & Hfresh & _ & Hcols & Ho).
  injection Hr as <-.
  destruct (delete_exec s1' t i (rows ++ [r']) cols [r'] rows Hc1 ltac:(by rewrite Hcols) Hid Hib
              (partition_rows_created rows r' i Hri Hfresh)) as (s2 & Hd & Hc2 & Ho2).
  exists i, s2. split; [done|]. split; [done|]. split; [done|].
  intros t' Ht'. by rewrite Ho2, Ho.
Qed.

End Effects.

Section Update.
Context {S : Type} `{BackendLaws S}.

Lemma keys_format data :
  dict_keys (map (fun kv => (fst kv, format_date (snd kv))) data) = dict_keys data.
Proof. unfold dict_keys. by rewrite map_map. Qed.

(** [update] runs [update(formatted_data).eq('id', record_id)]. *)
Lemma update_exec s t i data rows cols s' o :
  contents s t = Some rows -> columns s t = Some cols ->
  update t i data s = (s', Ok o) ->
  exists hit rows', filter_rows (id_filter i) rows = Ok hit
    /\ o = first_or_none (map (apply_update (format_data data)) hit)
    /\ updated_rows (id_filter i) (format_data data) rows = Ok rows' /\ contents s' t = Some rows'
    /\ (forall t', columns s' t' = columns s t')
    /\ (forall t', t' <> t -> contents s' t' = contents s t').
Proof.
  intros H1 H2 Hu. unfold update, st_bind in Hu.
  change (Client.eq _ "id" (PInt i)) with (mkQuery t (AUpdate (format_data data)) (id_filter i)) in Hu.
  destruct (execute _ s) as [s1 [out|e]] eqn:E; [|discriminate]. injection Hu as <- <-.
  destruct (law_update s t _ _ rows cols s1 out H1 H2 E) as (hit & rows' & Hf & -> & Hrest).
  exists hit, rows'. auto.
Qed.

(** C11: round trip of [update].  When [update(table, id, data)] (with
    no ["id"] key in [data]) returns a record [r], [r] holds every field
    of [data], dates as ISO strings, [get_by_id(table, id)] afterwards
    returns [r], and no other table changed. *)
Theorem update_get_by_id s t i data rows cols s' r :
  contents s t = Some rows -> columns s t = Some cols -> "id" ∈ cols -> in_bigint i = true ->
  dict_wf data -> "id" ∉ dict_keys data ->
  update t i data s = (s', Ok (Some r)) ->
  get_by_id t i s' = (s', Ok (Some r))
  /\ (forall k v, dict_lookup data k = Some v -> dict_lookup r k = Some (format_date v))
  /\ (forall t', t' <> t -> contents s' t' = contents s t').
Proof.
  intros H1 H2 Hid Hi Hwf Hnid Hu.
  destruct (update_exec s t i data rows cols s' _ H1 H2 Hu)
    as (hit & rows' & Hf & Hr & Hup & Hc & Hcols & Ho).
  rewrite format_data_map in Hr, Hup by done.
  destruct hit as [|h hit']; [discriminate|]. injection Hr as ->.
  split; [|split; [|done]].
  - assert (Hpres : forall r0, all_filters (id_filter i)
                        (apply_update (map (fun kv => (fst kv, format_date (snd kv))) data) r0)
                      = all_filters (id_filter i) r0).
    { intros r0. simpl. unfold column_value.
      by rewrite apply_update_lookup_other by (by rewrite keys_format). }
    rewrite (get_by_id_exec s' t i rows' cols), (filter_rows_updated _ _ _ _ _ Hpres Hup Hf);
      [done | done | by rewrite Hcols | done | done].
  - intros k v Hk. apply apply_update_lookup; [by rewrite keys_format|].
    by rewrite dict_lookup_format, Hk.
Qed.

(** C26: [update(table, id, data)] of an [id] no row has returns [None]
    and leaves the table as it was. *)
Theorem update_absent s t i data rows cols s' o :
  contents s t = Some rows -> columns s t = Some cols ->
  filter_rows (id_filter i) rows = Ok [] ->
  update t i data s = (s', Ok o) -> o = None /\ contents s' t = Some rows.
Proof.
  intros H1 H2 Hn Hu.
  destruct (update_exec s t i data rows cols s' o H1 H2 Hu) as (hit & rows' & Hf & -> & Hup & Hc & _).
  rewrite Hn in Hf. injection Hf as <-. rewrite updated_rows_none in Hup by done.
  injection Hup as <-. by split.
Qed.

End Update.

(** ** [add_related_records] on the store model *)

(** [json.dumps] stops at a [date] or a [datetime], and at nothing else. *)
Lemma json_unserializable_date v u : json_unserializable v = Some u -> is_date_like u = true.
Proof.
  revert u. induction v as [| | | | | | |l IH|d IH] using pyval_ind'; intros u; simpl;
    try discriminate; try (intros [= <-]; reflexivity);
    intros (x & Hx & Hu)%first_some_Some; rewrite Forall_forall in IH; by apply (IH x).
Qed.

Lemma json_unserializable_rows (data : list dict) :
  Exists (fun r => Exists (fun kv => is_date_like (snd kv) = true) r) data ->
  is_Some (json_unserializable (PList (map PDict data))).
Proof.
  intros Hd. apply first_some_Exists.
  induction Hd as [r rs Hr|r rs _ IH]; [apply Exists_cons_hd|by apply Exists_cons_tl].
  apply first_some_Exists. eapply Exists_impl; [exact Hr|].
  intros [k [| | | | | | | |]] Hv; simpl in *; try discriminate; by eexists.
Qed.

(** C27: unlike [create], [add_related_records] does not turn dates into
    ISO strings: when a junction row holds a [date] or a [datetime], the
    serialisation of the body raises [json.dumps]'s [TypeError] for the
    first such value it meets, ["Object of type date is not JSON
    serializable"] (or [datetime]), before any request is sent, and
    nothing is written. *)
Theorem add_related_records_date s t tb data :
  tables s !! t = Some tb ->
  Exists (fun r => Exists (fun kv => is_date_like (snd kv) = true) r) data ->
  exists u, json_unserializable (PList (map PDict data)) = Some u /\ is_date_like u = true
    /\ add_related_records t data s = (s, Err (not_serializable u)).
Proof.
  intros Htb Hd. destruct (json_unserializable_rows data Hd) as [u Hu].
  exists u. split; [done|]. split; [by eapply json_unserializable_date|].
  unfold add_related_records, st_bind. cbn [execute store_backend].
  unfold store_execute, Client.insert, Client.table. cbn [q_table q_action q_filters].
  rewrite Htb, (check_filters_known _ []) by reflexivity.
  unfold insert_table, insert_failed. by rewrite Hu, Z.eqb_refl.
Qed.

(** ** [get_related_records] on the store model *)

(** PostgREST reads the select string ["table(*)"] as the embedding of
    the related [table]. *)
Lemma parse_select_embed t : parse_select (t ++ "(*)") = SelEmbed t.
Proof.
  assert (Hlen : String.length (t ++ "(*)") = (String.length t + 3)%nat)
    by (induction t as [|ch t IH]; simpl; [done|by rewrite IH]).
  assert (Hsuf : forall u, String.substring (String.length u) 3 (u ++ "(*)") = "(*)")
    by (induction u as [|ch u IH]; [done|exact IH]).
  assert (Hpre : forall u, String.substring 0 (String.length u) (u ++ "(*)") = u)
    by (induction u as [|ch u IH]; [done|simpl; by rewrite IH]).
  unfold parse_select. rewrite Hlen. replace (String.length t + 3 - 3)%nat with (String.length t) by lia.
  rewrite Hsuf, Hpre. destruct (String.eqb_spec (t ++ "(*)") "*") as [E|_].
  - apply (f_equal String.length) in E. rewrite Hlen in E. simpl in E. lia.
  - rewrite (proj2 (Nat.leb_le 3 _)) by lia. reflexivity.
Qed.

(** C32: [get_related_records(table, junction, fk, id)] returns, for
    each row of the junction table whose [fk] equals [id], in table
    order, the one-key record [{table: row}] holding the row of [table]
    that the junction's foreign key to [table] refers to ([None] when it
    refers to none); it raises what the filter raises, and writes
    nothing. *)
Theorem get_related_records_embed s t j fk i tbj tbt c :
  tables s !! j = Some tbj -> tables s !! t = Some tbt -> fk ∈ table_columns tbj -> in_bigint i = true ->
  List.find (fun fk' => String.eqb (snd fk') t) (tbl_fks tbj) = Some (c, t) ->
  get_related_records t j fk i s
  = (s, let? hit := filter_rows [FilterEq fk (PInt i)] (tbl_rows tbj) in
        Ok (map (fun r => [(t, referenced (tbl_rows tbt) (dict_get r c))]) hit)).
Proof.
  intros Hj Ht Hfk Hi Hc. unfold get_related_records, st_bind. cbn [execute store_backend].
  unfold store_execute, Client.eq, Client.add_filter, Client.select, Client.table.
  cbn [q_table q_action q_filters app]. rewrite Hj, parse_select_embed.
  assert (Hchk : check_filters (table_columns tbj) [FilterEq fk (PInt i)] = Ok tt).
  { cbn. unfold filter_check. cbn [filter_column id_operand]. rewrite bool_decide_eq_true_2 by done.
    by destruct (String.eqb fk "id"); [rewrite Hi|]. }
  rewrite Hchk. unfold select_table. rewrite Hc, Ht.
  destruct (filter_rows _ _); simpl; [by rewrite data_or_empty_id|done].
Qed.

(** ** The theorems at concrete inputs, on [Store.sample_store] *)

Lemma get_all_filters_witness :
  sample_store = sample_store
  /\ (forall r, r ∈ [worker_row 2 "Bob" "777"] <-> r ∈ sample_workers
        /\ Forall (fun kv => eval_filter (FilterEq (fst kv) (snd kv)) r = Ok true) [("name", PStr "Bob")]).
Proof.
  apply (get_all_filters sample_store "workers" [("name", PStr "Bob")] sample_workers
           (table_columns workers_table)); [reflexivity | reflexivity | by_eval | vm_compute; reflexivity].
Defined.

Lemma get_all_filter_order_witness :
  Permutation [("name", PStr "Bob"); ("number", PStr "777")] [("number", PStr "777"); ("name", PStr "Bob")]
  /\ [worker_row 2 "Bob" "777"] = [worker_row 2 "Bob" "777"].
Proof.
  assert (Hp : Permutation [("name", PStr "Bob"); ("number", PStr "777")]
                           [("number", PStr "777"); ("name", PStr "Bob")]) by constructor.
  split; [exact Hp|].
  apply (get_all_filter_order sample_store "workers" [("name", PStr "Bob"); ("number", PStr "777")]
           [("number", PStr "777"); ("name", PStr "Bob")] sample_workers (table_columns workers_table)
           sample_store sample_store); [reflexivity | reflexivity | by_eval | exact Hp
          | vm_compute; reflexivity | vm_compute; reflexivity].
Defined.

Lemma create_get_by_id_witness :
  let data := [("customer", PStr "Dan"); ("order_date", PDate (mkDate 2024 3 1)); ("total", PInt 5)] in
  let r := order_row 4 "Dan" (PStr "2024-03-01") (PInt 5) in
  let s' := fst (create "orders" data sample_store) in
  (exists i, dict_lookup r "id" = Some (PInt i) /\ get_by_id "orders" i s' = (s', Ok (Some r)))
  /\ (forall k v, dict_lookup data k = Some v -> dict_lookup r k = Some (format_date v)).
Proof.
  apply (create_get_by_id sample_store "orders" _ sample_orders (table_columns orders_table));
    [reflexivity | reflexivity | by_eval | by_eval | vm_compute; reflexivity].
Defined.

Lemma delete_absent_witness :
  exists s', delete "workers" 9999 sample_store = (s', Ok false) /\ contents s' "workers" = Some sample_workers.
Proof.
  apply (delete_absent sample_store "workers" 9999 sample_workers (table_columns workers_table));
    [reflexivity | reflexivity | by_eval | reflexivity | vm_compute; reflexivity].
Defined.

Lemma delete_present_witness :
  exists s', delete "workers" 1 sample_store = (s', Ok true)
    /\ contents s' "workers" = Some [worker_row 2 "Bob" "777"]
    /\ Forall (fun r' => all_filters (id_filter 1) r' = Ok false) [worker_row 2 "Bob" "777"]
    /\ (forall t', t' <> "workers" -> contents s' t' = contents sample_store t').
Proof.
  refine (delete_present sample_store "workers" 1 sample_workers (table_columns workers_table)
           (worker_row 1 "Ana" "555") _ _ _ _ _ _ [worker_row 1 "Ana" "555"] [worker_row 2 "Bob" "777"] _);
    [reflexivity | reflexivity | by_eval | reflexivity | apply list_elem_of_here | reflexivity
    | vm_compute; reflexivity].
Defined.

Lemma sum_column_empty_witness :
  sum_column "orders" "total" (Some [("customer", PStr "Zed")]) sample_store
  = (sample_store, Ok (PFloat 0%float)).
Proof.
  apply (sum_column_empty sample_store "orders" "total" _ sample_orders (table_columns orders_table));
    [reflexivity | reflexivity | by_eval | reflexivity | vm_compute; reflexivity
    | vm_compute; reflexivity].
Defined.

Lemma sum_column_ints_witness :
  sum_column "orders" "total" (Some [("customer", PStr "Cid")]) sample_store
  = (sample_store, Ok (PInt (int_total (map (int_cell "total") [order_row 3 "Cid" PNone PNone])))).
Proof.
  apply (sum_column_ints sample_store "orders" "total" _ sample_orders (table_columns orders_table));
    [reflexivity | reflexivity | by_eval | reflexivity | vm_compute; reflexivity
    | vm_compute; reflexivity | discriminate | constructor; [right; reflexivity | constructor]].
Defined.

Lemma search_contains_witness :
  search "workers" "name" "b" sample_store
  = (sample_store, Ok (List.filter (search_hit "name" "b") sample_workers)).
Proof.
  apply (search_contains sample_store "workers" "name" "b" sample_workers (table_columns workers_table));
    [reflexivity | reflexivity | by_eval
    | repeat (constructor; [right; eexists; reflexivity|]); constructor | reflexivity].
Defined.

Lemma search_underscore_witness :
  search "workers" "name" "_" sample_store
  = (sample_store, Ok (List.filter (text_cell_test "name" (fun x => negb (String.eqb x ""))) sample_workers)).
Proof.
  apply (search_underscore sample_store "workers" "name" sample_workers (table_columns workers_table));
    [reflexivity | reflexivity | by_eval | repeat (constructor; [right; eexists; reflexivity|]); constructor].
Defined.

Lemma search_star_witness :
  search "workers" "name" ("a" ++ "*" ++ "a") sample_store
  = (sample_store, Ok (List.filter (text_cell_test "name" (fun x => contains_then_ci x "a" "a")) sample_workers)).
Proof.
  apply (search_star sample_store "workers" "name" "a" "a" sample_workers (table_columns workers_table));
    [reflexivity | reflexivity | by_eval | repeat (constructor; [right; eexists; reflexivity|]); constructor
    | reflexivity | reflexivity].
Defined.

Lemma get_by_date_range_dates_witness :
  sample_store = sample_store
  /\ (forall r, r ∈ [order_row 1 "Ana" (PStr "2024-01-05") (PInt 100)] <-> r ∈ sample_orders
        /\ exists d, date_printable d /\ dict_get r "order_date" = PStr (date_isoformat d)
             /\ date_le (mkDate 2024 1 1) d = true /\ date_le d (mkDate 2024 1 31) = true).
Proof.
  apply (get_by_date_range_dates sample_store "orders" "order_date" (mkDate 2024 1 1) (mkDate 2024 1 31)
           sample_orders (table_columns orders_table));
    [reflexivity | reflexivity | by_eval | unfold date_printable; simpl; lia
    | unfold date_printable; simpl; lia | | vm_compute; reflexivity].
  constructor; [right; exists (mkDate 2024 1 5); split; [unfold date_printable; simpl; lia | reflexivity]|].
  constructor; [right; exists (mkDate 2024 2 10); split; [unfold date_printable; simpl; lia | reflexivity]|].
  constructor; [left; reflexivity | constructor].
Defined.

Lemma get_by_date_range_not_date_witness :
  is_date_like (PStr "2024-01-01") = false
  /\ get_by_date_range "orders" "order_date" (PStr "2024-01-01") (PStr "2024-01-31") sample_store
     = (sample_store, Err (AttributeError "'str' object has no attribute 'isoformat'")).
Proof.
  split; [reflexivity|]. apply get_by_date_range_not_date. reflexivity.
Defined.

Lemma remove_related_records_empty_witness :
  exists s', remove_related_records "orders" [] sample_store = (s', Ok (nonempty sample_orders))
    /\ contents s' "orders" = Some [] /\ (forall t', t' <> "orders" -> contents s' t' = contents sample_store t').
Proof.
  apply (remove_related_records_empty sample_store "orders" sample_orders (table_columns orders_table));
    reflexivity.
Defined.

Lemma update_get_by_id_witness :
  let data := [("total", PInt 300); ("order_date", PDate (mkDate 2024 2 11))] in
  let r := order_row 2 "Bob" (PStr "2024-02-11") (PInt 300) in
  let s' := fst (update "orders" 2 data sample_store) in
  get_by_id "orders" 2 s' = (s', Ok (Some r))
  /\ (forall k v, dict_lookup data k = Some v -> dict_lookup r k = Some (format_date v))
  /\ (forall t', t' <> "orders" -> contents s' t' = contents sample_store t').
Proof.
  apply (update_get_by_id sample_store "orders" 2 _ sample_orders (table_columns orders_table));
    [reflexivity | reflexivity | by_eval | reflexivity | by_eval | by_eval | vm_compute; reflexivity].
Defined.

Lemma update_absent_witness :
  let s' := fst (update "orders" 99 [("total", PInt 1)] sample_store) in
  None = @None dict /\ contents s' "orders" = Some sample_orders.
Proof.
  apply (update_absent sample_store "orders" 99 [("total", PInt 1)] sample_orders
           (table_columns orders_table) (fst (update "orders" 99 [("total", PInt 1)] sample_store)));
    [reflexivity | reflexivity | vm_compute; reflexivity | vm_compute; reflexivity].
Defined.

Lemma add_related_records_date_witness :
  exists u, json_unserializable (PList (map PDict
              [[("order_id", PInt 1); ("worker_id", PInt 1); ("assigned_on", PDate (mkDate 2024 1 5))]])) = Some u
    /\ is_date_like u = true
    /\ add_related_records "order_workers"
         [[("order_id", PInt 1); ("worker_id", PInt 1); ("assigned_on", PDate (mkDate 2024 1 5))]] sample_store
       = (sample_store, Err (not_serializable u)).
Proof.
  apply (add_related_records_date sample_store "order_workers" order_workers_table);
    [reflexivity | apply Exists_cons_hd, Exists_cons_tl, Exists_cons_tl, Exists_cons_hd; reflexivity].
Defined.

Lemma create_delete_witness :
  let s1 := fst (create "orders" [("customer", PStr "Dan"); ("total", PInt 5)] sample_store) in
  exists i s2, dict_lookup (order_row 4 "Dan" PNone (PInt 5)) "id" = Some (PInt i)
    /\ delete "orders" i s1 = (s2, Ok true)
    /\ contents s2 "orders" = Some sample_orders
    /\ (forall t', t' <> "orders" -> contents s2 t' = contents sample_store t').
Proof.
  apply (create_delete sample_store "orders" [("customer", PStr "Dan"); ("total", PInt 5)]
           sample_orders (table_columns orders_table)
           (fst (create "orders" [("customer", PStr "Dan"); ("total", PInt 5)] sample_store))
           (order_row 4 "Dan" PNone (PInt 5)));
    [reflexivity | reflexivity | by_eval | vm_compute; reflexivity].
Defined.

(** The example of the specification, evaluated: [search(workers, "name",
    "an")] matches "Ana", "Anand" and "Banana" in any case, and not
    "Bob". *)
Example search_spec_example :
  search "workers" "name" "an" names_store
  = (names_store, Ok [worker_row 1 "Ana" "1"; worker_row 2 "Anand" "2"; worker_row 3 "Banana" "3"]).
Proof. vm_compute. reflexivity. Qed.

(** An order with one worker assigned to it. *)
Definition related_store : store :=
  set_table sample_store "order_workers"
    (mkTable (tbl_columns order_workers_table) (tbl_fks order_workers_table)
       [[("id", PInt 1); ("order_id", PInt 1); ("worker_id", PInt 2)]] 2).

Lemma get_related_records_embed_witness :
  get_related_records "workers" "order_workers" "order_id" 1 related_store
  = (related_store, let? hit := filter_rows [FilterEq "order_id" (PInt 1)]
                                  [[("id", PInt 1); ("order_id", PInt 1); ("worker_id", PInt 2)]] in
                    Ok (map (fun r => [("workers", referenced sample_workers (dict_get r "worker_id"))]) hit)).
Proof.
  exact (get_related_records_embed related_store "workers" "order_workers" "order_id" 1 _
           (mkTable (tbl_columns workers_table) [] sample_workers 3) "worker_id"
           eq_refl eq_refl ltac:(by_eval) eq_refl eq_refl).
Defined.
