(* ===== verification/Handlers.v ===== *)
(** * The worker routes of [route9_supabase.py]

    The three Flask handlers of [src/back/route9_supabase.py], each over
    [SupabaseHelper] ([Repository.v]) and any store with the [Backend]
    interface.  A handler takes the request (the body, which
    [add_worker] parses with [request.get_json()] inside its [try], or the
    [<int:id>] of the URL) and returns a [response]: the status code and
    the JSON value [jsonify] serializes.  [get_json] depends on the
    application's [debug] flag, a section variable of [Routes].
    The [try ... except Exception as e] around each body is [st_try]: an
    exception becomes [500] with [{'error': str(e)}], and the writes made
    before it stay in the store.

    [str] of a value is modelled for [None], [bool], [int], [str],
    [date] and [datetime]; for floats, lists and dicts it is the section
    variable [str_other] (their [repr] is not modelled), which only the
    message of [delete_worker] can reach, when a [name] cell holds one. *)

From Stdlib Require Import Ascii.
From S2P Require Import Prelude PyValue IsoFormat Like Backend Store Repository.

Open Scope string_scope.
Open Scope list_scope.
Open Scope Z_scope.

(** A Flask response: [(jsonify(body), status)]. *)
Record response := mkResponse { status : Z; body : pyval }.

(** [jsonify({'error': msg})] *)
Definition error_body (msg : string) : pyval := PDict [("error", PStr msg)].

(** [x.get(k)]: only a dict has [get]. *)
Definition py_get (v : pyval) (k : string) : res pyval :=
  match v with
  | PDict d => Ok (dict_get d k)
  | _ => Err (AttributeError ("'" ++ type_name v ++ "' object has no attribute 'get'"))
  end.

(** The body of a request as Flask receives it: JSON that parses to a
    value, JSON that does not parse (with the message of the decoder's
    [JSONDecodeError]), or a body sent with another [Content-Type]. *)
Inductive req_body :=
| JsonBody (v : pyval)
| MalformedJson (err : string)
| NotJson.

(** [request.get_json()] (Flask and werkzeug 2.3 and later): a body that
    does not parse raises [BadRequest], with the decoder's message when
    the application runs with [debug] on and werkzeug's generic
    description otherwise; a body with another [Content-Type] raises
    [UnsupportedMediaType]. *)
Definition get_json (debug : bool) (b : req_body) : res pyval :=
  match b with
  | JsonBody v => Ok v
  | MalformedJson err =>
      Err (HTTPException 400
             (if debug then "400 Bad Request: Failed to decode JSON object: " ++ err
              else "400 Bad Request: The browser (or proxy) sent a request that"
                   ++ " this server could not understand."))
  | NotJson =>
      Err (HTTPException 415 ("415 Unsupported Media Type: Did not attempt to load JSON data"
                              ++ " because the request Content-Type was not 'application/json'."))
  end.

(** [x if x else None] of an optional record, as a Python value. *)
Definition opt_dict (o : option dict) : pyval :=
  match o with Some d => PDict d | None => PNone end.

Module Routes.
Section Handlers.
Context {S : Type} `{Backend S}.
(** [str] of a float, list or dict. *)
Context (str_other : pyval -> string).
(** [app.debug], which [app.run(debug=True)] sets. *)
Context (debug : bool).

(** [str(x)], and the [f'{x}'] of an f-string. *)
Definition py_str (v : pyval) : string :=
  match v with
  | PNone => "None"
  | PBool b => if b then "True" else "False"
  | PInt z => z_to_dec z
  | PStr s => s
  | PDate d => date_isoformat d
  | PDateTime dt => datetime_str dt
  | _ => str_other v
  end.

(** [except Exception as e: return jsonify({'error': str(e)}), 500] *)
Definition server_error (e : py_exc) : st S response :=
  st_ret (mkResponse 500 (error_body (exc_message e))).

(** [GET /api/workers] *)
Definition get_workers : st S response :=
  st_try (workers <- get_all "workers" None ;;
          st_ret (mkResponse 200 (PList (map PDict workers))))
         server_error.

(** The dict [add_worker] builds from one item. *)
Definition worker_data_dict (name number Rate Suit Jacket Sadri Others : pyval) : dict :=
  [("name", name); ("number", number); ("Rate", Rate); ("Suit", Suit);
   ("Jacket", Jacket); ("Sadri", Sadri); ("Others", Others)].

Definition missing_fields : response :=
  mkResponse 400 (error_body "Name and number are required fields for all workers").

(** The [for worker_data in data] loop of [add_worker]: [inl] is the
    early [return] of a [400], [inr] the [workers_added] list when the
    loop ends. *)
Fixpoint add_worker_loop (items : list pyval) (workers_added : list pyval)
  : st S (response + list pyval) :=
  match items with
  | [] => st_ret (inr workers_added)
  | worker_data :: rest =>
      name <- st_lift (py_get worker_data "name") ;;
      number <- st_lift (py_get worker_data "number") ;;
      Rate <- st_lift (py_get worker_data "Rate") ;;
      Suit <- st_lift (py_get worker_data "Suit") ;;
      Jacket <- st_lift (py_get worker_data "Jacket") ;;
      Sadri <- st_lift (py_get worker_data "Sadri") ;;
      Others <- st_lift (py_get worker_data "Others") ;;
      if negb (truthy name) || negb (truthy number) then st_ret (inl missing_fields) else
      new_worker <- create "workers" (worker_data_dict name number Rate Suit Jacket Sadri Others) ;;
      let workers_added :=
        if truthy (opt_dict new_worker) then workers_added ++ [opt_dict new_worker]
        else workers_added in
      add_worker_loop rest workers_added
  end.

(** [POST /api/workers] *)
Definition add_worker (body : req_body) : st S response :=
  st_try (data <- st_lift (get_json debug body) ;;
          match data with
          | PList items =>
              out <- add_worker_loop items [] ;;
              match out with
              | inl resp => st_ret resp
              | inr workers_added =>
                  st_ret (mkResponse 201 (PDict [("message", PStr "Workers added successfully");
                                                 ("workers", PList workers_added)]))
              end
          | _ => st_ret (mkResponse 400 (error_body "Invalid input, expected a list of workers"))
          end)
         server_error.

(** [DELETE /api/workers/<int:id>] *)
Definition delete_worker (id : Z) : st S response :=
  st_try (worker <- get_by_id "workers" id ;;
          if negb (truthy (opt_dict worker)) then
            st_ret (mkResponse 404 (error_body "Worker not found"))
          else
          success <- delete "workers" id ;;
          if success then
            name <- st_lift (match worker with
                             | Some w => dict_index w "name"
                             | None => Err (TypeError "'NoneType' object is not subscriptable")
                             end) ;;
            st_ret (mkResponse 200 (PDict [("message", PStr ("Worker " ++ py_str name
                                                            ++ " removed successfully"))]))
          else st_ret (mkResponse 500 (error_body "Failed to delete worker")))
         server_error.

End Handlers.

(** An item the loop accepts: a dict with a truthy [name] and [number]. *)
Definition valid_item (w : pyval) : bool :=
  match w with
  | PDict d => truthy (dict_get d "name") && truthy (dict_get d "number")
  | _ => false
  end.

(** The dict the loop inserts for an item. *)
Definition item_dict (d : dict) : dict :=
  worker_data_dict (dict_get d "name") (dict_get d "number") (dict_get d "Rate")
    (dict_get d "Suit") (dict_get d "Jacket") (dict_get d "Sadri") (dict_get d "Others").

(** The record [create] made from an accepted item holds the item's
    fields, formatted. *)
Definition holds_item (w : pyval) (r : dict) : Prop :=
  exists d, w = PDict d /\ valid_item w = true
    /\ forall k v, dict_lookup (format_data (item_dict d)) k = Some v -> dict_lookup r k = Some v.

Section Correct.
Context {S : Type} `{BackendLaws S} (debug : bool).

(** One iteration on a dict with a falsy [name] or [number]: the early
    [return] of the [400], with nothing written. *)
Lemma add_worker_loop_invalid d rest acc s :
  valid_item (PDict d) = false ->
  add_worker_loop (PDict d :: rest) acc s = (s, Ok (inl missing_fields)).
Proof.
  simpl. intros Hv. unfold st_bind, st_lift. simpl.
  by destruct (truthy (dict_get d "name")), (truthy (dict_get d "number")).
Qed.

(** One iteration on a valid dict: [create], then the rest of the loop. *)
Lemma add_worker_loop_valid d rest acc s :
  valid_item (PDict d) = true ->
  add_worker_loop (PDict d :: rest) acc s
  = match create "workers" (item_dict d) s with
    | (s1, Ok nw) => add_worker_loop rest
        (if truthy (opt_dict nw) then acc ++ [opt_dict nw] else acc) s1
    | (s1, Err e) => (s1, Err e)
    end.
Proof.
  simpl. intros Hv. unfold st_bind, st_lift. simpl.
  apply andb_prop in Hv as [-> ->]. reflexivity.
Qed.

(** A record holding a field is truthy. *)
Lemma truthy_row row k v : dict_lookup row k = Some v -> truthy (PDict row) = true.
Proof. by destruct row. Qed.

Lemma format_data_name d :
  dict_lookup (format_data (item_dict d)) "name" = Some (format_date (dict_get d "name")).
Proof. rewrite format_data_map by (unfold dict_wf; simpl; by apply (bool_decide_unpack _)). reflexivity. Qed.

(** The loop over valid items: each one is created in turn and appended
    to [workers]; the loop either reaches the rest of the items with every
    created record collected, or stops at the first failing [create] with
    the records before it already in the table. *)
Lemma add_worker_loop_prefix good tail acc s rows cols s' r :
  contents s "workers" = Some rows -> columns s "workers" = Some cols -> "id" ∈ cols ->
  Forall (fun w => exists d, w = PDict d /\ valid_item w = true) good ->
  add_worker_loop (good ++ tail) acc s = (s', r) ->
  exists s1 new, contents s1 "workers" = Some (rows ++ new)
    /\ columns s1 "workers" = Some cols
    /\ (forall t', t' <> "workers" -> contents s1 t' = contents s t')
    /\ (((length new = length good)%nat /\ add_worker_loop tail (acc ++ map PDict new) s1 = (s', r))
        \/ ((length new < length good)%nat /\ s' = s1 /\ exists e, r = Err e)).
Proof.
  revert acc s rows s'. induction good as [|w good IH]; intros acc s rows s' H1 H2 Hid Hg Hl.
  - exists s, []. rewrite app_nil_r. simpl. rewrite app_nil_r. auto 7.
  - apply Forall_cons in Hg as [(d & -> & Hv) Hg]. simpl app in Hl.
    rewrite add_worker_loop_valid in Hl by done.
    destruct (create "workers" (item_dict d) s) as [s1 r1] eqn:Ec.
    pose proof (create_step s "workers" _ rows cols s1 r1 H1 H2 Hid Ec) as Hs.
    destruct r1 as [nw|e].
    + destruct Hs as (row & -> & Hc1 & Hrow & Hcols & Ho).
      pose proof (Hrow _ _ (format_data_name d)) as Hname.
      cbn [opt_dict] in Hl. rewrite (truthy_row _ _ _ Hname) in Hl.
      destruct (IH _ s1 (rows ++ [row]) s' Hc1 ltac:(by rewrite Hcols) Hid Hg Hl)
        as (s2 & new & Hc2 & Hcol2 & Ho2 & Hcase).
      exists s2, (row :: new). rewrite <- app_assoc in Hc2.
      split; [done|]. split; [done|]. split.
      { intros t' Ht'. rewrite Ho2, Ho by done. reflexivity. }
      simpl. rewrite <- app_assoc in Hcase. destruct Hcase as [[Hn Hr]|[Hn Hr]]; [left|right]; split; lia || done.
    + injection Hl as <- <-. exists s1, []. simpl. rewrite app_nil_r.
      split; [by rewrite (proj1 (Hs "workers"))|]. split; [by rewrite (proj2 (Hs "workers"))|].
      split; [intros t' _; apply Hs|]. right. split; [lia|eauto].
Qed.

(** One iteration on an item that is not a dict: [worker_data.get]
    raises, with nothing written. *)
Lemma add_worker_loop_non_dict w rest acc s :
  (forall d, w <> PDict d) ->
  add_worker_loop (w :: rest) acc s
  = (s, Err (AttributeError ("'" ++ type_name w ++ "' object has no attribute 'get'"))).
Proof. intros Hw. simpl. unfold st_bind, st_lift. destruct w; try reflexivity. by destruct (Hw d). Qed.

(** The loop over any items: the records created, one per accepted
    item in order, are appended to [workers], and the loop ends in one of
    three ways: every item was accepted; the item after them is a dict
    without a truthy [name] or [number] (the 400); or an exception stopped
    it (a non-dict item or a failed insert, the 500). *)
Lemma add_worker_loop_spec items acc s rows cols s' r :
  contents s "workers" = Some rows -> columns s "workers" = Some cols -> "id" ∈ cols ->
  add_worker_loop items acc s = (s', r) ->
  exists new, contents s' "workers" = Some (rows ++ new)
    /\ (forall t', t' <> "workers" -> contents s' t' = contents s t')
    /\ Forall2 holds_item (take (length new) items) new
    /\ ((r = Ok (inr (acc ++ map PDict new)) /\ length new = length items)
        \/ (r = Ok (inl missing_fields)
            /\ exists d, nth_error items (length new) = Some (PDict d) /\ valid_item (PDict d) = false)
        \/ (exists e, r = Err e /\ (length new < length items)%nat)).
Proof.
  revert acc s rows. induction items as [|w items IH]; intros acc s rows H1 H2 Hid Hl.
  - simpl in Hl. injection Hl as <- <-. exists []. rewrite !app_nil_r.
    split; [done|]. split; [done|]. split; [constructor|]. by left.
  - assert (Hw : (exists d, w = PDict d) \/ (forall d, w <> PDict d))
      by (destruct w; eauto; right; congruence).
    destruct Hw as [[d ->]|Hw].
    2:{ rewrite add_worker_loop_non_dict in Hl by done. injection Hl as <- <-.
        exists []. rewrite app_nil_r. split; [done|]. split; [done|]. split; [constructor|].
        right; right. eexists. split; [done|]. simpl. lia. }
    destruct (valid_item (PDict d)) eqn:Ev.
    2:{ rewrite add_worker_loop_invalid in Hl by done. injection Hl as <- <-.
        exists []. rewrite app_nil_r. split; [done|]. split; [done|]. split; [constructor|].
        right; left. split; [done|]. by exists d. }
    rewrite add_worker_loop_valid in Hl by done.
    destruct (create "workers" (item_dict d) s) as [s1 r1] eqn:Ec.
    pose proof (create_step s "workers" _ rows cols s1 r1 H1 H2 Hid Ec) as Hs.
    destruct r1 as [nw|e].
    2:{ injection Hl as <- <-. exists []. rewrite app_nil_r.
        split; [by rewrite (proj1 (Hs "workers"))|]. split; [intros t' _; apply Hs|]. split; [constructor|].
        right; right. eexists. split; [done|]. simpl. lia. }
    destruct Hs as (row & -> & Hc1 & Hrow & Hcols & Ho).
    cbn [opt_dict] in Hl. rewrite (truthy_row _ _ _ (Hrow _ _ (format_data_name d))) in Hl.
    destruct (IH _ s1 (rows ++ [row]) Hc1 ltac:(by rewrite Hcols) Hid Hl)
      as (new & Hc2 & Ho2 & Hf & Hcase).
    exists (row :: new). rewrite <- app_assoc in Hc2. split; [done|].
    split; [intros t' Ht'; by rewrite Ho2, Ho|].
    split; [simpl; constructor; [by exists d|done]|].
    rewrite <- app_assoc in Hcase. simpl. destruct Hcase as [[-> Hn]|[[-> Hn]|(e & -> & Hn)]].
    + left. split; [done|]. by rewrite Hn.
    + right; left. by split.
    + right; right. exists e. split; [done|]. lia.
Qed.

(** The response [add_worker] builds from the outcome of its loop. *)
Definition add_worker_outcome (r : res (response + list pyval)) : response :=
  match r with
  | Ok (inl resp) => resp
  | Ok (inr added) => mkResponse 201 (PDict [("message", PStr "Workers added successfully");
                                             ("workers", PList added)])
  | Err e => mkResponse 500 (error_body (exc_message e))
  end.

Lemma add_worker_list items s :
  add_worker debug (JsonBody (PList items)) s
  = (fst (add_worker_loop items [] s), Ok (add_worker_outcome (snd (add_worker_loop items [] s)))).
Proof.
  unfold add_worker, st_try, st_bind, st_lift. cbn [get_json].
  by destruct (add_worker_loop items [] s) as [s1 [[resp|added]|e]].
Qed.

(** C22: [POST /api/workers] with a body that is not a JSON array
    answers [400] and writes nothing. *)
Theorem add_worker_not_list data s :
  (forall items, data <> PList items) ->
  add_worker debug (JsonBody data) s
  = (s, Ok (mkResponse 400 (error_body "Invalid input, expected a list of workers"))).
Proof.
  intros Hd. unfold add_worker, st_try, st_bind, st_lift. cbn [get_json].
  destruct data; try done. by destruct (Hd l).
Qed.

(** An exception of [request.get_json()] is caught by the route. *)
Lemma add_worker_json_err b e s :
  get_json debug b = Err e ->
  add_worker debug b s = (s, Ok (mkResponse 500 (error_body (exc_message e)))).
Proof. intros He. unfold add_worker, st_try, st_bind, st_lift. by rewrite He. Qed.

(** C37: a [POST] whose body is JSON that does not parse makes
    [request.get_json()] raise werkzeug's [BadRequest] (with the
    decoder's message under [app.run(debug=True)], a generic text
    otherwise), and one sent with another [Content-Type] its
    [UnsupportedMediaType]; the route's [except Exception] catches either
    and answers [500] with the HTTP error's text, not the [400] of a
    malformed request, and nothing is written. *)
Theorem add_worker_bad_json err s :
  add_worker debug (MalformedJson err) s
  = (s, Ok (mkResponse 500 (error_body
       (if debug then "400 Bad Request: Failed to decode JSON object: " ++ err
        else "400 Bad Request: The browser (or proxy) sent a request"
             ++ " that this server could not understand."))))
  /\ add_worker debug NotJson s
  = (s, Ok (mkResponse 500 (error_body ("415 Unsupported Media Type: Did not attempt to load"
             ++ " JSON data because the request Content-Type was not 'application/json'.")))).
Proof.
  split; [exact (add_worker_json_err (MalformedJson err) _ s eq_refl)
         | exact (add_worker_json_err NotJson _ s eq_refl)].
Qed.

(** C7: a batch of valid workers: the handler answers [201] with the
    records created, in order, each appended to [workers]; or, when an
    insert fails, [500] with the records before it left in the table. *)
Theorem add_worker_created s rows cols good s' resp :
  contents s "workers" = Some rows -> columns s "workers" = Some cols -> "id" ∈ cols ->
  Forall (fun w => exists d, w = PDict d /\ valid_item w = true) good ->
  add_worker debug (JsonBody (PList good)) s = (s', Ok resp) ->
  exists new, contents s' "workers" = Some (rows ++ new)
    /\ ((length new = length good /\ resp = mkResponse 201
           (PDict [("message", PStr "Workers added successfully"); ("workers", PList (map PDict new))]))
        \/ ((length new < length good)%nat /\ status resp = 500)).
Proof.
  intros H1 H2 Hid Hg Ha. rewrite add_worker_list in Ha. injection Ha as <- <-.
  destruct (add_worker_loop good [] s) as [s2 r] eqn:El. simpl.
  rewrite <- (app_nil_r good) in El.
  destruct (add_worker_loop_prefix good [] [] s rows cols s2 r H1 H2 Hid Hg El)
    as (s1 & new & Hc & _ & _ & [[Hn Hl] | (Hn & -> & e & ->)]); exists new.
  - simpl in Hl. injection Hl as <- <-. auto.
  - auto.
Qed.

(** C2: the batch is not atomic.  When the item after [k] valid ones
    lacks a [name] or [number], the handler answers [400], yet the [k]
    workers before it have been inserted and stay in the table (or an
    insert among them failed, and the handler answered [500] with the
    earlier ones inserted). *)
Theorem add_worker_partial s rows cols good d rest s' resp :
  contents s "workers" = Some rows -> columns s "workers" = Some cols -> "id" ∈ cols ->
  Forall (fun w => exists d, w = PDict d /\ valid_item w = true) good ->
  valid_item (PDict d) = false ->
  add_worker debug (JsonBody (PList (good ++ PDict d :: rest))) s = (s', Ok resp) ->
  exists new, contents s' "workers" = Some (rows ++ new)
    /\ ((length new = length good /\ resp = missing_fields)
        \/ ((length new < length good)%nat /\ status resp = 500)).
Proof.
  intros H1 H2 Hid Hg Hd Ha. rewrite add_worker_list in Ha. injection Ha as <- <-.
  destruct (add_worker_loop (good ++ PDict d :: rest) [] s) as [s2 r] eqn:El. simpl.
  destruct (add_worker_loop_prefix good _ [] s rows cols s2 r H1 H2 Hid Hg El)
    as (s1 & new & Hc & _ & _ & [[Hn Hl] | (Hn & -> & e & ->)]); exists new.
  - rewrite add_worker_loop_invalid in Hl by done. injection Hl as <- <-. auto.
  - auto.
Qed.

(** C9: [DELETE /api/workers/<id>] of an [id] no worker has answers
    [404] and writes nothing. *)
Theorem delete_worker_absent str_other s i rows cols :
  contents s "workers" = Some rows -> columns s "workers" = Some cols -> "id" ∈ cols ->
  in_bigint i = true -> filter_rows (id_filter i) rows = Ok [] ->
  delete_worker str_other i s = (s, Ok (mkResponse 404 (error_body "Worker not found"))).
Proof.
  intros H1 H2 Hid Hi Hn. unfold delete_worker, st_try, st_bind.
  by rewrite (get_by_id_exec s "workers" i rows cols), Hn.
Qed.

(** [delete_worker] on an existing worker [w]: the lookup finds it, the
    delete removes every row with that [id], and the response is built
    from [w["name"]]. *)
Lemma delete_worker_found str_other s i rows cols w ws :
  contents s "workers" = Some rows -> columns s "workers" = Some cols -> "id" ∈ cols ->
  in_bigint i = true -> filter_rows (id_filter i) rows = Ok (w :: ws) -> w <> [] ->
  exists s' keep, contents s' "workers" = Some keep
    /\ partition_rows (id_filter i) rows = Ok (w :: ws, keep)
    /\ Forall (fun r => all_filters (id_filter i) r = Ok false) keep
    /\ (forall t', t' <> "workers" -> contents s' t' = contents s t')
    /\ delete_worker str_other i s
       = (s', Ok match dict_index w "name" with
                 | Ok name => mkResponse 200 (PDict [("message", PStr ("Worker " ++ py_str str_other name
                                                                     ++ " removed successfully"))])
                 | Err e => mkResponse 500 (error_body (exc_message e))
                 end).
Proof.
  intros H1 H2 Hid Hi Hf Hw.
  destruct (partition_rows_of_filter _ _ _ Hf) as [keep Hp].
  destruct (delete_exec s "workers" i rows cols _ keep H1 H2 Hid Hi Hp) as (s' & Hd & Hc & Ho).
  exists s', keep. split; [done|]. split; [done|]. split; [exact (partition_rows_keep _ _ _ _ Hp)|].
  split; [done|].
  unfold delete_worker, st_try, st_bind.
  rewrite (get_by_id_exec s "workers" i rows cols), Hf by done. simpl.
  destruct w as [|kv w']; [done|]. simpl.
  unfold st_bind in Hd. rewrite Hd. simpl. by destruct (dict_index _ "name").
Qed.

(** C8: [DELETE /api/workers/<id>] of an existing worker whose [name]
    is [n] removes exactly the rows with that [id]: what is left of
    [workers] is the part of the partition of its rows by [id = i] that
    fails the filter, the rows [w :: ws] the lookup found being the other
    part; it leaves the other tables as they are, and answers [200] with
    ["Worker n removed successfully"]. *)
Theorem delete_worker_present str_other s i rows cols w ws n :
  contents s "workers" = Some rows -> columns s "workers" = Some cols -> "id" ∈ cols ->
  in_bigint i = true -> filter_rows (id_filter i) rows = Ok (w :: ws) -> dict_lookup w "name" = Some (PStr n) ->
  exists s' keep, partition_rows (id_filter i) rows = Ok (w :: ws, keep)
    /\ contents s' "workers" = Some keep
    /\ Forall (fun r => all_filters (id_filter i) r = Ok false) keep
    /\ (forall t', t' <> "workers" -> contents s' t' = contents s t')
    /\ delete_worker str_other i s
       = (s', Ok (mkResponse 200 (PDict [("message", PStr ("Worker " ++ n ++ " removed successfully"))]))).
Proof.
  intros H1 H2 Hid Hi Hf Hn.
  assert (Hw : w <> []) by (intros ->; discriminate).
  destruct (delete_worker_found str_other s i rows cols w ws H1 H2 Hid Hi Hf Hw)
    as (s' & keep & Hc & Hp & Hk & Ho & Hd).
  exists s', keep. unfold dict_index in Hd. rewrite Hn in Hd. auto.
Qed.

(** [get_by_id] of an [id] no [bigint] holds raises PostgreSQL's range
    error, and nothing changes. *)
Lemma get_by_id_range s t i cols :
  columns s t = Some cols -> "id" ∈ cols -> in_bigint i = false ->
  get_by_id t i s = (s, Err (out_of_range i)).
Proof.
  intros H2 Hid Hi. unfold get_by_id, st_bind.
  change (Client.eq _ "id" (PInt i)) with (mkQuery t (ASelect SelStar) (id_filter i)).
  by rewrite (law_id_range s t _ i cols).
Qed.

(** C28: a boundary input.  Flask's [<int:id>] converter accepts any
    number of digits, but the [id] column is a PostgreSQL [bigint]:
    [DELETE /api/workers/<id>] with an [id] above [2^63 - 1] makes the
    lookup fail with PostgreSQL's error 22003, and the route answers
    [500] with [str] of the client's [APIError], the [repr] of the JSON
    error PostgREST sent, not the [404] of an unknown worker; nothing is
    written. *)
Theorem delete_worker_out_of_range str_other s i cols :
  columns s "workers" = Some cols -> "id" ∈ cols -> in_bigint i = false ->
  delete_worker str_other i s
  = (s, Ok (mkResponse 500 (error_body
       ("{'code': '22003', 'details': None, 'hint': None, 'message': 'value " ++ dquote ++ z_to_dec i
        ++ dquote ++ " is out of range for type bigint'}")))).
Proof.
  intros H2 Hid Hi. unfold delete_worker, st_try, st_bind.
  rewrite (get_by_id_range s "workers" i cols) by done. cbn -[exc_message out_of_range].
  unfold server_error, st_ret. by rewrite exc_message_out_of_range.
Qed.

(** C21: an item without a truthy [name] or [number] at the head of the
    batch is answered with [400] before any insert: the store is left as
    it was. *)
Theorem add_worker_invalid_first s d rest :
  valid_item (PDict d) = false ->
  add_worker debug (JsonBody (PList (PDict d :: rest))) s = (s, Ok missing_fields).
Proof. intros Hd. rewrite add_worker_list, add_worker_loop_invalid by done. reflexivity. Qed.

(** C23: an item that is not a JSON object (a string, a number, a
    list) makes [worker_data.get] raise [AttributeError]; the handler
    answers [500], not the [400] of a malformed item. *)
Theorem add_worker_non_dict s w rest :
  (forall d, w <> PDict d) ->
  add_worker debug (JsonBody (PList (w :: rest))) s
  = (s, Ok (mkResponse 500 (error_body ("'" ++ type_name w ++ "' object has no attribute 'get'")))).
Proof.
  intros Hw. rewrite add_worker_list, add_worker_loop_non_dict by done. reflexivity.
Qed.

(** C25: [GET /api/workers] answers [200] with every row of [workers],
    in table order, and writes nothing. *)
Theorem get_workers_all s rows cols :
  contents s "workers" = Some rows -> columns s "workers" = Some cols ->
  get_workers s = (s, Ok (mkResponse 200 (PList (map PDict rows)))).
Proof.
  intros H1 H2. unfold get_workers, st_try, st_bind.
  rewrite (get_all_exec s "workers" None rows cols) by done.
  by rewrite filter_rows_nil.
Qed.

End Correct.
End Routes.

(** ** The handlers at concrete requests, on [Store.sample_store] *)

Definition no_str : pyval -> string := fun _ => "".

Lemma add_worker_not_list_witness :
  Routes.add_worker false (JsonBody (PDict [("name", PStr "Ana"); ("number", PStr "555")])) sample_store
  = (sample_store, Ok (mkResponse 400 (error_body "Invalid input, expected a list of workers"))).
Proof. apply Routes.add_worker_not_list. by intros items. Defined.

Definition cid_item : pyval := PDict [("name", PStr "Cid"); ("number", PStr "999")].

Lemma add_worker_created_witness :
  let s' := fst (Routes.add_worker false (JsonBody (PList [cid_item])) sample_store) in
  exists new, contents s' "workers" = Some (sample_workers ++ new)
    /\ ((length new = length [cid_item]
         /\ mkResponse 201 (PDict [("message", PStr "Workers added successfully");
                                   ("workers", PList [PDict (worker_row 3 "Cid" "999")])])
            = mkResponse 201 (PDict [("message", PStr "Workers added successfully");
                                     ("workers", PList (map PDict new))]))
        \/ ((length new < length [cid_item])%nat
            /\ status (mkResponse 201 (PDict [("message", PStr "Workers added successfully");
                                               ("workers", PList [PDict (worker_row 3 "Cid" "999")])])) = 500)).
Proof.
  apply (Routes.add_worker_created false sample_store sample_workers (table_columns workers_table));
    [reflexivity | reflexivity | by_eval
    | constructor; [eexists; split; reflexivity | constructor] | vm_compute; reflexivity].
Defined.

Lemma add_worker_partial_witness :
  let s' := fst (Routes.add_worker false (JsonBody (PList [cid_item; PDict [("name", PStr "Dan")]])) sample_store) in
  exists new, contents s' "workers" = Some (sample_workers ++ new)
    /\ ((length new = length [cid_item] /\ Routes.missing_fields = Routes.missing_fields)
        \/ ((length new < length [cid_item])%nat /\ status Routes.missing_fields = 500)).
Proof.
  apply (Routes.add_worker_partial false sample_store sample_workers (table_columns workers_table)
           [cid_item] [("name", PStr "Dan")] []);
    [reflexivity | reflexivity | by_eval
    | constructor; [eexists; split; reflexivity | constructor] | reflexivity | vm_compute; reflexivity].
Defined.

Lemma delete_worker_absent_witness :
  Routes.delete_worker no_str 9999 sample_store
  = (sample_store, Ok (mkResponse 404 (error_body "Worker not found"))).
Proof.
  apply (Routes.delete_worker_absent no_str sample_store 9999 sample_workers (table_columns workers_table));
    [reflexivity | reflexivity | by_eval | reflexivity | vm_compute; reflexivity].
Defined.

Lemma delete_worker_present_witness :
  exists s' keep, partition_rows (id_filter 1) sample_workers = Ok ([worker_row 1 "Ana" "555"], keep)
    /\ contents s' "workers" = Some keep
    /\ Forall (fun r => all_filters (id_filter 1) r = Ok false) keep
    /\ (forall t', t' <> "workers" -> contents s' t' = contents sample_store t')
    /\ Routes.delete_worker no_str 1 sample_store
       = (s', Ok (mkResponse 200 (PDict [("message", PStr "Worker Ana removed successfully")]))).
Proof.
  apply (Routes.delete_worker_present no_str sample_store 1 sample_workers (table_columns workers_table)
           (worker_row 1 "Ana" "555") [] "Ana");
    [reflexivity | reflexivity | by_eval | reflexivity | vm_compute; reflexivity | reflexivity].
Defined.

(** [2^63], one past the largest [bigint]. *)
Lemma delete_worker_out_of_range_witness :
  in_bigint 9223372036854775808 = false
  /\ Routes.delete_worker no_str 9223372036854775808 sample_store
     = (sample_store, Ok (mkResponse 500 (error_body
          ("{'code': '22003', 'details': None, 'hint': None, 'message': 'value " ++ dquote
           ++ "9223372036854775808" ++ dquote ++ " is out of range for type bigint'}")))).
Proof.
  split; [reflexivity|].
  exact (Routes.delete_worker_out_of_range no_str sample_store 9223372036854775808
           (table_columns workers_table) eq_refl ltac:(by_eval) eq_refl).
Defined.

Lemma get_workers_all_witness :
  Routes.get_workers sample_store
  = (sample_store, Ok (mkResponse 200 (PList (map PDict sample_workers)))).
Proof.
  apply (Routes.get_workers_all sample_store sample_workers (table_columns workers_table)); reflexivity.
Defined.

Lemma add_worker_invalid_first_witness :
  Routes.valid_item (PDict [("number", PStr "555")]) = false
  /\ Routes.add_worker false (JsonBody (PList [PDict [("number", PStr "555")]])) empty_store
     = (empty_store, Ok Routes.missing_fields).
Proof. split; [reflexivity|]. apply Routes.add_worker_invalid_first. reflexivity. Defined.

Lemma add_worker_non_dict_witness :
  Routes.add_worker false (JsonBody (PList [PStr "Ana"])) empty_store
  = (empty_store, Ok (mkResponse 500 (error_body "'str' object has no attribute 'get'"))).
Proof. apply Routes.add_worker_non_dict. by intros d. Defined.

(** The example of the specification, evaluated: on an empty [workers]
    table, [POST /api/workers] with [[{"name": "Ana", "number": "555"}]]
    answers [201] with the one record created, [id] 1. *)
Example add_worker_spec_example :
  snd (Routes.add_worker false (JsonBody (PList [PDict [("name", PStr "Ana"); ("number", PStr "555")]])) empty_store)
  = Ok (mkResponse 201 (PDict [("message", PStr "Workers added successfully");
                               ("workers", PList [PDict (worker_row 1 "Ana" "555")])])).
Proof. vm_compute. reflexivity. Qed.
