(* ===== verification/Server.v ===== *)
(** * The server as a state machine

    The Flask application of [route9_supabase.py] answers a sequence of
    requests, each handled by one of the routes of [Handlers.v] against
    the one shared store.  This file makes that a transition system: a
    [request] is one of the three routes with its arguments, [handle]
    dispatches it, and [reachable] holds of every store a sequence of
    requests can produce from [Store.empty_store].

    - [preserves P m]: the computation [m] keeps the state property [P];
      the lemmas show it composes through [st_bind], [st_try] and the
      [SupabaseHelper] methods, so that every handler keeps every property
      that each query it sends keeps ([route_query]: selects, deletes,
      and inserts of an object without [id]; no route updates).
    - [reachable_store_wf]: by rule induction, in every reachable store no
      two rows of a table share an [id] (the invariant [Store.store_wf],
      which every query keeps, whatever the routes send).
    - [worker_spec]: an abstract specification of the [workers] routes,
      over the rows of the [workers] table only, and [handle_refines]: every
      handled request is a step of it; [handle_post_bounds]: a [POST]
      appends at most one row per item. *)

From S2P Require Import Prelude PyValue IsoFormat Like Backend Store Repository Handlers.

Open Scope string_scope.
Open Scope list_scope.
Open Scope Z_scope.

(** ** Computations that keep a property of the state *)

Definition preserves {S A} (P : S -> Prop) (m : st S A) : Prop :=
  forall s, P s -> P (fst (m s)).

Create HintDb preserve discriminated.

Section Preserves.
Context {S : Type} (P : S -> Prop).

Lemma preserves_ret {A} (a : A) : preserves P (st_ret a).
Proof. by intros s Hs. Qed.

Lemma preserves_lift {A} (r : res A) : preserves P (st_lift r).
Proof. by intros s Hs. Qed.

Lemma preserves_bind {A B} (m : st S A) (f : A -> st S B) :
  preserves P m -> (forall a, preserves P (f a)) -> preserves P (st_bind m f).
Proof.
  intros Hm Hf s Hs. unfold st_bind. specialize (Hm s Hs).
  destruct (m s) as [s1 [a|e]]; [by apply Hf|done].
Qed.

Lemma preserves_try {A} (m : st S A) (h : py_exc -> st S A) :
  preserves P m -> (forall e, preserves P (h e)) -> preserves P (st_try m h).
Proof.
  intros Hm Hh s Hs. unfold st_try. specialize (Hm s Hs).
  destruct (m s) as [s1 [a|e]]; [done|by apply Hh].
Qed.

Lemma preserves_if {A} (b : bool) (m1 m2 : st S A) :
  preserves P m1 -> preserves P m2 -> preserves P (if b then m1 else m2).
Proof. by destruct b. Qed.

End Preserves.

#[export] Hint Resolve preserves_ret preserves_lift preserves_bind preserves_try preserves_if : preserve.

(** Unfold a computation built from the monad's combinators into its
    parts, and close the parts from the hints. *)
Ltac solve_preserves :=
  repeat match goal with
         | |- preserves _ (st_bind _ _) => apply preserves_bind; [|intros ?]
         | |- preserves _ (st_try _ _) => apply preserves_try; [|intros ?]
         | |- preserves _ (if _ then _ else _) => apply preserves_if
         | |- preserves _ (match ?x with _ => _ end) => destruct x
         | |- _ => solve [eauto with preserve]
         end.

(** The queries the routes send: selects, deletes, and inserts of one
    object that has no [id] (the store assigns it).  No route updates. *)
Definition route_query (q : query) : Prop :=
  match q_action q with
  | ASelect _ | ADelete => True
  | AInsert (PDict d) => dict_lookup d "id" = None
  | _ => False
  end.

Lemma add_eqs_action q f : q_action (add_eqs q f) = q_action q.
Proof. unfold add_eqs. revert q. induction f as [|kv f IH]; intros q; [done|]. simpl. by rewrite IH. Qed.

(** [create] formats the values, not the keys: a key absent from the
    data is absent from what it inserts. *)
Lemma format_data_lookup_None d k :
  dict_lookup d k = None -> dict_lookup (format_data d) k = None.
Proof.
  unfold format_data.
  cut (forall acc, dict_lookup acc k = None -> dict_lookup d k = None ->
       dict_lookup (fold_left format_item d acc) k = None); [intros Hc Hd; by apply Hc|].
  induction d as [|[k' v] d IH]; intros acc Hacc Hd; [done|]. simpl in Hd.
  destruct (String.eqb_spec k' k) as [|Hne]; [discriminate|].
  apply IH; [|done]. unfold format_item. simpl.
  destruct (is_date_like v); by rewrite dict_lookup_set_neq.
Qed.

Section Handlers.
Context {S : Type} `{Backend S} (P : S -> Prop).
(** Every request the routes send keeps [P]. *)
Hypothesis execute_preserves : forall q, route_query q -> preserves P (execute q).

Local Hint Extern 1 (preserves P (execute _)) =>
  apply execute_preserves; unfold route_query; rewrite ?add_eqs_action; simpl; done : preserve.

Lemma get_all_preserves t f : preserves P (get_all t f).
Proof.
  unfold get_all. destruct f as [f|]; [destruct (truthy (PDict f))|]; solve_preserves.
Qed.

Lemma get_by_id_preserves t i : preserves P (get_by_id t i).
Proof. unfold get_by_id. solve_preserves. Qed.

Lemma create_preserves t d : dict_lookup d "id" = None -> preserves P (create t d).
Proof.
  intros Hd. unfold create. apply preserves_bind; [|intros; apply preserves_ret].
  apply execute_preserves. by apply format_data_lookup_None.
Qed.

Lemma delete_preserves t i : preserves P (delete t i).
Proof. unfold delete. solve_preserves. Qed.

Local Hint Resolve get_all_preserves get_by_id_preserves create_preserves delete_preserves : preserve.

Local Hint Extern 1 (dict_lookup _ "id" = None) => reflexivity : preserve.

Lemma add_worker_loop_preserves items acc : preserves P (Routes.add_worker_loop items acc).
Proof.
  revert acc. induction items as [|w items IH]; intros acc; simpl; solve_preserves.
Qed.

Local Hint Resolve add_worker_loop_preserves : preserve.

Lemma get_workers_preserves : preserves P Routes.get_workers.
Proof. unfold Routes.get_workers, Routes.server_error. solve_preserves. Qed.

Lemma add_worker_preserves debug body : preserves P (Routes.add_worker debug body).
Proof. unfold Routes.add_worker, Routes.server_error. solve_preserves. Qed.

Lemma delete_worker_preserves str_other i : preserves P (Routes.delete_worker str_other i).
Proof. unfold Routes.delete_worker, Routes.server_error. solve_preserves. Qed.

End Handlers.

(** ** Requests and reachable stores *)

(** The routes of [route9_supabase.py], with the request body or the
    [<int:id>] of the URL. *)
Inductive request :=
| GetWorkers
| PostWorkers (body : req_body)
| DeleteWorker (id : Z).

Section Server.
Context {S : Type} `{Backend S} (str_other : pyval -> string) (debug : bool).

(** Flask's dispatch of a request to its route. *)
Definition handle (rq : request) : st S response :=
  match rq with
  | GetWorkers => Routes.get_workers
  | PostWorkers body => Routes.add_worker debug body
  | DeleteWorker i => Routes.delete_worker str_other i
  end.

Lemma handle_preserves (P : S -> Prop) rq :
  (forall q, route_query q -> preserves P (execute q)) -> preserves P (handle rq).
Proof.
  intros Hq. destruct rq; simpl;
    [apply get_workers_preserves | apply add_worker_preserves | apply delete_worker_preserves]; done.
Qed.

End Server.

(** The stores the server can reach from an empty database, one request
    at a time. *)
Inductive reachable (str_other : pyval -> string) (debug : bool) : store -> Prop :=
| reach_init : reachable str_other debug empty_store
| reach_step s rq : reachable str_other debug s -> reachable str_other debug (fst (handle str_other debug rq s)).

Lemma empty_store_wf : store_wf empty_store.
Proof.
  unfold store_wf, empty_store. simpl.
  repeat apply map_Forall_insert_2; try apply map_Forall_empty; apply NoDup_nil_2.
Qed.

(** The store's own invariant holds of every store the server reaches:
    no two rows of a table share an [id].  Every query keeps it, whatever
    the routes send, since the store checks each new [id]; the invariant
    that depends on what the routes send is [Lifecycle.workers_ids]. *)
Theorem reachable_store_wf str_other debug s :
  reachable str_other debug s ->
  forall t tb, tables s !! t = Some tb -> NoDup (omap row_id (tbl_rows tb)).
Proof.
  intros Hr. change (store_wf s). induction Hr as [|s rq _ IH].
  - exact empty_store_wf.
  - apply (handle_preserves str_other debug store_wf rq); [|done].
    intros q _ s' Hs'. by apply store_execute_wf.
Qed.

(** ** The server at a concrete run *)

Definition post_ana : request :=
  PostWorkers (JsonBody (PList [PDict [("name", PStr "Ana"); ("number", PStr "555")]])).

Definition post_bob : request :=
  PostWorkers (JsonBody (PList [PDict [("name", PStr "Bob"); ("number", PStr "777")]])).

(** ** An abstract specification of the worker routes

    What a client may observe of the [workers] table: a step
    [worker_spec ws rq code ws'] says that the request [rq], on a table
    holding the rows [ws], may be answered with the status [code] and
    leave the rows [ws'].  It says nothing of the queries, the loop or the
    exceptions that produce it. *)
Inductive worker_spec : list dict -> request -> Z -> list dict -> Prop :=
| spec_get ws : worker_spec ws GetWorkers 200 ws
| spec_post_bad_body ws body :
    (forall v, body <> JsonBody v) -> worker_spec ws (PostWorkers body) 500 ws
| spec_post_not_list ws v :
    (forall items, v <> PList items) -> worker_spec ws (PostWorkers (JsonBody v)) 400 ws
| spec_post_created ws items new :
    Forall2 Routes.holds_item items new ->
    worker_spec ws (PostWorkers (JsonBody (PList items))) 201 (ws ++ new)
| spec_post_invalid ws items new d :
    Forall2 Routes.holds_item (take (length new) items) new ->
    nth_error items (length new) = Some (PDict d) -> Routes.valid_item (PDict d) = false ->
    worker_spec ws (PostWorkers (JsonBody (PList items))) 400 (ws ++ new)
| spec_post_failed ws items new :
    Forall2 Routes.holds_item (take (length new) items) new -> (length new < length items)%nat ->
    worker_spec ws (PostWorkers (JsonBody (PList items))) 500 (ws ++ new)
| spec_delete_absent ws i :
    filter_rows (id_filter i) ws = Ok [] -> worker_spec ws (DeleteWorker i) 404 ws
| spec_delete ws i hit keep code :
    partition_rows (id_filter i) ws = Ok (hit, keep) -> hit <> [] -> code = 200 \/ code = 500 ->
    worker_spec ws (DeleteWorker i) code keep
| spec_delete_error ws i e :
    filter_rows (id_filter i) ws = Err e -> worker_spec ws (DeleteWorker i) 500 ws
| spec_delete_out_of_range ws i :
    in_bigint i = false -> worker_spec ws (DeleteWorker i) 500 ws.

(** The number of items of a [POST] body: the length of its JSON array. *)
Definition post_items (body : req_body) : nat :=
  match body with JsonBody (PList items) => length items | _ => 0%nat end.

(** A [POST] step keeps the rows and appends at most one per item. *)
Lemma worker_spec_post ws body c ws' :
  worker_spec ws (PostWorkers body) c ws' -> exists new, ws' = ws ++ new /\ (length new <= post_items body)%nat.
Proof.
  intros Hs. inversion Hs; subst; simpl;
    try (exists []; rewrite app_nil_r; split; [done|simpl; lia]);
    (eexists; split; [reflexivity|]);
    match goal with H : Forall2 _ _ _ |- _ => apply Forall2_length in H; rewrite ?length_take in H end;
    lia.
Qed.

Section Refinement.
Context {S : Type} `{BackendLaws S} (str_other : pyval -> string) (debug : bool).

(** A row that passes [id = i] is not empty. *)
Lemma id_filter_row_nonempty i w ws rows :
  filter_rows (id_filter i) rows = Ok (w :: ws) -> w <> [].
Proof.
  intros Hf ->. apply filter_rows_Forall in Hf. apply Forall_cons in Hf as [Hp _].
  discriminate Hp.
Qed.

Lemma handle_get s ws cols s' resp :
  contents s "workers" = Some ws -> columns s "workers" = Some cols ->
  handle str_other debug GetWorkers s = (s', Ok resp) -> s' = s /\ status resp = 200.
Proof.
  intros H1 H2 Hh. unfold handle, Routes.get_workers, st_try, st_bind in Hh.
  rewrite (get_all_exec s "workers" None ws cols), filter_rows_nil in Hh by done.
  by injection Hh as <- <-.
Qed.

Lemma handle_post s ws cols body s' resp :
  contents s "workers" = Some ws -> columns s "workers" = Some cols -> "id" ∈ cols ->
  handle str_other debug (PostWorkers body) s = (s', Ok resp) ->
  exists ws', contents s' "workers" = Some ws'
    /\ (forall t, t <> "workers" -> contents s' t = contents s t)
    /\ worker_spec ws (PostWorkers body) (status resp) ws'.
Proof.
  intros H1 H2 Hid Hh. unfold handle in Hh.
  destruct body as [v| |];
    try (match type of Hh with Routes.add_worker _ ?b _ = _ =>
           rewrite (Routes.add_worker_json_err debug b _ s eq_refl) in Hh end; injection Hh as <- <-;
         exists ws; split; [done|]; split; [done|]; apply spec_post_bad_body; by intros ? [=]).
  destruct v as [| | | | | | |items|];
    try (unfold Routes.add_worker, st_try, st_bind, st_lift in Hh; cbn [get_json] in Hh;
         injection Hh as <- <-; exists ws; split; [done|]; split; [done|];
         by apply spec_post_not_list).
  rewrite Routes.add_worker_list in Hh. injection Hh as <- <-.
  destruct (Routes.add_worker_loop items [] s) as [s2 r] eqn:El. simpl.
  destruct (Routes.add_worker_loop_spec items [] s ws cols s2 r H1 H2 Hid El)
    as (new & Hc & Ho & Hf & [[-> Hn]|[[-> (d & Hd & Hv)]|(e & -> & Hn)]]);
    exists (ws ++ new); (split; [done|]); (split; [done|]).
  - rewrite take_ge in Hf by lia. by apply spec_post_created.
  - by eapply spec_post_invalid.
  - by apply spec_post_failed.
Qed.

Lemma handle_delete s ws cols i s' resp :
  contents s "workers" = Some ws -> columns s "workers" = Some cols -> "id" ∈ cols ->
  handle str_other debug (DeleteWorker i) s = (s', Ok resp) ->
  exists ws', contents s' "workers" = Some ws'
    /\ (forall t, t <> "workers" -> contents s' t = contents s t)
    /\ worker_spec ws (DeleteWorker i) (status resp) ws'.
Proof.
  intros H1 H2 Hid Hh. simpl in Hh.
  destruct (in_bigint i) eqn:Hi.
  2:{ unfold Routes.delete_worker, st_try, st_bind in Hh.
      rewrite (Routes.get_by_id_range s "workers" i cols) in Hh by done.
      injection Hh as <- <-. exists ws. split; [done|]. split; [done|].
      by apply spec_delete_out_of_range. }
  destruct (filter_rows (id_filter i) ws) as [[|w ws0]|e] eqn:Ef.
  - unfold Routes.delete_worker, st_try, st_bind in Hh.
    rewrite (get_by_id_exec s "workers" i ws cols), Ef in Hh by done.
    injection Hh as <- <-. exists ws. split; [done|]. split; [done|]. by apply spec_delete_absent.
  - destruct (Routes.delete_worker_found str_other s i ws cols w ws0 H1 H2 Hid Hi Ef
                (id_filter_row_nonempty _ _ _ _ Ef)) as (s1 & keep & Hc & Hp & _ & Ho & Hd).
    rewrite Hd in Hh. injection Hh as <- <-. exists keep. split; [done|]. split; [done|].
    apply (spec_delete _ _ (w :: ws0)); [done|done|].
    destruct (dict_index w "name"); [left|right]; reflexivity.
  - unfold Routes.delete_worker, st_try, st_bind in Hh.
    rewrite (get_by_id_exec s "workers" i ws cols), Ef in Hh by done.
    injection Hh as <- <-. exists ws. split; [done|]. split; [done|]. by eapply spec_delete_error.
Qed.

(** C3: refinement.  On any store satisfying the interface's laws,
    every request the server handles is a step of the abstract
    specification [worker_spec] on the rows of [workers], with the status
    code it answers, and no other table changes. *)
Theorem handle_refines s ws cols rq s' resp :
  contents s "workers" = Some ws -> columns s "workers" = Some cols -> "id" ∈ cols ->
  handle str_other debug rq s = (s', Ok resp) ->
  exists ws', contents s' "workers" = Some ws'
    /\ (forall t, t <> "workers" -> contents s' t = contents s t)
    /\ worker_spec ws rq (status resp) ws'.
Proof.
  intros H1 H2 Hid Hh. destruct rq as [|body|i].
  - destruct (handle_get s ws cols s' resp H1 H2 Hh) as [-> ->].
    exists ws. split; [done|]. split; [done|]. constructor.
  - exact (handle_post s ws cols body s' resp H1 H2 Hid Hh).
  - exact (handle_delete s ws cols i s' resp H1 H2 Hid Hh).
Qed.

(** A body wrapped in [try ... except Exception] with [server_error]
    returns a response. *)
Lemma st_try_server_error (m : st S response) s :
  exists resp, snd (st_try m Routes.server_error s) = Ok resp.
Proof. unfold st_try. destruct (m s) as [s1 [r|e]]; eauto. Qed.

(** The server always answers: whatever the request and the state of
    the store, [handle] returns a response, never an exception (every
    route catches [Exception] and answers 500); [Service] shows the shape
    of that response. *)
Theorem handle_answers rq s : exists resp, snd (handle str_other debug rq s) = Ok resp.
Proof. destruct rq; apply st_try_server_error. Qed.

(** C39: bounds of a [POST].  Whatever its outcome (201, 400 after
    partial inserts, 500), a [POST /api/workers] keeps every existing
    row of [workers], in order, and appends at most one row per item of
    the body's array (none for a body that is not an array). *)
Theorem handle_post_bounds s ws cols body s' resp :
  contents s "workers" = Some ws -> columns s "workers" = Some cols -> "id" ∈ cols ->
  handle str_other debug (PostWorkers body) s = (s', Ok resp) ->
  exists new, contents s' "workers" = Some (ws ++ new) /\ (length new <= post_items body)%nat.
Proof.
  intros H1 H2 Hid Hh.
  destruct (handle_post s ws cols body s' resp H1 H2 Hid Hh) as (ws' & Hc & _ & Hs).
  destruct (worker_spec_post _ _ _ _ Hs) as (new & -> & Hl). eauto.
Qed.

End Refinement.

Lemma handle_refines_witness :
  let s' := fst (handle no_str true post_ana sample_store) in
  exists ws', contents s' "workers" = Some ws'
    /\ (forall t, t <> "workers" -> contents s' t = contents sample_store t)
    /\ worker_spec sample_workers post_ana
         (status (mkResponse 201 (PDict [("message", PStr "Workers added successfully");
                                         ("workers", PList [PDict (worker_row 3 "Ana" "555")])])))
         ws'.
Proof.
  apply (handle_refines no_str true sample_store sample_workers (table_columns workers_table));
    [reflexivity | reflexivity | by_eval | vm_compute; reflexivity].
Defined.

Lemma handle_post_bounds_witness :
  let s' := fst (handle no_str true post_ana sample_store) in
  exists new, contents s' "workers" = Some (sample_workers ++ new)
    /\ (length new <= post_items (JsonBody (PList [PDict [("name", PStr "Ana"); ("number", PStr "555")]])))%nat.
Proof.
  apply (handle_post_bounds no_str true sample_store sample_workers (table_columns workers_table) _ _
           (mkResponse 201 (PDict [("message", PStr "Workers added successfully");
                                   ("workers", PList [PDict (worker_row 3 "Ana" "555")])])));
    [reflexivity | reflexivity | by_eval | vm_compute; reflexivity].
Defined.

(** ** Every worker has a name and a number

    The specification requires [name] and [number] of every worker.  The
    property is shown of the abstract steps [worker_spec], then carried to
    every reachable store by the refinement lemmas: a second invariant,
    this one of the [workers] table only. *)

Definition named_worker (r : dict) : Prop :=
  truthy (dict_get r "name") = true /\ truthy (dict_get r "number") = true.

(** A date's ISO text has at least ten characters, so it is truthy; the
    conversion computes it from the first digits of [fixed_digits]. *)
Lemma format_date_truthy v : truthy v = true -> truthy (format_date v) = true.
Proof. intros Hv. by destruct v. Qed.

Lemma format_data_number d :
  dict_lookup (format_data (Routes.item_dict d)) "number" = Some (format_date (dict_get d "number")).
Proof. rewrite format_data_map by (unfold dict_wf; simpl; by apply (bool_decide_unpack _)). reflexivity. Qed.

Lemma holds_item_named w r : Routes.holds_item w r -> named_worker r.
Proof.
  intros (d & -> & Hv & Hr). simpl in Hv. apply andb_prop in Hv as [Hn Hm].
  unfold named_worker, dict_get.
  rewrite (Hr _ _ (Routes.format_data_name d)), (Hr _ _ (format_data_number d)).
  split; by apply format_date_truthy.
Qed.

Lemma Forall2_holds_named xs ys : Forall2 Routes.holds_item xs ys -> Forall named_worker ys.
Proof. induction 1; constructor; [by eapply holds_item_named|done]. Qed.

(** Every step of the specification keeps every worker named. *)
Lemma worker_spec_named ws rq code ws' :
  worker_spec ws rq code ws' -> Forall named_worker ws -> Forall named_worker ws'.
Proof.
  intros Hs Hw. destruct Hs as [| | | ws items new Hf | ws items new d Hf _ _ | ws items new Hf _
                               | | ws i hit keep code Hp _ _ | |]; try done;
    try (apply Forall_app; split; [done|]; by eapply Forall2_holds_named).
  apply Forall_forall. intros r Hr. rewrite Forall_forall in Hw.
  apply Hw. by eapply partition_rows_keep_in.
Qed.

(** A request never changes the columns of a table. *)
Lemma store_execute_columns q s t : columns (fst (store_execute q s)) t = columns s t.
Proof.
  unfold store_execute. destruct (tables s !! q_table q) as [tb|] eqn:Etb; [|done].
  destruct (check_filters _ _); [|done].
  destruct (q_action q) as [sel|body|d|]; [done| | |].
  - destruct (insert_table _ tb body) as [[o tb']|] eqn:Ei.
    2:{ cbn [fst]. destruct (insert_failed_tables s _ tb body Etb) as (n & _ & Ht).
        simpl. rewrite Ht, lookup_insert. case_decide; subst; [by rewrite Etb|done]. }
    apply (set_table_columns _ _ _ tb); [done|].
    unfold insert_table in Ei. destruct (json_unserializable body); [discriminate|]. simpl in Ei.
    destruct (body_objects body); [|discriminate]. simpl in Ei.
    destruct (insert_all _ _ _ _ _) as [[? ?]|]; [|discriminate]. by injection Ei as _ <-.
  - destruct (update_table _ tb _ d) as [[o tb']|] eqn:Eu; [|done].
    apply (set_table_columns _ _ _ tb); [done|].
    by destruct (update_table_ok _ _ _ _ _ _ Eu) as (rows' & _ & ->).
  - destruct (partition_rows _ _) as [[hit keep]|]; [|done].
    by apply (set_table_columns _ _ _ tb).
Qed.

Lemma handle_step str_other debug s ws cols rq s' resp :
  contents s "workers" = Some ws -> columns s "workers" = Some cols -> "id" ∈ cols ->
  handle str_other debug rq s = (s', Ok resp) ->
  exists ws', contents s' "workers" = Some ws' /\ worker_spec ws rq (status resp) ws'.
Proof.
  intros H1 H2 Hid Hh. destruct rq as [|body|i].
  - destruct (handle_get str_other debug s ws cols s' resp H1 H2 Hh) as [-> ->]. exists ws. split; [done|constructor].
  - destruct (handle_post str_other debug s ws cols body s' resp H1 H2 Hid Hh) as (ws' & ? & _ & ?). eauto.
  - destruct (handle_delete str_other debug s ws cols i s' resp H1 H2 Hid Hh) as (ws' & ? & _ & ?). eauto.
Qed.

(** C33: after any sequence of requests from an empty database, every
    row of [workers] has a truthy [name] and a truthy [number], as the
    specification requires of a worker. *)
Theorem reachable_workers_named str_other debug s :
  reachable str_other debug s ->
  exists ws, contents s "workers" = Some ws /\ Forall named_worker ws.
Proof.
  intros Hr.
  assert (Hcols : forall s, reachable str_other debug s -> columns s "workers" = Some (table_columns workers_table)).
  { induction 1 as [|s0 rq _ IH]; [reflexivity|].
    rewrite <- IH. apply (handle_preserves str_other debug (fun s => columns s "workers" = columns s0 "workers")).
    - intros q _ s1 Hs1. cbv beta. rewrite <- Hs1. exact (store_execute_columns q s1 "workers").
    - done. }
  induction Hr as [|s rq Hr IH].
  - exists []. split; [reflexivity|constructor].
  - destruct IH as (ws & Hc & Hn).
    destruct (handle str_other debug rq s) as [s' r] eqn:Eh.
    assert (Hresp : exists resp, snd (handle str_other debug rq s) = Ok resp)
      by (destruct rq; apply st_try_server_error).
    destruct Hresp as [resp Hresp]. rewrite Eh in Hresp. simpl in Hresp. subst r.
    destruct (handle_step str_other debug s ws _ rq s' resp Hc (Hcols s Hr) ltac:(by_eval) Eh) as (ws' & Hc' & Hs).
    exists ws'. split; [done|]. by eapply worker_spec_named.
Qed.

Lemma reachable_workers_named_witness :
  let s := fst (handle no_str true (DeleteWorker 1) (fst (handle no_str true post_bob
             (fst (handle no_str true post_ana empty_store))))) in
  exists ws, contents s "workers" = Some ws /\ Forall named_worker ws.
Proof.
  apply (reachable_workers_named no_str true).
  apply (reach_step _ _ _ (DeleteWorker 1)), (reach_step _ _ _ post_bob), (reach_step _ _ _ post_ana), reach_init.
Defined.
