(* ===== verification/Lifecycle.v ===== *)
(** * The server's life: startup and runs of requests

    [route9_supabase.py] imports [supabase_config] (line 3), whose
    module-level code ([Config.module_init]) builds the shared client, and
    serves with [app.run(debug=True)] (lines 88-89).  [serve] composes
    the two: the import either raises, and no route is ever registered,
    or the server answers the requests in order ([run]), each with
    [Server.handle] on the one shared store.

    - [serve_unset_url]: without [SUPABASE_URL] the server never starts.
    - [workers_ids]: [workers] keeps its schema and every row of it holds
      an integer [id] its sequence has given out (non-negative, below the
      sequence's next value), kept by every query the routes send
      ([store_execute_workers_ids]: no route sends an [id]) and so by every
      run from an empty database ([reachable_ids_below_seq]).
    - [reachable_post_created]: on a reachable store, a [POST] of valid
      items answers [201] with every item created ([add_worker_loop_ok]:
      the sequence's fresh [id]s never collide with the stored ones).
    - [reachable_workers_deletable]: liveness of [DELETE]: from any
      reachable store, the [DELETE /api/workers/<id>] requests for the ids
      the table holds (each one a URL the [<int:id>] converter accepts)
      remove every worker. *)

From S2P Require Import Prelude Config PyValue IsoFormat Like Backend Store Repository Handlers Server.

Open Scope string_scope.
Open Scope list_scope.
Open Scope Z_scope.

(** ** Startup and runs *)

Section Run.
Context (str_other : pyval -> string) (debug : bool).

(** The server answering [rqs] one after the other: the answers, and
    the store after the last one. *)
Fixpoint run (rqs : list request) (s : store) : list (res response) * store :=
  match rqs with
  | [] => ([], s)
  | rq :: rest =>
      let '(s1, r) := handle str_other debug rq s in
      let '(rs, s2) := run rest s1 in (r :: rs, s2)
  end.

Lemma run_cons rq rest s :
  snd (run (rq :: rest) s) = snd (run rest (fst (handle str_other debug rq s))).
Proof. simpl. destruct (handle str_other debug rq s) as [s1 r]. cbn. by destruct (run rest s1) as [rs s2]. Qed.

Lemma run_reachable rqs s :
  reachable str_other debug s -> reachable str_other debug (snd (run rqs s)).
Proof.
  revert s. induction rqs as [|rq rqs IH]; intros s Hs; [done|].
  rewrite run_cons. apply IH. by constructor.
Qed.

End Run.

(** [python route9_supabase.py]: the import of [supabase_config] runs
    its module-level code; when it succeeds, [app.run(debug=True)]
    answers the requests on the store [s0]. *)
Definition serve (key_ok : string -> bool) (str_other : pyval -> string) (env : environ)
    (rqs : list request) (s0 : store) : res (list (res response) * store) :=
  let? _ := module_init key_ok env in Ok (run str_other true rqs s0).

(** ** The ids of [workers] *)

(** The table [workers] keeps its schema, and every row holds an
    integer [id] that its sequence has already given out: non-negative,
    a [bigint], and below the sequence's next value. *)
Definition workers_ids (s : store) : Prop :=
  exists tb, tables s !! "workers" = Some tb /\ tbl_columns tb = tbl_columns workers_table
    /\ 0 <= tbl_next_id tb
    /\ Forall (fun r => exists i, row_id r = Some i /\ 0 <= i < tbl_next_id tb /\ i <= bigint_max) (tbl_rows tb).

Lemma workers_schema_id tb : tbl_columns tb = tbl_columns workers_table -> "id" ∈ table_columns tb.
Proof. unfold table_columns. intros ->. by_eval. Qed.

Lemma dict_lookup_None_keys d k : dict_lookup d k = None -> k ∉ dict_keys d.
Proof.
  induction d as [|[k' v] d IH]; simpl; [intros _; apply not_elem_of_nil|].
  destruct (String.eqb_spec k' k); [discriminate|]. intros Hd.
  rewrite not_elem_of_cons. split; [congruence|by apply IH].
Qed.

(** An object without [id] inserted into a table with an [id] column
    gets the next value of the sequence, which then advances. *)
Lemma build_row_next_id t tb existing next d r next' :
  build_row t tb existing next d = Ok (r, next') ->
  dict_lookup d "id" = None -> "id" ∈ table_columns tb ->
  row_id r = Some next /\ next' = next + 1 /\ next <= bigint_max.
Proof.
  intros Hb Hd Hid. destruct (build_row_inv _ _ _ _ _ _ _ Hb) as (_ & -> & _ & -> & Hmax).
  cbv zeta in Hmax |- *.
  rewrite bool_decide_eq_true_2, bool_decide_eq_false_2 in Hmax |- * by (done || by apply dict_lookup_None_keys).
  unfold row_id. rewrite dict_lookup_map by done. unfold insert_cell. rewrite Hd. simpl.
  split; [done|]. split; [done|]. by apply Hmax.
Qed.

Lemma set_table_workers s t tb :
  t <> "workers" -> tables (set_table s t tb) !! "workers" = tables s !! "workers".
Proof. intros Ht. simpl. by rewrite lookup_insert_ne. Qed.

(** A query the routes send keeps the ids of [workers]. *)
Lemma store_execute_workers_ids q s :
  route_query q -> workers_ids s -> workers_ids (fst (store_execute q s)).
Proof.
  intros Hq Hw. unfold route_query in Hq. unfold store_execute.
  destruct (tables s !! q_table q) as [tb|] eqn:Etb; [|done].
  destruct (check_filters _ _); [|done].
  destruct (q_action q) as [sel|body|d|]; [done| |done|].
  - destruct body as [| | | | | | | |d]; try done.
    destruct (insert_table (q_table q) tb (PDict d)) as [[o tb']|] eqn:Ei.
    2:{ cbn [fst]. destruct (insert_failed_tables s _ tb (PDict d) Etb) as (n & Hn' & Ht).
        destruct Hw as (tb0 & Htb0 & Hcol & Hn & Hr). unfold workers_ids. rewrite Ht.
        destruct (decide (q_table q = "workers")) as [E|E].
        - rewrite E in Etb |- *. rewrite Etb in Htb0. injection Htb0 as <-.
          eexists. rewrite lookup_insert_eq. split; [done|]. simpl. split; [done|]. split; [lia|].
          eapply Forall_impl; [exact Hr|]. intros r (i & Hi & Hb & Hm). exists i. split; [done|lia].
        - exists tb0. rewrite lookup_insert_ne by congruence. eauto. }
    simpl.
    destruct (decide (q_table q = "workers")) as [Ht|Ht]; [|by unfold workers_ids; rewrite set_table_workers].
    destruct Hw as (tb0 & Htb0 & Hcol & Hn & Hr). rewrite <- Ht, Etb in Htb0. injection Htb0 as Heq. subst tb0.
    destruct (insert_table_dict _ _ _ _ _ Ei) as (r & next' & Hb & -> & ->).
    destruct (build_row_next_id _ _ _ _ _ _ _ Hb Hq (workers_schema_id _ Hcol)) as (Hri & -> & Hmax).
    exists (mkTable (tbl_columns tb) (tbl_fks tb) (tbl_rows tb ++ [r]) (tbl_next_id tb + 1)).
    simpl. rewrite Ht, lookup_insert_eq. repeat split; try done; [lia|].
    apply Forall_app. split; [|constructor; [exists (tbl_next_id tb); split; [done|lia]|constructor]].
    eapply Forall_impl; [exact Hr|]. intros r' (i & Hi & Hb'). exists i. split; [done|lia].
  - destruct (partition_rows _ _) as [[hit keep]|] eqn:Ep; [|done]. simpl.
    destruct (decide (q_table q = "workers")) as [Ht|Ht]; [|by unfold workers_ids; rewrite set_table_workers].
    destruct Hw as (tb0 & Htb0 & Hcol & Hn & Hr). rewrite <- Ht, Etb in Htb0. injection Htb0 as Heq. subst tb0.
    exists (with_rows tb keep). simpl. rewrite Ht, lookup_insert_eq. repeat split; try done.
    rewrite Forall_forall in Hr |- *. intros r Hk. apply Hr. by eapply partition_rows_keep_in.
Qed.

Lemma reachable_workers_ids str_other debug s : reachable str_other debug s -> workers_ids s.
Proof.
  induction 1 as [|s rq _ IH].
  - exists workers_table. split; [reflexivity|]. split; [done|]. split; [simpl; lia|constructor].
  - apply (handle_preserves str_other debug workers_ids rq); [|done].
    intros q Hq s' Hs'. by apply store_execute_workers_ids.
Qed.

(** ** Deleting the workers one id at a time *)

(** stdpp's [filter] on lists ([filter] alone is the [Backend] filter type). *)
Local Abbreviation lfilter := stdpp.base.filter.

(** On a row with an integer [id], the filter [id = i] is a test. *)
Lemma all_filters_id r i j :
  row_id r = Some j -> all_filters (id_filter i) r = Ok (bool_decide (j = i)).
Proof.
  unfold row_id. intros Hr. destruct (dict_lookup r "id") as [[]|] eqn:E; try discriminate.
  injection Hr as ->. simpl. unfold column_value. rewrite E. simpl.
  destruct (Z.compare_spec j i) as [->|Hlt|Hgt]; simpl.
  - by rewrite bool_decide_eq_true_2.
  - rewrite bool_decide_eq_false_2; [done|lia].
  - rewrite bool_decide_eq_false_2; [done|lia].
Qed.

Lemma partition_rows_id i ws :
  Forall (fun r => is_Some (row_id r)) ws ->
  partition_rows (id_filter i) ws
  = Ok (lfilter (fun r => row_id r = Some i) ws, lfilter (fun r => row_id r <> Some i) ws)
  /\ filter_rows (id_filter i) ws = Ok (lfilter (fun r => row_id r = Some i) ws).
Proof.
  induction 1 as [|r ws [j Hj] _ [IHp IHf]]; [done|]. cbn [partition_rows filter_rows].
  rewrite (all_filters_id r i j Hj), IHp, IHf. simpl. rewrite !filter_cons, Hj.
  destruct (decide (j = i)) as [->|Hne].
  - rewrite bool_decide_eq_true_2, decide_True, decide_False by (done || tauto). done.
  - rewrite bool_decide_eq_false_2, decide_False, decide_True by congruence. done.
Qed.

(** A [DELETE /api/workers/<i>] on a reachable store leaves exactly the
    rows of [workers] whose [id] is not [i]. *)
Lemma delete_step str_other debug s ws i :
  reachable str_other debug s -> contents s "workers" = Some ws ->
  contents (fst (handle str_other debug (DeleteWorker i) s)) "workers"
  = Some (lfilter (fun r => row_id r <> Some i) ws).
Proof.
  intros Hr Hc. destruct (reachable_workers_ids _ _ _ Hr) as (tb & Htb & Hcol & _ & Hids).
  pose proof (workers_schema_id _ Hcol) as Hid.
  simpl in Hc. rewrite Htb in Hc. injection Hc as <-.
  assert (Hs : Forall (fun r => is_Some (row_id r)) (tbl_rows tb)).
  { eapply Forall_impl; [exact Hids|]. intros r (j & -> & _). by eexists. }
  destruct (partition_rows_id i _ Hs) as [Hp Hf].
  destruct (handle str_other debug (DeleteWorker i) s) as [s' r] eqn:Eh.
  assert (Ha : exists resp, snd (handle str_other debug (DeleteWorker i) s) = Ok resp)
    by apply st_try_server_error.
  destruct Ha as [resp Hresp]. rewrite Eh in Hresp. simpl in Hresp. subst r.
  destruct (handle_delete str_other debug s (tbl_rows tb) (table_columns tb) i s' resp)
    as (ws' & Hc' & _ & Hspec); [by simpl; rewrite Htb | by simpl; rewrite Htb | done | done |].
  cbn [fst]. rewrite Hc'. f_equal.
  inversion Hspec; subst; [| |congruence|].
  - match goal with H : filter_rows _ _ = Ok [] |- _ => apply partition_rows_none in H end.
    congruence.
  - congruence.
  - symmetry. apply list_filter_all. eapply Forall_impl; [exact Hids|].
    intros r (j & -> & Hj0 & Hj) [= ->].
    match goal with H : in_bigint _ = false |- _ =>
      unfold in_bigint, bigint_max in H; apply andb_false_iff in H as [H|H]; apply Z.leb_gt in H end;
    unfold bigint_max in Hj; lia.
Qed.

Lemma run_deletes str_other debug ids s ws :
  reachable str_other debug s -> contents s "workers" = Some ws ->
  contents (snd (run str_other debug (map DeleteWorker ids) s)) "workers"
  = Some (lfilter (fun r => row_id r ∉ map Some ids) ws).
Proof.
  revert s ws. induction ids as [|i ids IH]; intros s ws Hr Hc; simpl map.
  - cbn [run snd]. rewrite Hc. f_equal. symmetry. apply list_filter_all, Forall_forall. intros r _. apply not_elem_of_nil.
  - rewrite run_cons, (IH _ (lfilter (fun r => row_id r <> Some i) ws)).
    + f_equal. rewrite list_filter_filter. apply list_filter_iff. intros r.
      cbn [map]. rewrite not_elem_of_cons. tauto.
    + by constructor.
    + by apply delete_step.
Qed.

(** ** Creating workers on a reachable store *)

Lemma json_dict_get d k : json_unserializable (PDict d) = None -> json_unserializable (dict_get d k) = None.
Proof.
  unfold dict_get. induction d as [|[k' v] d IH]; simpl; [done|].
  destruct (json_unserializable v) eqn:E; [discriminate|]. intros H.
  destruct (String.eqb k' k); [done|]. by apply IH.
Qed.

Lemma json_format_date v : json_unserializable v = None -> json_unserializable (format_date v) = None.
Proof. by destruct v. Qed.

Lemma item_dict_format d :
  format_data (Routes.item_dict d) = map (fun kv => (fst kv, format_date (snd kv))) (Routes.item_dict d).
Proof. apply format_data_map. unfold dict_wf. simpl. by apply (bool_decide_unpack _). Qed.

Lemma create_worker_ok s tb d :
  tables s !! "workers" = Some tb -> tbl_columns tb = tbl_columns workers_table ->
  Forall (fun r => exists i, row_id r = Some i /\ i < tbl_next_id tb) (tbl_rows tb) ->
  0 <= tbl_next_id tb <= bigint_max -> json_unserializable (PDict d) = None ->
  exists r, build_row "workers" tb (tbl_rows tb) (tbl_next_id tb) (format_data (Routes.item_dict d))
            = Ok (r, tbl_next_id tb + 1)
    /\ create "workers" (Routes.item_dict d) s
       = (set_table s "workers" (mkTable (tbl_columns tb) (tbl_fks tb) (tbl_rows tb ++ [r]) (tbl_next_id tb + 1)),
          Ok (Some r)).
Proof.
  intros Htb Hcol Hids Hn Hj.
  set (d' := format_data (Routes.item_dict d)).
  assert (Hj' : json_unserializable (PDict d') = None).
  { unfold d'. rewrite item_dict_format. cbn [json_unserializable first_some map fst snd Routes.item_dict Routes.worker_data_dict].
    rewrite !json_format_date by (by apply json_dict_get). reflexivity. }
  assert (Hfresh : filter_rows (id_filter (tbl_next_id tb)) (tbl_rows tb) = Ok []).
  { destruct (partition_rows_id (tbl_next_id tb) (tbl_rows tb)) as [_ ->].
    - eapply Forall_impl; [exact Hids|]. intros r (i & -> & _). by eexists.
    - f_equal. apply list_filter_none. eapply Forall_impl; [exact Hids|]. intros r (i & -> & Hi) [= ->]. lia. }
  assert (Hb : build_row "workers" tb (tbl_rows tb) (tbl_next_id tb) d'
               = Ok (map (fun c => (c, insert_cell d' (tbl_next_id tb) c)) (table_columns tb), tbl_next_id tb + 1)).
  { set (r := map (fun c => (c, insert_cell d' (tbl_next_id tb) c)) (table_columns tb)).
    assert (Hu : first_unknown (table_columns tb) (dict_keys d') = None)
      by (unfold table_columns, d'; rewrite Hcol, item_dict_format; reflexivity).
    assert (Hs : bool_decide ("id" ∈ table_columns tb) && negb (bool_decide ("id" ∈ dict_keys d')) = true)
      by (unfold table_columns, d'; rewrite Hcol, item_dict_format; reflexivity).
    assert (Hnull : first_null (tbl_columns tb) r = None)
      by (unfold r, table_columns, d'; rewrite Hcol, item_dict_format; reflexivity).
    assert (Hid : dict_lookup r "id" = Some (PInt (tbl_next_id tb)))
      by (unfold r, table_columns, d'; rewrite Hcol, item_dict_format; reflexivity).
    unfold build_row. cbv zeta. rewrite Hu, Hs, (proj2 (Z.leb_le _ _)) by lia. cbn [andb negb].
    fold r. rewrite Hnull. unfold check_id. rewrite Hid.
    assert (Hib : in_bigint (tbl_next_id tb) = true) by (unfold in_bigint, bigint_max in *; bool_goal; done).
    rewrite Hib, Hfresh. reflexivity. }
  eexists. split; [exact Hb|].
  unfold create, st_bind. cbn [execute store_backend]. unfold store_execute, Client.insert, Client.table.
  cbn [q_table q_action q_filters]. rewrite Htb. cbn [check_filters]. 
  unfold insert_table. fold d'. rewrite Hj'. cbn [body_objects res_bind insert_all]. rewrite Hb. reflexivity.
Qed.

(** From a store whose [workers] table keeps its invariant and whose
    sequence has room for them, the loop of [add_worker] creates every
    valid item in turn: the records it collects are appended to the table,
    each one holding its item's fields. *)
Lemma add_worker_loop_ok items acc s tb :
  tables s !! "workers" = Some tb -> workers_ids s ->
  Forall (fun w => exists d, w = PDict d /\ Routes.valid_item w = true /\ json_unserializable w = None) items ->
  tbl_next_id tb + Z.of_nat (length items) <= bigint_max + 1 ->
  exists new, Forall2 Routes.holds_item items new
    /\ contents (fst (Routes.add_worker_loop items acc s)) "workers" = Some (tbl_rows tb ++ new)
    /\ snd (Routes.add_worker_loop items acc s) = Ok (inr (acc ++ map PDict new)).
Proof.
  revert acc s tb. induction items as [|w items IH]; intros acc s tb Htb Hw Hitems Hroom.
  { exists []. simpl. rewrite Htb, !app_nil_r. auto. }
  apply Forall_cons in Hitems as [(d & -> & Hv & Hj) Hitems]. cbn [length] in Hroom.
  destruct Hw as (tb0 & Htb0 & Hcol & Hn & Hids). rewrite Htb in Htb0. injection Htb0 as <-.
  destruct (create_worker_ok s tb d Htb Hcol) as (r & Hb & Hc);
    [eapply Forall_impl; [exact Hids|]; intros r (i & Hi & Hb & _); exists i; split; [done|lia] | lia | done |].
  rewrite (Routes.add_worker_loop_valid d items acc s Hv), Hc. cbn [opt_dict].
  destruct (build_row_next_id _ _ _ _ _ _ _ Hb) as (Hri & _ & _);
    [by apply format_data_lookup_None | by apply workers_schema_id |].
  unfold row_id in Hri. destruct (dict_lookup r "id") as [vid|] eqn:Eid; [|discriminate].
  rewrite (Routes.truthy_row _ _ _ Eid).
  set (tb1 := mkTable (tbl_columns tb) (tbl_fks tb) (tbl_rows tb ++ [r]) (tbl_next_id tb + 1)).
  destruct (IH (acc ++ [PDict r]) (set_table s "workers" tb1) tb1) as (new & Hf & Hcn & Hsn).
  - simpl. by rewrite lookup_insert_eq.
  - exists tb1. simpl. rewrite lookup_insert_eq. split; [done|]. split; [done|]. split; [lia|].
    apply Forall_app. split; [eapply Forall_impl; [exact Hids|]; intros r' (i & Hi & Hb' & Hm); exists i; split; [done|lia]|].
    constructor; [|constructor]. exists (tbl_next_id tb). unfold row_id. rewrite Eid.
    destruct vid; try discriminate. injection Hri as ->. split; [done|lia].
  - done.
  - simpl. lia.
  - exists (r :: new). split; [constructor; [|done]|].
    + exists d. split; [done|]. split; [done|]. exact (proj1 (build_row_ok _ _ _ _ _ _ _ Hb)).
    + rewrite Hcn, Hsn. simpl. by rewrite <- app_assoc, <- app_assoc.
Qed.

(** Rows that all hold a non-negative [id]: one id per row, each one a
    URL [<int:id>] accepts. *)
Lemma row_ids_nonneg ws next :
  Forall (fun r => exists i, row_id r = Some i /\ 0 <= i < next /\ i <= bigint_max) ws ->
  Forall (fun i => 0 <= i) (omap row_id ws) /\ length (omap row_id ws) = length ws.
Proof.
  induction 1 as [|r ws (i & Hi & Hpos & _) _ [IHf IHl]]; [done|].
  simpl. rewrite Hi. split; [constructor; [lia|done]|]. cbn [length]. by f_equal.
Qed.

(** C40: liveness of [DELETE].  From any store the server can reach,
    one [DELETE /api/workers/<id>] per row of [workers], for the ids the
    table holds (all non-negative, so each one a URL the [<int:id>]
    converter routes), leaves the table empty: no worker the server ever
    created is beyond removal. *)
Theorem reachable_workers_deletable str_other debug s :
  reachable str_other debug s ->
  exists ws, contents s "workers" = Some ws
    /\ Forall (fun i => 0 <= i) (omap row_id ws) /\ length (omap row_id ws) = length ws
    /\ contents (snd (run str_other debug (map DeleteWorker (omap row_id ws)) s)) "workers" = Some [].
Proof.
  intros Hr. destruct (reachable_workers_ids _ _ _ Hr) as (tb & Htb & _ & _ & Hids).
  assert (Hc : contents s "workers" = Some (tbl_rows tb)) by (simpl; by rewrite Htb).
  exists (tbl_rows tb). split; [done|]. split; [apply (row_ids_nonneg _ _ Hids)|].
  split; [apply (row_ids_nonneg _ _ Hids)|].
  rewrite (run_deletes _ _ _ _ _ Hr Hc). f_equal. apply list_filter_none, Forall_forall.
  intros r Hr'. rewrite Forall_forall in Hids. destruct (Hids r Hr') as (j & Hj & _).
  rewrite Hj. intros Hn. apply Hn, list_elem_of_In, in_map, list_elem_of_In, list_elem_of_omap.
  eauto.
Qed.

(** C10: invariant.  After any sequence of requests from an empty
    database, every row of [workers] holds an integer [id] that the
    table's sequence has already given out: at least [0] and below the
    sequence's next value.  No route sends an [id] (the dict [add_worker]
    builds has none), so every [id] was drawn from the sequence; a route
    that passed a client's [id] through could store one above the
    sequence, which a later insert would then collide with. *)
Theorem reachable_ids_below_seq str_other debug s :
  reachable str_other debug s ->
  exists tb, tables s !! "workers" = Some tb
    /\ Forall (fun r => exists i, row_id r = Some i /\ 0 <= i < tbl_next_id tb) (tbl_rows tb).
Proof.
  intros Hr. destruct (reachable_workers_ids _ _ _ Hr) as (tb & Htb & _ & _ & Hids).
  exists tb. split; [done|]. eapply Forall_impl; [exact Hids|]. intros r (i & Hi & Hb & _). eauto.
Qed.

(** C31: a [POST] on any store the server can reach succeeds.  When
    every item is a dict with a truthy [name] and [number] whose values
    JSON can encode, and the [id] sequence has a value left for each
    one, the server answers [201] listing one created record per item,
    in order, each holding its item's fields, and appends exactly those
    records to [workers]: no insert of a reachable store fails, since
    the fresh [id]s never collide with the stored ones (C10). *)
Theorem reachable_post_created str_other debug s items :
  reachable str_other debug s ->
  Forall (fun w => exists d, w = PDict d /\ Routes.valid_item w = true /\ json_unserializable w = None) items ->
  (forall tb, tables s !! "workers" = Some tb -> tbl_next_id tb + Z.of_nat (length items) <= bigint_max + 1) ->
  exists ws new, contents s "workers" = Some ws /\ Forall2 Routes.holds_item items new
    /\ contents (fst (handle str_other debug (PostWorkers (JsonBody (PList items))) s)) "workers"
       = Some (ws ++ new)
    /\ snd (handle str_other debug (PostWorkers (JsonBody (PList items))) s)
       = Ok (mkResponse 201 (PDict [("message", PStr "Workers added successfully");
                                    ("workers", PList (map PDict new))])).
Proof.
  intros Hr Hitems Hroom. pose proof (reachable_workers_ids _ _ _ Hr) as Hw.
  destruct Hw as (tb & Htb & Hw'). 
  destruct (add_worker_loop_ok items [] s tb Htb (ex_intro _ tb (conj Htb Hw')) Hitems (Hroom tb Htb))
    as (new & Hf & Hc & Hs).
  exists (tbl_rows tb), new. split; [simpl; by rewrite Htb|]. split; [done|].
  cbn [handle]. rewrite Routes.add_worker_list. cbn [fst snd]. split; [done|]. by rewrite Hs.
Qed.

(** C35: without [SUPABASE_URL] the server never starts: the import of
    [supabase_config] raises [SupabaseException] (["Invalid URL"] for the
    placeholder, or ["supabase_key is required"] when [SUPABASE_KEY] is
    set empty), so [route9_supabase.py] registers no route and answers
    no request, whatever the key check of the library. *)
Theorem serve_unset_url key_ok str_other env rqs s0 :
  env !! "SUPABASE_URL" = None ->
  serve key_ok str_other env rqs s0
  = Err (SupabaseException (if String.eqb (SUPABASE_KEY env) "" then "supabase_key is required"
                            else "Invalid URL")).
Proof. intros Hu. unfold serve. by rewrite (module_init_unset_url key_ok env Hu). Qed.

(** ** Witnesses *)

Lemma serve_unset_url_witness :
  env_empty !! "SUPABASE_URL" = None
  /\ serve (fun _ => true) no_str env_empty [post_ana] empty_store
     = Err (SupabaseException "Invalid URL").
Proof. split; [reflexivity|]. exact (serve_unset_url (fun _ => true) no_str env_empty [post_ana] empty_store eq_refl). Defined.

Lemma reachable_workers_deletable_witness :
  let s := fst (handle no_str true post_bob (fst (handle no_str true post_ana empty_store))) in
  exists ws, contents s "workers" = Some ws
    /\ Forall (fun i => 0 <= i) (omap row_id ws) /\ length (omap row_id ws) = length ws
    /\ contents (snd (run no_str true (map DeleteWorker (omap row_id ws)) s)) "workers" = Some [].
Proof.
  apply (reachable_workers_deletable no_str true).
  apply (reach_step _ _ _ post_bob), (reach_step _ _ _ post_ana), reach_init.
Defined.

Lemma reachable_ids_below_seq_witness :
  let s := fst (handle no_str true post_bob (fst (handle no_str true post_ana empty_store))) in
  exists tb, tables s !! "workers" = Some tb
    /\ Forall (fun r => exists i, row_id r = Some i /\ 0 <= i < tbl_next_id tb) (tbl_rows tb).
Proof.
  apply (reachable_ids_below_seq no_str true).
  apply (reach_step _ _ _ post_bob), (reach_step _ _ _ post_ana), reach_init.
Defined.

Lemma reachable_post_created_witness :
  let s := fst (handle no_str true post_ana empty_store) in
  let items := [PDict [("name", PStr "Bob"); ("number", PStr "777")]] in
  exists ws new, contents s "workers" = Some ws /\ Forall2 Routes.holds_item items new
    /\ contents (fst (handle no_str true (PostWorkers (JsonBody (PList items))) s)) "workers"
       = Some (ws ++ new)
    /\ snd (handle no_str true (PostWorkers (JsonBody (PList items))) s)
       = Ok (mkResponse 201 (PDict [("message", PStr "Workers added successfully");
                                    ("workers", PList (map PDict new))])).
Proof.
  apply (reachable_post_created no_str true).
  - apply (reach_step _ _ _ post_ana), reach_init.
  - constructor; [|constructor]. eexists. split; [reflexivity|]. split; reflexivity.
  - intros tb Htb. vm_compute in Htb. injection Htb as <-. unfold bigint_max. simpl. lia.
Defined.
