(* ===== verification/Service.v ===== *)
(** * What the server answers

    The shape of every answer of the routes of [route9_supabase.py]:
    [returns Q m] says that whenever the computation [m] returns a value
    (rather than raising), the value satisfies [Q]; it composes through
    [st_bind], [st_try] and the branches of a handler like [preserves]
    of [Server.v] does for the state.  [response_ok] is the contract of
    the HTTP surface of the specification (section 6): a [200] or [201]
    carries a JSON array of records or an object whose first key is
    ['message'], and a [400], [404] or [500] carries exactly
    [{'error': <str>}]. *)

From S2P Require Import Prelude PyValue IsoFormat Like Backend Store Repository Handlers Server.

Open Scope string_scope.
Open Scope list_scope.
Open Scope Z_scope.

(** ** Results of a computation *)

Create HintDb returns.

Definition returns {S A} (Q : A -> Prop) (m : st S A) : Prop :=
  forall s, match snd (m s) with Ok a => Q a | Err _ => True end.

Section Returns.
Context {S : Type}.

Lemma returns_ret {A} (Q : A -> Prop) a : Q a -> returns (S:=S) Q (st_ret a).
Proof. intros Hq s. exact Hq. Qed.

Lemma returns_any {A} (m : st S A) : returns (fun _ => True) m.
Proof. intros s. by destruct (snd (m s)). Qed.

Lemma returns_bind {A B} (R : A -> Prop) (Q : B -> Prop) (m : st S A) (f : A -> st S B) :
  returns R m -> (forall a, R a -> returns Q (f a)) -> returns Q (st_bind m f).
Proof.
  intros Hm Hf s. unfold st_bind. specialize (Hm s).
  destruct (m s) as [s1 [a|e]]; [by apply Hf|done].
Qed.

Lemma returns_try {A} (Q : A -> Prop) (m : st S A) (h : py_exc -> st S A) :
  returns Q m -> (forall e, returns Q (h e)) -> returns Q (st_try m h).
Proof.
  intros Hm Hh s. unfold st_try. specialize (Hm s).
  destruct (m s) as [s1 [a|e]]; [done|apply Hh].
Qed.

Lemma returns_if {A} (Q : A -> Prop) (b : bool) (m1 m2 : st S A) :
  returns Q m1 -> returns Q m2 -> returns Q (if b then m1 else m2).
Proof. by destruct b. Qed.

End Returns.

#[export] Hint Resolve returns_ret returns_try returns_if : returns.

(** Split a handler into its binds, tries and branches; a bind whose
    first computation has a lemma in [returns] uses it, any other one
    is taken as returning anything. *)
Ltac solve_returns :=
  repeat match goal with
         | |- returns _ (st_bind _ _) =>
             first [eapply returns_bind; [solve [eauto with returns]|intros ? ?]
                   | eapply returns_bind; [apply returns_any|intros ? _]]
         | |- returns _ (st_try _ _) => apply returns_try; [|intros ?]
         | |- returns _ (if _ then _ else _) => apply returns_if
         | |- returns _ (match ?x with _ => _ end) => destruct x
         | |- returns _ (st_ret _) => apply returns_ret
         end.

(** ** The shapes of an answer *)

(** [{'error': <str>}] *)
Definition error_shaped (v : pyval) : bool :=
  match v with PDict [(k, PStr _)] => String.eqb k "error" | _ => false end.

(** A JSON array of records, or an object whose first key is ['message']. *)
Definition success_shaped (v : pyval) : bool :=
  match v with
  | PList l => forallb (fun x => match x with PDict _ => true | _ => false end) l
  | PDict ((k, PStr _) :: _) => String.eqb k "message"
  | _ => false
  end.

Definition response_ok (r : response) : bool :=
  if bool_decide (status r = 200 \/ status r = 201) then success_shaped (body r)
  else bool_decide (status r ∈ [400; 404; 500]) && error_shaped (body r).

Lemma response_ok_error c msg :
  c ∈ [400; 404; 500] -> response_ok (mkResponse c (error_body msg)) = true.
Proof.
  intros Hc. unfold response_ok. simpl.
  rewrite bool_decide_eq_false_2; [by rewrite bool_decide_eq_true_2|].
  apply list_elem_of_In in Hc. simpl in Hc. lia.
Qed.

Lemma response_ok_list rows c :
  c = 200 \/ c = 201 -> response_ok (mkResponse c (PList (map PDict rows))) = true.
Proof.
  intros Hc. unfold response_ok. simpl. rewrite bool_decide_eq_true_2 by done.
  by induction rows.
Qed.

Lemma response_ok_message c msg rest :
  c = 200 \/ c = 201 -> response_ok (mkResponse c (PDict (("message", PStr msg) :: rest))) = true.
Proof. intros Hc. unfold response_ok. simpl. by rewrite bool_decide_eq_true_2. Qed.

(** The loop of [add_worker] stops early only with [missing_fields]. *)
Lemma add_worker_loop_returns {S} `{Backend S} items acc :
  returns (fun o => match o with inl r => r = Routes.missing_fields | inr _ => True end)
          (Routes.add_worker_loop items acc).
Proof.
  revert acc. induction items as [|w items IH]; intros acc; simpl; solve_returns; done.
Qed.

#[export] Hint Resolve add_worker_loop_returns : returns.

Section Answers.
Context {S : Type} `{Backend S} (str_other : pyval -> string) (debug : bool).

Local Hint Extern 1 (response_ok (mkResponse _ (error_body _)) = true) =>
  apply response_ok_error; set_solver : returns.
Local Hint Extern 1 (response_ok (mkResponse _ (PList (map PDict _))) = true) =>
  apply response_ok_list; auto : returns.
Local Hint Extern 1 (response_ok (mkResponse _ (PDict (("message", PStr _) :: _))) = true) =>
  apply response_ok_message; auto : returns.

Lemma handle_returns rq : returns (fun r => response_ok r = true) (handle str_other debug rq).
Proof.
  destruct rq as [|body|i]; simpl;
    unfold Routes.get_workers, Routes.add_worker, Routes.delete_worker, Routes.server_error;
    solve_returns; subst; eauto with returns.
Qed.

(** C38: every answer of the server has the shape the specification
    gives the HTTP surface: whatever the request and the store, [handle]
    answers (never raises), with [200] or [201] and a JSON array of
    records or an object led by ['message'], or with [400], [404] or
    [500] and exactly [{'error': <str>}]. *)
Theorem handle_response_ok rq s :
  exists resp, snd (handle str_other debug rq s) = Ok resp /\ response_ok resp = true.
Proof.
  assert (Ha : exists resp, snd (handle str_other debug rq s) = Ok resp)
    by (destruct rq; apply st_try_server_error).
  destruct Ha as [resp Hr]. exists resp. split; [done|].
  pose proof (handle_returns rq s) as Hq. by rewrite Hr in Hq.
Qed.

End Answers.
