(* ===== verification/Cost.v ===== *)
(** * Round trips to the store: every request terminates

    The handlers and [SupabaseHelper] have no loop other than the [for]
    over a request body and no recursion, and the only call that can
    block is [execute()], one network round trip to the store
    (specification, section 5).  This file counts those round trips: a
    store [S] is instrumented as [S * nat], whose [execute] runs the
    store's and adds one to the counter ([counted_backend]), and
    [costs k m] says that the computation [m] makes at most [k] of them,
    whether it returns or raises.  The counter is the metric of the
    cost-annotated specifications of bedrock2's [MetricLogging]: the
    ensures clause bounds [mc' - mc].

    - [get_all_costs] ... [remove_related_records_costs]: every method of
      [SupabaseHelper] makes at most one round trip;
    - [handle_round_trips]: a request is answered after at most one round
      trip for [GET], two for [DELETE] and one per item for [POST]. *)

From S2P Require Import Prelude PyValue IsoFormat Like Backend Store Repository Handlers Server.

Open Scope string_scope.
Open Scope list_scope.

(** ** The counting store *)

Section Counted.
Context {S : Type} `{Backend S}.

(** The store with a counter of the requests sent to it. *)
#[local] Instance counted_backend : Backend (S * nat) := {
  execute q sn := let '(s', r) := execute q (fst sn) in ((s', (snd sn + 1)%nat), r);
  contents sn t := contents (fst sn) t;
  columns sn t := columns (fst sn) t;
}.

(** [m] sends at most [k] requests to the store. *)
Definition costs {A} (k : nat) (m : st (S * nat) A) : Prop :=
  forall s n, (snd (fst (m (s, n))) <= n + k)%nat.

Lemma costs_ret {A} (a : A) : costs 0 (st_ret a).
Proof. intros s n. simpl. lia. Qed.

Lemma costs_lift {A} (r : res A) : costs 0 (st_lift r).
Proof. intros s n. simpl. lia. Qed.

Lemma costs_execute q : costs 1 (execute q).
Proof. intros s n. simpl. destruct (@execute S _ q s) as [s1 r]. simpl. lia. Qed.

Lemma costs_bind {A B} k1 k2 (m : st (S * nat) A) (f : A -> st (S * nat) B) :
  costs k1 m -> (forall a, costs k2 (f a)) -> costs (k1 + k2) (st_bind m f).
Proof.
  intros Hm Hf s n. unfold st_bind. specialize (Hm s n).
  destruct (m (s, n)) as [[s1 n1] [a|e]]; simpl in *; [|lia].
  specialize (Hf a s1 n1). lia.
Qed.

Lemma costs_try {A} k1 k2 (m : st (S * nat) A) (h : py_exc -> st (S * nat) A) :
  costs k1 m -> (forall e, costs k2 (h e)) -> costs (k1 + k2) (st_try m h).
Proof.
  intros Hm Hh s n. unfold st_try. specialize (Hm s n).
  destruct (m (s, n)) as [[s1 n1] [a|e]]; simpl in *; [lia|].
  specialize (Hh e s1 n1). lia.
Qed.

Lemma costs_if {A} k1 k2 (b : bool) (m1 m2 : st (S * nat) A) :
  costs k1 m1 -> costs k2 m2 -> costs (Nat.max k1 k2) (if b then m1 else m2).
Proof. intros H1 H2 s n. destruct b; [specialize (H1 s n)|specialize (H2 s n)]; lia. Qed.

Lemma costs_weaken {A} k k' (m : st (S * nat) A) : costs k m -> (k <= k')%nat -> costs k' m.
Proof. intros Hm Hk s n. specialize (Hm s n). lia. Qed.

End Counted.

Create HintDb costs.
#[export] Hint Resolve costs_ret costs_lift costs_execute : costs.

(** Build the cost of a computation from its parts (the bound is left as
    an evar and computed), then check it against the goal with [lia]. *)
Ltac costs_step :=
  match goal with
  | |- costs _ (st_bind _ _) => eapply costs_bind; [|intros ?]
  | |- costs _ (st_try _ _) => eapply costs_try; [|intros ?]
  | |- costs _ (if _ then _ else _) => eapply costs_if
  | |- costs _ (match ?x with _ => _ end) => destruct x
  | |- costs _ _ => solve [eauto with costs]
  end.

Ltac solve_costs := eapply costs_weaken; [repeat costs_step|cbn; lia].

(** ** Every method of [SupabaseHelper] makes at most one round trip *)

Section Methods.
Context {S : Type} `{Backend S}.
Local Existing Instance counted_backend.

Lemma get_all_costs t f : costs (S := S) 1 (get_all t f).
Proof. unfold get_all. solve_costs. Qed.

Lemma get_by_id_costs t i : costs (S := S) 1 (get_by_id t i).
Proof. unfold get_by_id. solve_costs. Qed.

Lemma create_costs t d : costs (S := S) 1 (create t d).
Proof. unfold create. solve_costs. Qed.

Lemma update_costs t i d : costs (S := S) 1 (update t i d).
Proof. unfold update. solve_costs. Qed.

Lemma delete_costs t i : costs (S := S) 1 (delete t i).
Proof. unfold delete. solve_costs. Qed.

Lemma search_costs t c term : costs (S := S) 1 (search t c term).
Proof. unfold search. solve_costs. Qed.

Lemma get_by_date_range_costs t c lo hi : costs (S := S) 1 (get_by_date_range t c lo hi).
Proof. unfold get_by_date_range. solve_costs. Qed.

Lemma sum_column_costs t c f : costs (S := S) 1 (sum_column t c f).
Proof. unfold sum_column. solve_costs. Qed.

Lemma get_related_records_costs t j fk i : costs (S := S) 1 (get_related_records t j fk i).
Proof. unfold get_related_records. solve_costs. Qed.

Lemma add_related_records_costs j d : costs (S := S) 1 (add_related_records j d).
Proof. unfold add_related_records. solve_costs. Qed.

Lemma remove_related_records_costs j f : costs (S := S) 1 (remove_related_records j f).
Proof. unfold remove_related_records. solve_costs. Qed.

End Methods.

#[export] Hint Resolve get_all_costs get_by_id_costs create_costs delete_costs : costs.

(** ** Every request is answered after a bounded number of round trips *)

(** The round trips a request may take: [get_all] for [GET]; [get_by_id]
    and [delete] for [DELETE]; one [create] per item for [POST]. *)
Definition round_trips (rq : request) : nat :=
  match rq with
  | GetWorkers => 1
  | PostWorkers (JsonBody (PList items)) => length items
  | PostWorkers _ => 0
  | DeleteWorker _ => 2
  end.

Section Handlers.
Context {S : Type} `{Backend S}.
Local Existing Instance counted_backend.

(** A value already parsed (or a parse that failed) costs nothing. *)
Lemma costs_lift_ok {A B} k (a : A) (f : A -> st (S * nat) B) :
  costs k (f a) -> costs k (st_bind (st_lift (Ok a)) f).
Proof. intros Hf s n. exact (Hf s n). Qed.

Lemma costs_lift_err {A B} e (f : A -> st (S * nat) B) : costs 0 (st_bind (st_lift (Err e)) f).
Proof. intros s n. simpl. lia. Qed.

Lemma add_worker_loop_costs items acc :
  costs (S := S) (length items) (Routes.add_worker_loop items acc).
Proof. revert acc. induction items as [|w items IH]; intros acc; simpl; solve_costs. Qed.

Local Hint Resolve add_worker_loop_costs : costs.

Lemma add_worker_costs debug body :
  costs (S := S) (round_trips (PostWorkers body)) (Routes.add_worker debug body).
Proof.
  unfold Routes.add_worker, Routes.server_error.
  apply (costs_weaken (round_trips (PostWorkers body) + 0)); [|lia].
  apply costs_try; [|intros; apply costs_ret].
  destruct body as [v| |]; cbn [get_json]; [|apply costs_lift_err..].
  apply costs_lift_ok. destruct v; try apply costs_ret.
  apply (costs_weaken (length l + 0)); [|cbn; lia].
  eapply costs_bind; [apply add_worker_loop_costs|intros [?|?]; apply costs_ret].
Qed.

End Handlers.

(** C24: termination with a bound on the work: whatever the request
    and the store, the server answers after at most one round trip to
    the store for [GET /api/workers], two for [DELETE] (the lookup, then
    the delete) and one per item of the array for [POST] (none for a
    body that is not an array), counting the requests of an answer that
    ends in an exception. *)
Theorem handle_round_trips {S} `{Backend S} str_other debug rq (s : S) n :
  (snd (fst (@handle (S * nat) counted_backend str_other debug rq (s, n)))
   <= n + round_trips rq)%nat.
Proof.
  revert s n. change (costs (round_trips rq) (@handle (S * nat) counted_backend str_other debug rq)).
  destruct rq as [|body|i]; cbn [handle].
  - unfold Routes.get_workers, Routes.server_error. solve_costs.
  - apply add_worker_costs.
  - unfold Routes.delete_worker, Routes.server_error. solve_costs.
Qed.
